(** * The retrieval / identify / reformat chain of the financial compiler

    A shallow embedding of [reportChain] (src/runnables/runnables.ts, the
    second document of src/src/controllers/initializeController.ts) and of
    the JavaScript and LangChain operations it is built from, followed by
    the properties of the chain.

    Conventions.
    - A JavaScript string is a [string], read through its UTF-16 code
      units where the code counts or cuts (module [Utf16]); a value of
      type [any] is a [jsval]; a JavaScript number is an IEEE binary64
      [float].
    - A conversion that JavaScript performs implicitly ([`${v}`],
      [==]) throws its [TypeError] where JavaScript does.
    - The external collaborators (the Pinecone store, the retriever, the
      chat model) and the JavaScript built-ins that are not written out
      here ([JSON.parse], the string/number conversions, LangChain's
      rendering of a non-string template input) are the fields of
      [Externals]; every theorem holds for all of them.
    - A run threads the state of the outside world and records, in order,
      every console line and every outbound call. *)

From Stdlib Require Import String Ascii List Bool Arith ZArith Lia.
From Stdlib Require Import Floats Uint63 DecimalString.
Import ListNotations.
Open Scope string_scope.

(* ================================================================== *)
(** ** Strings *)

Module Str.

Definition nl : string := String (ascii_of_nat 10) EmptyString.
Definition dquote : string := String (ascii_of_nat 34) EmptyString.

(** [Array.prototype.join] on strings. *)
Fixpoint join (sep : string) (l : list string) : string :=
  match l with
  | [] => EmptyString
  | [x] => x
  | x :: rest => x ++ sep ++ join sep rest
  end.

(** The text of a template literal written over several source lines. *)
Definition lines (l : list string) : string := join nl l.

(** Decimal rendering of an array index or length. *)
Definition of_nat (n : nat) : string := NilZero.string_of_uint (Nat.to_uint n).

(** [hay.startsWith(needle)]. *)
Fixpoint starts_with (needle hay : string) : bool :=
  match needle, hay with
  | EmptyString, _ => true
  | String a n', String b h' => Ascii.eqb a b && starts_with n' h'
  | String _ _, EmptyString => false
  end.

(** [hay.includes(needle)]: [needle] occurs verbatim in [hay]. *)
Fixpoint includes (needle hay : string) : bool :=
  starts_with needle hay ||
  match hay with
  | EmptyString => false
  | String _ h' => includes needle h'
  end.

End Str.

(* ================================================================== *)
(** ** JavaScript strings and their code units

    A [string] stands for a JavaScript string through the bytes of its
    UTF-16 code units, each unit written in UTF-8 on its own (one to
    three bytes, a surrogate like any other unit; this is what
    [JSON.utf8] below produces for an escape). Concatenation of
    JavaScript strings is then concatenation of the bytes, while
    [length] and [substring] count code units, not bytes. *)

Module Utf16.

Definition byte (n : N) : string := String (ascii_of_N n) EmptyString.

(** The bytes of one code unit. *)
Definition utf8 (u : N) : string :=
  if (u <? 128)%N then byte u
  else if (u <? 2048)%N then byte (192 + u / 64) ++ byte (128 + u mod 64)
  else byte (224 + u / 4096) ++ byte (128 + (u / 64) mod 64) ++ byte (128 + u mod 64).

(** The string of a sequence of code units. *)
Fixpoint encode (us : list N) : string :=
  match us with
  | [] => EmptyString
  | u :: rest => utf8 u ++ encode rest
  end.

(** The code units of a string. A four-byte sequence (a character
    beyond the basic plane written in plain UTF-8) is read as its
    surrogate pair; a byte that starts no sequence counts as one unit. *)
Fixpoint units (s : string) : list N :=
  match s with
  | EmptyString => []
  | String a rest =>
      let b0 := N_of_ascii a in
      if (b0 <? 192)%N then b0 :: units rest
      else if (b0 <? 224)%N then
        match rest with
        | String a1 rest1 =>
            ((b0 - 192) * 64 + N_of_ascii a1 mod 64)%N :: units rest1
        | EmptyString => [(b0 - 192) * 64]%N
        end
      else if (b0 <? 240)%N then
        match rest with
        | String a1 (String a2 rest2) =>
            ((b0 - 224) * 4096 + (N_of_ascii a1 mod 64) * 64 + N_of_ascii a2 mod 64)%N
              :: units rest2
        | String a1 EmptyString => [(b0 - 224) * 4096 + (N_of_ascii a1 mod 64) * 64]%N
        | EmptyString => [(b0 - 224) * 4096]%N
        end
      else
        match rest with
        | String a1 (String a2 (String a3 rest3)) =>
            let cp :=
              ((b0 mod 8) * 262144 + (N_of_ascii a1 mod 64) * 4096
               + (N_of_ascii a2 mod 64) * 64 + N_of_ascii a3 mod 64)%N in
            (55296 + ((cp - 65536) / 1024) mod 1024)%N
              :: (56320 + (cp - 65536) mod 1024)%N :: units rest3
        | _ => [65533%N]
        end
  end.

(** [s.length]. *)
Definition length (s : string) : nat := List.length (units s).

(** [s.substring(start, end)] for [start <= end]. *)
Definition substring (start end_ : nat) (s : string) : string :=
  encode (firstn (end_ - start) (skipn start (units s))).

(** A string that is the encoding of its code units. *)
Definition well_formed (s : string) : Prop := encode (units s) = s.

End Utf16.

(* ================================================================== *)
(** ** JavaScript values *)

#[local] Set Warnings "-register-all".

(** A value of type [any]: what [JSON.parse] produces, plus [undefined]
    for an absent property. *)
Inductive jsval : Type :=
| VUndefined
| VNull
| VBool (b : bool)
| VNum (n : float)
| VStr (s : string)
| VArr (items : list jsval)
| VObj (fields : list (string * jsval)).

(** Property access [o.key] on a plain object; [undefined] when the
    property is absent. *)
Fixpoint get_field (fields : list (string * jsval)) (key : string) : jsval :=
  match fields with
  | [] => VUndefined
  | (k, v) :: rest => if String.eqb k key then v else get_field rest key
  end.

(** [key in o]. *)
Fixpoint has_field (fields : list (string * jsval)) (key : string) : bool :=
  match fields with
  | [] => false
  | (k, _) :: rest => String.eqb k key || has_field rest key
  end.

(** [v?.key] for the keys the chain reads ([element_id], which no
    primitive, array or wrapper prototype defines). *)
Definition opt_get (v : jsval) (key : string) : jsval :=
  match v with
  | VObj fields => get_field fields key
  | _ => VUndefined
  end.

Definition is_nan (n : float) : bool := negb (PrimFloat.eqb n n).

(* ================================================================== *)
(** ** Errors *)

(** What a stage can throw. The code defines no error classes of its
    own: a failure is whatever the failing call or conversion threw,
    tagged here with where it came from. *)
Inductive error : Type :=
| SyntaxError (text : string)        (* JSON.parse rejected [text] *)
| TemplateError (message : string)   (* PromptTemplate: malformed template or missing input *)
| StoreError (message : string)      (* pineconeService.createStore() threw *)
| RetrieverError (message : string)  (* vectorStoreRetriver.invoke() threw *)
| LlmError (message : string)        (* llm.invoke() threw *)
| ConversionError (message : string). (* the TypeError of a conversion to a primitive *)

(** The first error of a list of outcomes, or all their values. *)
Fixpoint sequence {A} (l : list (error + A)) : error + list A :=
  match l with
  | [] => inr []
  | inl e :: _ => inl e
  | inr a :: rest =>
      match sequence rest with
      | inl e => inl e
      | inr r => inr (a :: r)
      end
  end.

(* ================================================================== *)
(** ** Conversions *)

Section Conversions.

(** [Number::toString] and [StringToNumber] of ECMA-262, not written
    out here. *)
Variable NumberToString : float -> string.
Variable StringToNumber : string -> float.

(** What [ToPrimitive] throws when neither [toString] nor [valueOf]
    of an object yields a primitive. *)
Definition notPrimitive : error :=
  ConversionError "Cannot convert object to primitive value".

(** [ToString], as performed by a template literal [`${v}`], and
    [ToPrimitive] of an array or a plain object, which comes to the
    same. The properties of a value are data ([jsval] has no functions):
    an object that has a property [toString] of its own hides
    [Object.prototype.toString] behind a value that cannot be called,
    [Object.prototype.valueOf] returns the object itself, and the
    conversion throws; any other plain object is ["[object Object]"].
    An array is joined with commas, [undefined] and [null] elements
    rendering as nothing, and throws when the conversion of an element
    does. *)
Fixpoint ToString (v : jsval) : error + string :=
  match v with
  | VUndefined => inr "undefined"
  | VNull => inr "null"
  | VBool true => inr "true"
  | VBool false => inr "false"
  | VNum n => inr (NumberToString n)
  | VStr s => inr s
  | VArr items =>
      match sequence
              (map (fun x => match x with
                             | VUndefined | VNull => inr EmptyString
                             | _ => ToString x
                             end) items) with
      | inl e => inl e
      | inr texts => inr (Str.join "," texts)
      end
  | VObj fields =>
      if has_field fields "toString" then inl notPrimitive
      else inr "[object Object]"
  end.

(** [ToNumber]. *)
Definition ToNumber (v : jsval) : error + float :=
  match v with
  | VUndefined => inr nan
  | VNull => inr 0%float
  | VBool true => inr 1%float
  | VBool false => inr 0%float
  | VNum n => inr n
  | VStr s => inr (StringToNumber s)
  | VArr _ | VObj _ =>
      match ToString v with
      | inl e => inl e
      | inr s => inr (StringToNumber s)
      end
  end.

(** [ToNumber(x) == ToNumber(y)] on numbers. *)
Definition same_number (x y : jsval) : error + bool :=
  match ToNumber x, ToNumber y with
  | inl e, _ | _, inl e => inl e
  | inr a, inr b => inr (PrimFloat.eqb a b)
  end.

(** [ToPrimitive(x) == s] for a string [s]. *)
Definition same_text (x : jsval) (s : string) : error + bool :=
  match ToString x with
  | inl e => inl e
  | inr t => inr (String.eqb t s)
  end.

(** [ToBoolean]. *)
Definition ToBoolean (v : jsval) : bool :=
  match v with
  | VUndefined | VNull => false
  | VBool b => b
  | VNum n => negb (PrimFloat.eqb n 0%float || is_nan n)
  | VStr s => negb (String.eqb s EmptyString)
  | VArr _ | VObj _ => true
  end.

(** [a || b]. *)
Definition js_or (a b : jsval) : jsval := if ToBoolean a then a else b.

(** [x == y] (IsLooselyEqual) where [y] is a value freshly produced by
    [JSON.parse], so that two objects are never the same reference.
    Comparing an array or an object with a string, a number or a boolean
    converts it to a primitive first, which can throw. *)
Definition loose_eq (x y : jsval) : error + bool :=
  match x with
  | VUndefined | VNull =>
      match y with VUndefined | VNull => inr true | _ => inr false end
  | VBool a =>
      match y with
      | VUndefined | VNull => inr false
      | VBool b => inr (Bool.eqb a b)
      | _ => same_number x y
      end
  | VNum a =>
      match y with
      | VUndefined | VNull => inr false
      | _ => same_number x y
      end
  | VStr a =>
      match y with
      | VUndefined | VNull => inr false
      | VStr b => inr (String.eqb a b)
      | VArr _ | VObj _ => same_text y a
      | _ => same_number x y
      end
  | VArr _ | VObj _ =>
      match y with
      | VUndefined | VNull => inr false
      | VArr _ | VObj _ => inr false
      | VStr b => same_text x b
      | _ => same_number x y
      end
  end.

End Conversions.

(* ================================================================== *)
(** ** Documents and chat messages *)

(** LangChain's [Document]: [metadata] is a [Record<string, any>],
    [{}] when the constructor was given none. *)
Record Document : Type := mkDocument {
  pageContent : string;
  metadata : list (string * jsval)
}.

(** The chat model's reply; [StringOutputParser] returns its text. *)
Record AIMessage : Type := mkAIMessage { content : string }.

(** [docConfigSchema]: four strings. *)
Record DocConfig : Type := mkDocConfig {
  docName : string;
  companyName : string;
  docType : string;
  reportType : string
}.

(* ================================================================== *)
(** ** LangChain prompt templates (f-string format) *)

Module PromptTemplate.

Inductive node : Type :=
| literal (text : string)
| variable (name : string).

Inductive mode : Type :=
| InLiteral (acc : string)
| InVariable (acc : string).

Definition flush (acc : string) (rest : list node) : list node :=
  match acc with
  | EmptyString => rest
  | _ => literal acc :: rest
  end.

Definition snoc (acc : string) (c : ascii) : string :=
  acc ++ String c EmptyString.

Definition then_nodes (pre : list node) (r : error + list node) : error + list node :=
  match r with
  | inl e => inl e
  | inr ns => inr (pre ++ ns)%list
  end.

(** [parseFString]: a doubled brace is a literal brace, [{name}] a
    variable reaching to the next closing brace. *)
Fixpoint parseFString (s : string) (m : mode) : error + list node :=
  match m with
  | InVariable acc =>
      match s with
      | EmptyString => inl (TemplateError "Unclosed '{' in template.")
      | String "}" rest => then_nodes [variable acc] (parseFString rest (InLiteral EmptyString))
      | String c rest => parseFString rest (InVariable (snoc acc c))
      end
  | InLiteral acc =>
      match s with
      | EmptyString => inr (flush acc [])
      | String "{" (String "{" rest) => parseFString rest (InLiteral (snoc acc "{"))
      | String "}" (String "}" rest) => parseFString rest (InLiteral (snoc acc "}"))
      | String "{" rest => then_nodes (flush acc []) (parseFString rest (InVariable EmptyString))
      | String "}" _ => inl (TemplateError "Single '}' in template.")
      | String c rest => parseFString rest (InLiteral (snoc acc c))
      end
  end.

(** A template that [fromTemplate] accepted. *)
Record t : Type := mk { nodes : list node }.

Definition fromTemplate (template : string) : error + t :=
  match parseFString template (InLiteral EmptyString) with
  | inl e => inl e
  | inr ns => inr (mk ns)
  end.

Section Format.

(** How the library renders an input value that is not a string
    (it differs between releases of @langchain/core). *)
Variable renderInput : jsval -> string.

(** The text inserted for an input value: a string as it is. *)
Definition render (v : jsval) : string :=
  match v with
  | VStr s => s
  | other => renderInput other
  end.

(** [interpolateFString]: a variable whose name is not a key of
    [values] is an error. *)
Fixpoint interpolate (ns : list node) (values : list (string * jsval)) : error + string :=
  match ns with
  | [] => inr EmptyString
  | literal text :: rest =>
      match interpolate rest values with
      | inl e => inl e
      | inr s => inr (text ++ s)
      end
  | variable name :: rest =>
      if has_field values name then
        match interpolate rest values with
        | inl e => inl e
        | inr s =>
            inr (render (get_field values name) ++ s)
        end
      else inl (TemplateError ("(f-string) Missing value for input " ++ name))
  end.

Definition format (p : t) (values : list (string * jsval)) : error + string :=
  interpolate (nodes p) values.

End Format.

End PromptTemplate.

(* ================================================================== *)
(** ** The outside world and what a run leaves behind *)

(** One argument of a [console.log] / [console.error] call. *)
Inductive logarg : Type :=
| LStr (s : string)
| LVal (v : jsval)
| LDoc (d : Document)
| LMsg (m : AIMessage)
| LErr (e : error)
| LJson (v : jsval).                 (* JSON.stringify(v, null, 2) *)

Inductive event : Type :=
| ConsoleLog (args : list logarg)
| ConsoleError (args : list logarg)
| CreateStore                        (* new PineconeService().createStore() *)
| CreateLlm                          (* new ChatOpenAI({model: "gpt-4o", temperature: 0}) *)
| RetrieverInvoke (k : nat) (query : string)
| LlmInvoke (prompt : string).

(** The collaborators of the chain. A call reads and updates the state
    of the world and either returns or throws (the [string] is the
    message of what was thrown). *)
Record Externals (World : Type) : Type := mkExternals {
  createStore : World -> (string + unit) * World;
  createLlm : World -> (string + unit) * World;
  retrieverInvoke : nat -> string -> World -> (string + list Document) * World;
  llmInvoke : string -> World -> (string + AIMessage) * World;
  JSON_parse : string -> option jsval;
  NumberToString : float -> string;
  StringToNumber : string -> float;
  renderInput : jsval -> string
}.

Arguments createStore {World}.
Arguments createLlm {World}.
Arguments retrieverInvoke {World}.
Arguments llmInvoke {World}.
Arguments JSON_parse {World}.
Arguments NumberToString {World}.
Arguments StringToNumber {World}.
Arguments renderInput {World}.

(** The state a run threads: the world, and the console lines and
    outbound calls so far, oldest first. *)
Record state (World : Type) : Type := mkState {
  world : World;
  trace : list event
}.

Arguments mkState {World}.
Arguments world {World}.
Arguments trace {World}.

(** An [async] computation: it ends with a value or with a thrown
    error, in a new state. *)
Definition M (World A : Type) : Type := state World -> (error + A) * state World.

Module Async.

Section Ops.
Context {World : Type}.

Definition ret {A} (a : A) : M World A := fun s => (inr a, s).

Definition throw {A} (e : error) : M World A := fun s => (inl e, s).

Definition bind {A B} (m : M World A) (k : A -> M World B) : M World B :=
  fun s =>
    match m s with
    | (inl e, s') => (inl e, s')
    | (inr a, s') => k a s'
    end.

(** [try { m } catch (error) { h error }]. *)
Definition try_catch {A} (m : M World A) (h : error -> M World A) : M World A :=
  fun s =>
    match m s with
    | (inl e, s') => h e s'
    | (inr a, s') => (inr a, s')
    end.

Definition emit (ev : event) : M World unit :=
  fun s => (inr tt, mkState (world s) (trace s ++ [ev])).

(** A value or error already computed. *)
Definition lift {A} (r : error + A) : M World A :=
  match r with
  | inl e => throw e
  | inr a => ret a
  end.

(** An outbound call: recorded, then performed on the world. *)
Definition call {A} (ev : event) (tag : string -> error)
           (f : World -> (string + A) * World) : M World A :=
  fun s =>
    match f (world s) with
    | (inl msg, w') => (inl (tag msg), mkState w' (trace s ++ [ev]))
    | (inr a, w') => (inr a, mkState w' (trace s ++ [ev]))
    end.

End Ops.

End Async.

Notation "x <- m ;; k" := (Async.bind m (fun x => k))
  (at level 61, m at next level, right associativity).
Notation "m ;;; k" := (Async.bind m (fun _ => k))
  (at level 61, right associativity).

Definition console_log {World} (args : list logarg) : M World unit :=
  Async.emit (ConsoleLog args).

Definition console_error {World} (args : list logarg) : M World unit :=
  Async.emit (ConsoleError args).

(** [l.map((x, index) => f x index)]. *)
Fixpoint mapi_from {A B} (i : nat) (f : A -> nat -> B) (l : list A) : list B :=
  match l with
  | [] => []
  | x :: rest => f x i :: mapi_from (S i) f rest
  end.

Definition mapi {A B} (f : A -> nat -> B) (l : list A) : list B := mapi_from 0 f l.

(** [docArray.find(doc => p doc ? doc : undefined)]: the first element,
    in array order, on which the callback returns a truthy value; the
    search ends with what the callback throws when it throws first. *)
Fixpoint array_find {A} (p : A -> error + bool) (l : list A) : error + option A :=
  match l with
  | [] => inr None
  | x :: rest =>
      match p x with
      | inl e => inl e
      | inr true => inr (Some x)
      | inr false => array_find p rest
      end
  end.

(* ================================================================== *)
(** ** The prompt templates of [reportChain] *)

Definition searchTemplateText : string :=
  "What is {companyName}s {reportType} for their {docType} statement?".

Definition __idImprovedTemplate : string :=
  Str.lines
    [ "You are responsible for identifying which document from the returned results is likely to be the {reportType} ";
      "    from {companyName}'s {docType}.";
      EmptyString;
      "    Below are the documents that were retrieved:";
      EmptyString;
      "    {formattedDocs}";
      EmptyString;
      "    Please identify which document contains the {reportType} for {companyName}'s {docType}.";
      "    Return your answer as a JSON object with the following format:";
      EmptyString;
      "    {{";
      "      " ++ Str.dquote ++ "element_id" ++ Str.dquote ++ ": " ++ Str.dquote ++ "the element_id of the identified document" ++ Str.dquote ++ ",";
      "      " ++ Str.dquote ++ "filename" ++ Str.dquote ++ ": " ++ Str.dquote ++ "the source/filename of the identified document" ++ Str.dquote;
      "    }}";
      EmptyString;
      "    Return ONLY the JSON with no markdown formatting, no +" ++ Str.dquote ++ Str.dquote ++ "+ json blocks, and no additional text before or after the JSON.";
      "    Make sure to include the exact element_id and source/filename from the metadata of the document you identify." ].

Definition __htmlFormattingTemplate : string :=
  Str.lines
    [ "You are a system responsible for formatting html tables, you will be passed html-like content that contains formatting issues";
      "    your role is to assess the content provided, identify mistakes, and improve / enrich the formatting while staying as critically accurate to the underlying data";
      "    given in the tables";
      EmptyString;
      "    Below are is the provided table content: ";
      EmptyString;
      "    {tableContent}";
      EmptyString;
      "    Return your answer as a JSON object with the following format: ";
      EmptyString;
      "    {{";
      "      " ++ Str.dquote ++ "reformatted_content" ++ Str.dquote ++ ": " ++ Str.dquote ++ "your output improved html-formatted content" ++ Str.dquote ++ " ";
      "    }}";
      EmptyString;
      "    Return ONLY the JSON with no markdown formatting, no +" ++ Str.dquote ++ Str.dquote ++ "+ json blocks, and no additional text before or after the JSON.";
      "    Make sure to include the exact element_id and source/filename from the metadata of the document you identify." ].

(* ================================================================== *)
(** ** [reportChain] *)

Section ReportChain.

Context {World : Type}.
Variable X : Externals World.

(** [doc.metadata?.key]. *)
Definition meta (doc : Document) (key : string) : jsval :=
  get_field (metadata doc) key.

(** [`${v}`]. *)
Definition show (v : jsval) : error + string := ToString (NumberToString X) v.

(** [`${v || 'unknown'}`]. *)
Definition or_unknown (v : jsval) : error + string := show (js_or v (VStr "unknown")).

(** [doc.metadata.element_id == docMatchID]. *)
Definition id_matches (docMatchID : jsval) (doc : Document) : error + bool :=
  loose_eq (NumberToString X) (StringToNumber X) (meta doc "element_id") docMatchID.

(** The callback of [forEach] in step 2, for one retrieved document:
    each line is written once its text has been built. *)
Definition previewDoc (doc : Document) (index : nat) : M World unit :=
  console_log [LStr (Str.nl ++ "Document " ++ Str.of_nat (index + 1) ++ ":")] ;;;
  console_log [LDoc doc] ;;;
  id <- Async.lift (or_unknown (meta doc "element_id")) ;;
  console_log [LStr ("- ID: " ++ id)] ;;;
  source <- Async.lift (or_unknown (meta doc "source")) ;;
  console_log [LStr ("- Source: " ++ source)] ;;;
  text <- Async.lift (show (meta doc "text_preview")) ;;
  console_log [LStr ("- Content (first 150 chars): " ++ text ++ "...")].

(** [l.forEach((x, index) => f x index)]. *)
Fixpoint forEach_from {A} (i : nat) (f : A -> nat -> M World unit) (l : list A)
  : M World unit :=
  match l with
  | [] => Async.ret tt
  | x :: rest => f x i ;;; forEach_from (S i) f rest
  end.

Definition forEach {A} (f : A -> nat -> M World unit) (l : list A) : M World unit :=
  forEach_from 0 f l.

(** The text block of step 3 for one retrieved document. *)
Definition formatDoc (doc : Document) (index : nat) : error + string :=
  match or_unknown (meta doc "element_id") with
  | inl e => inl e
  | inr id =>
  match or_unknown (meta doc "filename") with
  | inl e => inl e
  | inr filename =>
  match show (meta doc "text_preview") with
  | inl e => inl e
  | inr text =>
      inr (Str.lines
             [ "Document " ++ Str.of_nat (index + 1) ++ ":";
               "- Element ID: " ++ id;
               "- Source/Filename: " ++ filename;
               "- Content snippet: " ++ text ++ "..." ])
  end end end.

(** [docs.map(formatDoc).join('\n\n')]. *)
Definition formatDocs (docs : list Document) : error + string :=
  match sequence (mapi formatDoc docs) with
  | inl e => inl e
  | inr blocks => inr (Str.join (Str.nl ++ Str.nl) blocks)
  end.

Section Steps.

Variable docArray : list Document.
Variables companyName' docType' reportType' : string.
Variables searchTemplate idImprovedTemplate htmlFormattingTemplate : PromptTemplate.t.

(** Step 1: format the search query. *)
Definition step1 (input : DocConfig) : M World string :=
  formatted <- Async.lift
    (PromptTemplate.format (renderInput X) searchTemplate
       [ ("companyName", VStr (companyName input));
         ("reportType", VStr (reportType input));
         ("docType", VStr (docType input)) ]) ;;
  console_log [LStr (Str.nl ++ "1. Formatted Search Query:")] ;;;
  console_log [LStr formatted] ;;;
  Async.ret formatted.

(** Step 2: retrieve documents. *)
Definition step2 (query : string) : M World (list Document) :=
  console_log [LStr (Str.nl ++ "2. Retrieving documents with query...")] ;;;
  docs <- Async.call (RetrieverInvoke 5 query) RetrieverError (retrieverInvoke X 5 query) ;;
  console_log [LStr ("Retrieved " ++ Str.of_nat (length docs) ++ " documents")] ;;;
  (if (0 <? length docs)%nat then
     console_log [LStr (Str.nl ++ "Document Previews:")] ;;;
     forEach previewDoc (firstn 3 docs)
   else Async.ret tt) ;;;
  Async.ret docs.

(** Step 3: format the documents for the template. *)
Definition step3 (docs : list Document) : M World (list (string * jsval)) :=
  console_log [LStr (Str.nl ++ "3. Formatting documents for template...")] ;;;
  formattedDocs <- Async.lift (formatDocs docs) ;;
  let context :=
    [ ("formattedDocs", VStr formattedDocs);
      ("reportType", VStr reportType');
      ("companyName", VStr companyName');
      ("docType", VStr docType') ] in
  console_log [LStr "Documents formatted for template input"] ;;;
  Async.ret context.

(** The tail of steps 4 and 8: preview of the rendered prompt. *)
Definition preview (formattedPrompt : string) : M World unit :=
  console_log [LStr "Template preview (first 300 chars):"] ;;;
  console_log [LStr (Utf16.substring 0 300 formattedPrompt ++ "...")].

(** Step 4: format the ID template with the formatted documents. *)
Definition step4 (context : list (string * jsval)) : M World string :=
  console_log [LStr (Str.nl ++ "4. Formatting ID template with formatted documents...")] ;;;
  formattedPrompt <- Async.lift
    (PromptTemplate.format (renderInput X) idImprovedTemplate context) ;;
  console_log [LStr "ID Template formatted successfully"] ;;;
  preview formattedPrompt ;;;
  Async.ret formattedPrompt.

(** Step 5: call the model. *)
Definition step5 (prompt : string) : M World AIMessage :=
  console_log [LStr (Str.nl ++ "5. Sending to LLM with formatted prompt...")] ;;;
  response <- Async.call (LlmInvoke prompt) LlmError (llmInvoke X prompt) ;;
  console_log [LStr "Received response from LLM"] ;;;
  console_log [LStr "Raw response:"] ;;;
  console_log [LMsg response] ;;;
  Async.ret response.

(** [JSON.parse(text)]. *)
Definition parseJSON (text : string) : M World jsval :=
  match JSON_parse X text with
  | Some v => Async.ret v
  | None => Async.throw (SyntaxError text)
  end.

(** Step 6: parse the result. *)
Definition step6 (llmResponse : AIMessage) : M World jsval :=
  console_log [LStr (Str.nl ++ "6. Parsing result...")] ;;;
  let result := content llmResponse in
  console_log [LStr "parsed string result:"] ;;;
  console_log [LStr result] ;;;
  resultJSON <- parseJSON result ;;
  Async.ret resultJSON.

(** Step 7: match the output ID to the document array to source
    the content. *)
Definition step7 (result : jsval) : M World (list (string * jsval)) :=
  console_log [LStr (Str.nl ++ "7. Content matching output ID")] ;;;
  Async.try_catch
    (let docMatchID := opt_get result "element_id" in
     matchedDoc <- Async.lift (array_find (id_matches docMatchID) docArray) ;;
     match matchedDoc with
     | Some doc => console_log [LDoc doc]
     | None => Async.ret tt
     end ;;;
     let tableContent :=
       match matchedDoc with
       | Some doc => meta doc "text_as_html"
       | None => VUndefined
       end in
     let context := [ ("tableContent", tableContent) ] in
     console_log [LVal (VObj context)] ;;;
     Async.ret context)
    (fun error =>
       console_log [LStr "unable to complete ID matching process"] ;;;
       Async.throw error).

(** Step 8: format the enhancement prompt with the fetched table. *)
Definition step8 (context : list (string * jsval)) : M World string :=
  console_log [LStr (Str.nl ++ "8. Formatting enhancement prompt with fetched data...")] ;;;
  formattedPrompt <- Async.lift
    (PromptTemplate.format (renderInput X) htmlFormattingTemplate context) ;;
  console_log [LStr "html formatting prompt successfully formatted"] ;;;
  preview formattedPrompt ;;;
  Async.ret formattedPrompt.

(** Step 9: run through the model for better formatted HTML. *)
Definition step9 (formattedPrompt : string) : M World AIMessage :=
  console_log [LStr (Str.nl ++ "9. Running through LLM for improved HTML formatting...")] ;;;
  response <- Async.call (LlmInvoke formattedPrompt) LlmError (llmInvoke X formattedPrompt) ;;
  console_log [LStr "Received response from LLM"] ;;;
  Async.ret response.

(** Step 10: parse the final results. *)
Definition step10 (response : AIMessage) : M World string :=
  console_log [LStr (Str.nl ++ "10. Parsing Final result...")] ;;;
  Async.ret (content response).

(** [RunnableSequence.from([...]).invoke]: each step receives what
    the step before it returned. *)
Definition debugChain (input : DocConfig) : M World string :=
  formatted <- step1 input ;;
  docs <- step2 formatted ;;
  context <- step3 docs ;;
  prompt <- step4 context ;;
  llmResponse <- step5 prompt ;;
  result <- step6 llmResponse ;;
  context' <- step7 result ;;
  formattedPrompt <- step8 context' ;;
  response <- step9 formattedPrompt ;;
  step10 response.

End Steps.

(** The [try] block of [reportChain]; the four strings are the
    constants read from the configuration before it. *)
Definition tryBlock (docArray : list Document)
           (docName companyName docType reportType : string) : M World jsval :=
  searchTemplate <- Async.lift (PromptTemplate.fromTemplate searchTemplateText) ;;
  Async.call CreateStore StoreError (createStore X) ;;;
  Async.call CreateLlm LlmError (createLlm X) ;;;
  let chainInput := mkDocConfig docName companyName docType reportType in
  idImprovedTemplate <- Async.lift (PromptTemplate.fromTemplate __idImprovedTemplate) ;;
  htmlFormattingTemplate <- Async.lift (PromptTemplate.fromTemplate __htmlFormattingTemplate) ;;
  console_log [LStr (Str.nl ++ "Executing chain with step-by-step logging...")] ;;;
  result <- debugChain docArray companyName docType reportType
              searchTemplate idImprovedTemplate htmlFormattingTemplate chainInput ;;
  jsonResult <- parseJSON result ;;
  console_log [LStr (Str.nl ++ "----------------------------------------")] ;;;
  console_log [LStr "FINAL RESULT (Parsed JSON):"] ;;;
  console_log [LJson jsonResult] ;;;
  Async.ret jsonResult.

(** Its [catch] block. *)
Definition catchBlock (error : error) : M World jsval :=
  console_error [LStr "Error in document retrieval pipeline:"; LErr error] ;;;
  console_error [LStr "Caused by:"; LErr error] ;;;
  Async.throw error.

Definition reportChain (docArray : list Document) (docConfig : DocConfig) : M World jsval :=
  let docName := docName docConfig in
  let companyName := companyName docConfig in
  let docType := docType docConfig in
  let reportType := reportType docConfig in
  console_log [LStr "Starting document retrieval pipeline..."] ;;;
  console_log [LStr "Configuration:"] ;;;
  console_log [LStr ("- Document: " ++ docName)] ;;;
  console_log [LStr ("- Company: " ++ companyName)] ;;;
  console_log [LStr ("- Document Type: " ++ docType)] ;;;
  console_log [LStr ("- Report Type: " ++ reportType)] ;;;
  console_log [LStr "----------------------------------------"] ;;;
  Async.try_catch (tryBlock docArray docName companyName docType reportType) catchBlock.

(** One invocation, from a world [w] and an empty record. *)
Definition run (docArray : list Document) (docConfig : DocConfig) (w : World)
  : (error + jsval) * state World :=
  reportChain docArray docConfig (mkState w []).

End ReportChain.

(* ================================================================== *)
(** ** A reference [JSON.parse] and stubbed collaborators

    Used to run the chain on concrete inputs. The theorems below do not
    depend on them: they hold for every [Externals]. *)

Module JSON.

Definition is_ws (c : ascii) : bool :=
  let n := nat_of_ascii c in
  (n =? 32)%nat || (n =? 9)%nat || (n =? 10)%nat || (n =? 13)%nat.

Definition is_digit (c : ascii) : bool :=
  let n := nat_of_ascii c in (48 <=? n)%nat && (n <=? 57)%nat.

Fixpoint skip_ws (s : string) : string :=
  match s with
  | String c rest => if is_ws c then skip_ws rest else s
  | EmptyString => s
  end.

(** The longest prefix of digits, and what follows it. *)
Fixpoint digits (s : string) : string * string :=
  match s with
  | String c rest =>
      if is_digit c then let (d, r) := digits rest in (String c d, r)
      else (EmptyString, s)
  | EmptyString => (EmptyString, s)
  end.

Definition hex_value (c : ascii) : option nat :=
  let n := nat_of_ascii c in
  if (48 <=? n)%nat && (n <=? 57)%nat then Some (n - 48)
  else if (65 <=? n)%nat && (n <=? 70)%nat then Some (n - 55)
  else if (97 <=? n)%nat && (n <=? 102)%nat then Some (n - 87)
  else None.

(** UTF-8 bytes of one UTF-16 code unit. *)
Definition utf8 (u : nat) : string :=
  let byte n := String (ascii_of_nat n) EmptyString in
  if (u <? 128)%nat then byte u
  else if (u <? 2048)%nat then byte (192 + u / 64) ++ byte (128 + u mod 64)
  else byte (224 + u / 4096) ++ byte (128 + (u / 64) mod 64) ++ byte (128 + u mod 64).

(** The characters of a string literal after its opening quote. *)
Fixpoint string_body (s acc : string) : option (string * string) :=
  match s with
  | EmptyString => None
  | String c rest =>
      let n := nat_of_ascii c in
      if (n =? 34)%nat then Some (acc, rest)
      else if (n =? 92)%nat then
        match rest with
        | String e rest' =>
            let plain k := string_body rest' (acc ++ String (ascii_of_nat k) EmptyString) in
            match nat_of_ascii e with
            | 34 => plain 34 | 92 => plain 92 | 47 => plain 47
            | 98 => plain 8 | 102 => plain 12 | 110 => plain 10
            | 114 => plain 13 | 116 => plain 9
            | 117 =>
                match rest' with
                | String h1 (String h2 (String h3 (String h4 rest''))) =>
                    match hex_value h1, hex_value h2, hex_value h3, hex_value h4 with
                    | Some a, Some b, Some c', Some d =>
                        string_body rest'' (acc ++ utf8 (((a * 16 + b) * 16 + c') * 16 + d))
                    | _, _, _, _ => None
                    end
                | _ => None
                end
            | _ => None
            end
        | EmptyString => None
        end
      else if (n <? 32)%nat then None
      else string_body rest (acc ++ String c EmptyString)
  end.

(** A number literal: [-? int frac? exp?]; its text and what follows. *)
Definition number (s : string) : option (string * string) :=
  let (sign, s1) :=
    match s with
    | String "-" r => ("-", r)
    | _ => (EmptyString, s)
    end in
  let (int, s2) := digits s1 in
  match int with
  | EmptyString => None
  | String "0" (String _ _) => None
  | _ =>
      let frac :=
        match s2 with
        | String "." r =>
            let (f, r') := digits r in
            match f with
            | EmptyString => None
            | _ => Some ("." ++ f, r')
            end
        | _ => Some (EmptyString, s2)
        end in
      match frac with
      | None => None
      | Some (f, s3) =>
          let with_exp e r :=
            let (esign, r1) :=
              match r with
              | String "+" r' => ("+", r')
              | String "-" r' => ("-", r')
              | _ => (EmptyString, r)
              end in
            let (d, r2) := digits r1 in
            match d with
            | EmptyString => None
            | _ => Some (sign ++ int ++ f ++ e ++ esign ++ d, r2)
            end in
          match s3 with
          | String "e" r => with_exp "e" r
          | String "E" r => with_exp "E" r
          | _ => Some (sign ++ int ++ f, s3)
          end
      end
  end.

(** An object keeps the last value given for a key. *)
Fixpoint set_field (fields : list (string * jsval)) (key : string) (v : jsval)
  : list (string * jsval) :=
  match fields with
  | [] => [(key, v)]
  | (k, old) :: rest =>
      if String.eqb k key then (k, v) :: rest else (k, old) :: set_field rest key v
  end.

Section Parse.

Variable StringToNumber : string -> float.

Fixpoint value (fuel : nat) (s : string) : option (jsval * string) :=
  match fuel with
  | O => None
  | S fuel' =>
      match skip_ws s with
      | String "n" (String "u" (String "l" (String "l" rest))) => Some (VNull, rest)
      | String "t" (String "r" (String "u" (String "e" rest))) => Some (VBool true, rest)
      | String "f" (String "a" (String "l" (String "s" (String "e" rest)))) =>
          Some (VBool false, rest)
      | String "[" rest =>
          match skip_ws rest with
          | String "]" rest' => Some (VArr [], rest')
          | _ => elements fuel' rest []
          end
      | String "{" rest =>
          match skip_ws rest with
          | String "}" rest' => Some (VObj [], rest')
          | _ => members fuel' rest []
          end
      | String c rest as s' =>
          if (nat_of_ascii c =? 34)%nat then
            match string_body rest EmptyString with
            | Some (str, rest') => Some (VStr str, rest')
            | None => None
            end
          else
            match number s' with
            | Some (text, rest') => Some (VNum (StringToNumber text), rest')
            | None => None
            end
      | EmptyString => None
      end
  end
with elements (fuel : nat) (s : string) (acc : list jsval) : option (jsval * string) :=
  match fuel with
  | O => None
  | S fuel' =>
      match value fuel' s with
      | Some (v, rest) =>
          match skip_ws rest with
          | String "," rest' => elements fuel' rest' (acc ++ [v])%list
          | String "]" rest' => Some (VArr (acc ++ [v])%list, rest')
          | _ => None
          end
      | None => None
      end
  end
with members (fuel : nat) (s : string) (acc : list (string * jsval))
  : option (jsval * string) :=
  match fuel with
  | O => None
  | S fuel' =>
      match skip_ws s with
      | String q rest =>
          if (nat_of_ascii q =? 34)%nat then
            match string_body rest EmptyString with
            | Some (key, rest1) =>
                match skip_ws rest1 with
                | String ":" rest2 =>
                    match value fuel' rest2 with
                    | Some (v, rest3) =>
                        match skip_ws rest3 with
                        | String "," rest4 => members fuel' rest4 (set_field acc key v)
                        | String "}" rest4 => Some (VObj (set_field acc key v), rest4)
                        | _ => None
                        end
                    | None => None
                    end
                | _ => None
                end
            | None => None
            end
          else None
      | EmptyString => None
      end
  end.

(** [JSON.parse]: one value, with nothing but blanks around it. *)
Definition parse (s : string) : option jsval :=
  match value (S (String.length s)) s with
  | Some (v, rest) =>
      match skip_ws rest with
      | EmptyString => Some v
      | _ => None
      end
  | None => None
  end.

End Parse.

End JSON.

Module Stub.

(** [StringToNumber] on the texts the examples can meet: the empty
    text and signed decimal integers of at most 15 digits; any other
    text is read as [NaN]. *)
Definition StringToNumber (s : string) : float :=
  let magnitude (t : string) : float :=
    let (d, rest) := JSON.digits t in
    match d, rest with
    | String _ _, EmptyString =>
        if (String.length d <=? 15)%nat then
          match NilZero.uint_of_string d with
          | Some u => PrimFloat.of_uint63 (Uint63.of_Z (Z.of_uint u))
          | None => nan
          end
        else nan
    | _, _ => nan
    end in
  match s with
  | EmptyString => 0%float
  | String "-" t => PrimFloat.opp (magnitude t)
  | _ => magnitude s
  end.

(** [Number::toString] on the integers below 2^53, the infinities and
    [NaN]. *)
Definition NumberToString (x : float) : string :=
  let sign (s : bool) : string := if s then "-" else EmptyString in
  match Prim2SF x with
  | S754_nan => "NaN"
  | S754_zero _ => "0"
  | S754_infinity s => sign s ++ "Infinity"
  | S754_finite s m e =>
      let z :=
        if (0 <=? e)%Z then (Zpos m * 2 ^ e)%Z
        else (Zpos m / 2 ^ (- e))%Z in
      sign s ++ NilZero.string_of_uint (N.to_uint (Z.to_N z))
  end.

(** Rendering of a template input that is not a string, as
    [String(v)] does where that returns. *)
Definition renderInput (v : jsval) : string :=
  match ToString NumberToString v with
  | inr s => s
  | inl _ => EmptyString
  end.

(** The world of the stubs counts the outbound calls made so far. *)
Definition World : Type := nat.

Definition answer {A} (a : A) (w : World) : (string + A) * World := (inr a, S w).

Definition selectionPromptHead : string := "You are responsible for identifying".

(** Collaborators that never fail: the retriever returns [candidates]
    for every query, the chat model replies [selection] to the
    disambiguation prompt and [reformatted] to any other prompt. *)
Definition externals (candidates : list Document) (selection reformatted : string)
  : Externals World :=
  mkExternals World
    (answer tt)
    (answer tt)
    (fun k _ => answer (firstn k candidates))
    (fun prompt =>
       answer (mkAIMessage
                 (if Str.starts_with selectionPromptHead prompt
                  then selection else reformatted)))
    (JSON.parse StringToNumber)
    NumberToString
    StringToNumber
    renderInput.

(** A JSON object text with string members. *)
Definition quoted (s : string) : string := Str.dquote ++ s ++ Str.dquote.

Fixpoint object_members (members : list (string * string)) : string :=
  match members with
  | [] => EmptyString
  | [(k, v)] => quoted k ++ ":" ++ quoted v
  | (k, v) :: rest => quoted k ++ ":" ++ quoted v ++ "," ++ object_members rest
  end.

Definition object (members : list (string * string)) : string :=
  "{" ++ object_members members ++ "}".

(** The inputs of end-to-end scenario A. *)
Definition tableA : string := "<table><tr><td>Total Assets</td><td>500</td></tr></table>".

Definition e1 : Document :=
  mkDocument "Total Assets 500"
    [ ("filename", VStr "f.pdf");
      ("element_id", VStr "e1");
      ("source", VStr "f.pdf");
      ("text_preview", VStr "Total Assets 500");
      ("text_as_html", VStr tableA) ].

Definition hood : DocConfig := mkDocConfig "hood-10Q.pdf.json" "Robinhood" "10-Q" "Balance Sheet".

Definition selectE1 : string := object [("element_id", "e1"); ("filename", "f.pdf")].

Definition reformattedA : string := object [("reformatted_content", tableA)].

Definition scenarioA : Externals World := externals [e1] selectE1 reformattedA.

End Stub.

(* ================================================================== *)
(** ** What a run does, in terms of its collaborators' answers *)

(** The outbound calls of a record, in order (console lines dropped). *)
Definition is_call (ev : event) : bool :=
  match ev with
  | ConsoleLog _ | ConsoleError _ => false
  | CreateStore | CreateLlm | RetrieverInvoke _ _ | LlmInvoke _ => true
  end.

Definition calls (evs : list event) : list event := filter is_call evs.

(** The console lines a run starts with. *)
Definition banner (c : DocConfig) : list event :=
  [ ConsoleLog [LStr "Starting document retrieval pipeline..."];
    ConsoleLog [LStr "Configuration:"];
    ConsoleLog [LStr ("- Document: " ++ docName c)];
    ConsoleLog [LStr ("- Company: " ++ companyName c)];
    ConsoleLog [LStr ("- Document Type: " ++ docType c)];
    ConsoleLog [LStr ("- Report Type: " ++ reportType c)];
    ConsoleLog [LStr "----------------------------------------"] ].

(** The template that [fromTemplate] builds from a text it accepts. *)
Definition parsed (text : string) : PromptTemplate.t :=
  match PromptTemplate.fromTemplate text with
  | inr t => t
  | inl _ => PromptTemplate.mk []
  end.

(** What step 1 returns: the search query. *)
Definition formatQuery (c : DocConfig) : string :=
  "What is " ++ companyName c ++ "s " ++ reportType c
    ++ " for their " ++ docType c ++ " statement?".

Section Summary.

Context {World : Type}.
Variable X : Externals World.

(** How a template input is inserted. *)
Definition renderValue (v : jsval) : string :=
  PromptTemplate.render (renderInput X) v.

(** Whether the console lines of step 2 can be built for one retrieved
    document, and what is thrown when they cannot. *)
Definition previewed (doc : Document) : error + unit :=
  match or_unknown X (meta doc "element_id") with
  | inl e => inl e
  | inr _ =>
  match or_unknown X (meta doc "source") with
  | inl e => inl e
  | inr _ =>
  match show X (meta doc "text_preview") with
  | inl e => inl e
  | inr _ => inr tt
  end end end.

(** The same for the documents step 2 previews, in order. *)
Fixpoint previews (docs : list Document) : error + unit :=
  match docs with
  | [] => inr tt
  | doc :: rest =>
      match previewed doc with
      | inl e => inl e
      | inr _ => previews rest
      end
  end.

(** The block of formatted documents of step 3, when it can be built. *)
Definition block (docs : list Document) : string :=
  match formatDocs X docs with
  | inr text => text
  | inl _ => EmptyString
  end.

(** What step 4 returns: the disambiguation prompt. *)
Definition idPrompt (c : DocConfig) (docs : list Document) : string :=
  match PromptTemplate.format (renderInput X) (parsed __idImprovedTemplate)
          [ ("formattedDocs", VStr (block docs));
            ("reportType", VStr (reportType c));
            ("companyName", VStr (companyName c));
            ("docType", VStr (docType c)) ] with
  | inr p => p
  | inl _ => EmptyString
  end.

(** What step 7 resolves: the element of the document array selected
    by the parsed decision, if any, or what the comparison threw. *)
Definition matchedDoc (docArray : list Document) (result : jsval)
  : error + option Document :=
  array_find (id_matches X (opt_get result "element_id")) docArray.

(** [matchedDoc?.metadata?.text_as_html]. *)
Definition tableContent (docArray : list Document) (result : jsval) : error + jsval :=
  match matchedDoc docArray result with
  | inl e => inl e
  | inr (Some doc) => inr (meta doc "text_as_html")
  | inr None => inr VUndefined
  end.

(** What step 8 returns: the reformatting prompt. *)
Definition htmlPrompt (table : jsval) : string :=
  match PromptTemplate.format (renderInput X) (parsed __htmlFormattingTemplate)
          [ ("tableContent", table) ] with
  | inr p => p
  | inl _ => EmptyString
  end.

Definition decode (text : string) : error + jsval :=
  match JSON_parse X text with
  | Some v => inr v
  | None => inl (SyntaxError text)
  end.

(** The result of a run, the world it leaves and the outbound calls
    it made, read off the answers of the collaborators. *)
Definition summary (docArray : list Document) (c : DocConfig) (w : World)
  : (error + jsval) * World * list event :=
  let q := formatQuery c in
  match createStore X w with
  | (inl msg, w1) => (inl (StoreError msg), w1, [CreateStore])
  | (inr _, w1) =>
  match createLlm X w1 with
  | (inl msg, w2) => (inl (LlmError msg), w2, [CreateStore; CreateLlm])
  | (inr _, w2) =>
  match retrieverInvoke X 5 q w2 with
  | (inl msg, w3) =>
      (inl (RetrieverError msg), w3, [CreateStore; CreateLlm; RetrieverInvoke 5 q])
  | (inr docs, w3) =>
  match previews (firstn 3 docs) with
  | inl e => (inl e, w3, [CreateStore; CreateLlm; RetrieverInvoke 5 q])
  | inr _ =>
  match formatDocs X docs with
  | inl e => (inl e, w3, [CreateStore; CreateLlm; RetrieverInvoke 5 q])
  | inr _ =>
  let p1 := idPrompt c docs in
  match llmInvoke X p1 w3 with
  | (inl msg, w4) =>
      (inl (LlmError msg), w4,
       [CreateStore; CreateLlm; RetrieverInvoke 5 q; LlmInvoke p1])
  | (inr reply1, w4) =>
  match JSON_parse X (content reply1) with
  | None =>
      (inl (SyntaxError (content reply1)), w4,
       [CreateStore; CreateLlm; RetrieverInvoke 5 q; LlmInvoke p1])
  | Some result =>
  match tableContent docArray result with
  | inl e =>
      (inl e, w4, [CreateStore; CreateLlm; RetrieverInvoke 5 q; LlmInvoke p1])
  | inr table =>
  let p2 := htmlPrompt table in
  match llmInvoke X p2 w4 with
  | (inl msg, w5) =>
      (inl (LlmError msg), w5,
       [CreateStore; CreateLlm; RetrieverInvoke 5 q; LlmInvoke p1; LlmInvoke p2])
  | (inr reply2, w5) =>
      (decode (content reply2), w5,
       [CreateStore; CreateLlm; RetrieverInvoke 5 q; LlmInvoke p1; LlmInvoke p2])
  end end end end end end end end end.

End Summary.

(* ================================================================== *)
(** ** Vocabulary of the properties *)

(** A well-formed configuration: the four fields are non-empty. *)
Definition well_formed (c : DocConfig) : Prop :=
  docName c <> EmptyString /\ companyName c <> EmptyString /\
  docType c <> EmptyString /\ reportType c <> EmptyString.

(** Stubbed, deterministic collaborators: what a call answers depends on
    its arguments only, not on the state of the world. *)
Definition deterministic {World} (X : Externals World) : Prop :=
  (forall w w', fst (createStore X w) = fst (createStore X w')) /\
  (forall w w', fst (createLlm X w) = fst (createLlm X w')) /\
  (forall k q w w', fst (retrieverInvoke X k q w) = fst (retrieverInvoke X k q w')) /\
  (forall p w w', fst (llmInvoke X p w) = fst (llmInvoke X p w')).

(** The retrieved documents can be shown: the texts of the previews of
    step 2 and of the block of step 3 are built without a conversion
    throwing. *)
Definition presentable {World} (X : Externals World) (docs : list Document) : Prop :=
  previews X (firstn 3 docs) = inr tt /\ formatDocs X docs = inr (block X docs).

(** The run gets as far as the disambiguation model's reply: the store
    and the model were set up, the retriever returned [docs], which can
    be shown, and the model answered [reply1] to the disambiguation
    prompt, leaving the world [w4]. *)
Definition reaches_selection {World} (X : Externals World) (c : DocConfig) (w : World)
           (docs : list Document) (reply1 : AIMessage) (w4 : World) : Prop :=
  exists w1 w2 w3,
    createStore X w = (inr tt, w1) /\
    createLlm X w1 = (inr tt, w2) /\
    retrieverInvoke X 5 (formatQuery c) w2 = (inr docs, w3) /\
    presentable X docs /\
    llmInvoke X (idPrompt X c docs) w3 = (inr reply1, w4).

(** The run gets as far as the reformatting model's reply: the
    disambiguation reply was parsed to [result], step 7 resolved it to
    the content [table] without throwing, and the model answered
    [reply2] to the reformatting prompt rendered from [table]. *)
Definition reaches_reformat {World} (X : Externals World) (docArray : list Document)
           (c : DocConfig) (w : World) (result : jsval) (table : jsval)
           (reply2 : AIMessage) (w5 : World)
  : Prop :=
  exists docs reply1 w4,
    reaches_selection X c w docs reply1 w4 /\
    JSON_parse X (content reply1) = Some result /\
    tableContent X docArray result = inr table /\
    llmInvoke X (htmlPrompt X table) w4 = (inr reply2, w5).

(** [m / w => r / w' / cs]: started in world [w] on any record, [m]
    ends with [r] in world [w'], having appended events whose outbound
    calls are [cs]. *)
Definition runs_to {W A} (m : M W A) (w : W) (r : error + A) (w' : W) (cs : list event)
  : Prop :=
  forall t, exists evs,
    m (mkState w t) = (r, mkState w' (t ++ evs)%list) /\ calls evs = cs.

(** Inputs of the examples. *)
Module Examples.

Import Stub.

(** A decision naming an element that is not in the document array. *)
Definition selectNope : string := object [("element_id", "nope"); ("filename", "f.pdf")].

Definition unresolved : Externals World := externals [e1] selectNope reformattedA.

(** An element without [text_as_html], and one whose [text_as_html]
    is the empty string. *)
Definition bare : Document :=
  mkDocument "Revenue 12"
    [ ("filename", VStr "f.pdf"); ("element_id", VStr "e2");
      ("source", VStr "f.pdf"); ("text_preview", VStr "Revenue 12") ].

Definition blank : Document :=
  mkDocument "Revenue 12"
    [ ("filename", VStr "f.pdf"); ("element_id", VStr "e2");
      ("source", VStr "f.pdf"); ("text_preview", VStr "Revenue 12");
      ("text_as_html", VStr EmptyString) ].

Definition selectE2 : string := object [("element_id", "e2"); ("filename", "f.pdf")].

Definition contentless : Externals World := externals [bare] selectE2 reformattedA.

Definition blankContent : Externals World := externals [blank] selectE2 reformattedA.

(** A retriever that finds nothing. *)
Definition noCandidates : Externals World := externals [] selectE1 reformattedA.

(** A disambiguation reply that is prose, not JSON. *)
Definition prose : string := "The balance sheet is in document e1.".

Definition talkative : Externals World := externals [e1] prose reformattedA.

(** A decision whose [element_id] is an array holding the id. *)
Definition selectArray : string :=
  "{" ++ quoted "element_id" ++ ":[" ++ quoted "e1" ++ "]}".

Definition arrayDecision : jsval := VObj [("element_id", VArr [VStr "e1"])].

Definition looselySelected : Externals World := externals [e1] selectArray reformattedA.

(** A decision whose [element_id] is an object with a property
    [toString] of its own. *)
Definition selectUnprintable : string :=
  "{" ++ quoted "element_id" ++ ":{" ++ quoted "toString" ++ ":null}}".

Definition unprintableDecision : jsval :=
  VObj [("element_id", VObj [("toString", VNull)])].

Definition unprintable : Externals World := externals [e1] selectUnprintable reformattedA.

(** A reformatting reply that is valid JSON without [reformatted_content]. *)
Definition emptyObject : Externals World := externals [e1] selectE1 "{}".

(** A reformatting reply that is not JSON. *)
Definition unparsable : Externals World := externals [e1] selectE1 "<table></table>".

(** An element that is in the document array but was not retrieved. *)
Definition e9 : Document :=
  mkDocument "Cash 7"
    [ ("filename", VStr "g.pdf"); ("element_id", VStr "e9");
      ("source", VStr "g.pdf"); ("text_preview", VStr "Cash 7");
      ("text_as_html", VStr "<table><tr><td>Cash</td><td>7</td></tr></table>") ].

(** A decision for [e9] when only [e1] was retrieved. *)
Definition selectE9 : string := object [("element_id", "e9"); ("filename", "g.pdf")].

Definition outsideCandidates : Externals World := externals [e1] selectE9 reformattedA.

End Examples.

(* ================================================================== *)
(** ** The rest of the application: storage, indexing, controllers *)

(** A thrown JavaScript value: an [Error] with its message, or a value
    that is not an [Error]. *)
Inductive thrown : Type :=
| ErrorWith (message : string)
| NonError.

(** [error instanceof Error ? error.message : 'Unknown error']. *)
Definition message_of (t : thrown) : string :=
  match t with
  | ErrorWith m => m
  | NonError => "Unknown error"
  end.

(** [process.env.NAME || '']. *)
Definition env_or_empty (v : option string) : string :=
  match v with
  | Some s => s
  | None => EmptyString
  end.

(** [!s] on a string. *)
Definition is_empty (s : string) : bool := String.eqb s EmptyString.

(** A property [key: v] of an object literal, or [o[key] = v]: an
    existing property keeps its place and takes the new value, a new one
    goes last. *)
Definition set_prop (o : list (string * jsval)) (key : string) (v : jsval)
  : list (string * jsval) :=
  JSON.set_field o key v.




(** A vector as sent to Pinecone. *)
Record Vector : Type := mkVector {
  id : jsval;
  values : jsval;
  vmetadata : list (string * jsval)
}.

(** What a controller hands to [next]. *)
Inductive failure : Type :=
| ZodError (raw : jsval)             (* docConfigSchema.parse rejected the body *)
| DocsError (t : thrown)             (* getDocs threw *)
| ChainError (e : error)             (* reportChain threw *)
| TypeError (message : string)       (* a property read on null *)
| RenderError (t : thrown).          (* res.render threw *)

(** What the code outside [reportChain] does to the outside world, in
    order. *)
Inductive effect : Type :=
| FileExists (bucket file : string)          (* file.exists() *)
| OpenStream (bucket file : string)          (* file.createReadStream() *)
| ReadStream (bucket file : string)          (* the stream read to its end *)
| ErrorLine (label : string) (t : thrown)    (* console.error(label, error) *)
| InfoLine (label : string) (v : jsval)      (* console.log(label, value) *)
| Upsert (index : string) (batch : list Vector)     (* index.upsert(batch) *)
| UploadedBatch (i batchSize totalUploaded n : nat) (* the console line of the upload loop *)
| UploadedAll (totalUploaded : nat) (index : string)
| Sleep (ms : nat)                           (* setTimeout(resolve, ms) *)
| OpenIndex (index : string)                 (* PineconeStore.fromExistingIndex *)
| HttpGet (url : string) (params : list (string * string)) (apiKey : string)
| HttpPost (url : string) (apiKey : string)
| GetDocs (name : string)                    (* getDocs(name) *)
| ChainRun (docArray : list Document) (docConfig : DocConfig) (record : list event)
| Render (view : string) (locals : list (string * jsval))  (* res.render(view, locals) *)
| Next (err : failure).                      (* next(err) *)

(** A computation that ends with a value or a thrown [E], in a new
    world and with more effects recorded. *)
Definition IO (E W A : Type) : Type := W * list effect -> (E + A) * (W * list effect).

Module IO.

Section Ops.
Context {E W : Type}.

Definition ret {A} (a : A) : IO E W A := fun s => (inr a, s).

Definition throw {A} (e : E) : IO E W A := fun s => (inl e, s).

Definition bind {A B} (m : IO E W A) (k : A -> IO E W B) : IO E W B :=
  fun s =>
    match m s with
    | (inl e, s') => (inl e, s')
    | (inr a, s') => k a s'
    end.

Definition try_catch {A} (m : IO E W A) (h : E -> IO E W A) : IO E W A :=
  fun s =>
    match m s with
    | (inl e, s') => h e s'
    | (inr a, s') => (inr a, s')
    end.

Definition emit (ev : effect) : IO E W unit :=
  fun s => (inr tt, (fst s, snd s ++ [ev])%list).

(** A call to a collaborator: recorded, then performed. *)
Definition call {A} (ev : effect) (f : W -> (E + A) * W) : IO E W A :=
  fun s =>
    match f (fst s) with
    | (r, w') => (r, (w', snd s ++ [ev])%list)
    end.

End Ops.

End IO.

Notation "x <<- m ;; k" := (IO.bind m (fun x => k))
  (at level 61, m at next level, right associativity).
Notation "m ;;> k" := (IO.bind m (fun _ => k))
  (at level 61, right associativity).

(* ------------------------------------------------------------------ *)
(** *** utils/gsc_utils.ts *)

Module GCS.

(** [UnstructuredOutput], as the interface declares it; [metadata] has
    the optional [filename], [filetype], [page_number] and any other
    key. *)
Record UnstructuredOutput : Type := mkItem {
  item_type : string;
  item_element_id : string;
  item_text : string;
  item_metadata : list (string * jsval);
  item_embeddings : list float
}.

(** The document [getDocuments] builds from one element: the spread
    metadata, then the seven properties written after it. *)
Definition documentOf (item : UnstructuredOutput) : Document :=
  let md := item_metadata item in
  mkDocument (item_text item)
    (set_prop
      (set_prop
        (set_prop
          (set_prop
            (set_prop
              (set_prop
                (set_prop md
                  "filename" (get_field md "filename"))
                "filetype" (get_field md "filetype"))
              "page_number" (get_field md "page_number"))
            "element_id" (VStr (item_element_id item)))
          "type" (VStr (item_type item)))
        "source" (get_field md "filename"))
      "embedding" (VArr (map VNum (item_embeddings item)))).

(** The Google Cloud Storage client and [JSON.parse] at the type the
    code asserts for the file. *)
Record Storage (W : Type) : Type := mkStorage {
  exists_ : string -> string -> W -> (thrown + bool) * W;
  createReadStream : string -> string -> W -> (thrown + unit) * W;
  readToEnd : string -> string -> W -> (thrown + string) * W;
  parseOutput : string -> thrown + list UnstructuredOutput
}.

Arguments exists_ {W}.
Arguments createReadStream {W}.
Arguments readToEnd {W}.
Arguments parseOutput {W}.

(** [process.env]. *)
Record Env : Type := mkEnv {
  GCS_OUTPUT_BUCKET : option string;
  GCS_CREDENTIALS_FILE : option string
}.

Section Service.

Context {W : Type}.
Variable S : Storage W.

(** [getFileStreamSafe] of the service for [bucketName]. *)
Definition getFileStreamSafe (bucketName fileName : string) : IO thrown W unit :=
  IO.try_catch
    (found <<- IO.call (FileExists bucketName fileName) (exists_ S bucketName fileName) ;;
     if negb found then
       IO.throw (ErrorWith ("File " ++ fileName ++ " not found in bucket " ++ bucketName))
     else
       IO.call (OpenStream bucketName fileName) (createReadStream S bucketName fileName))
    (fun error =>
       IO.throw (ErrorWith ("Error accessing " ++ fileName ++ ": " ++ message_of error))).

Definition getDocuments (env : Env) (fileName : string) : IO thrown W (list Document) :=
  let bucket := env_or_empty (GCS_OUTPUT_BUCKET env) in
  let credentials := env_or_empty (GCS_CREDENTIALS_FILE env) in
  if is_empty bucket then
    IO.throw (ErrorWith "GCS_OUTPUT_BUCKET environment variable is required")
  else if is_empty credentials then
    IO.throw (ErrorWith "GCS_CREDENTIALS_FILE environment variable is required")
  else
    IO.try_catch
      (getFileStreamSafe bucket fileName ;;>
       data <<- IO.call (ReadStream bucket fileName) (readToEnd S bucket fileName) ;;
       unstructuredOutput <<-
         match parseOutput S data with
         | inl e => IO.throw e
         | inr items => IO.ret items
         end ;;
       IO.ret (map documentOf unstructuredOutput))
      (fun error =>
         IO.emit (ErrorLine "Error processing Unstructured output:" error) ;;>
         IO.throw error).

End Service.

End GCS.

(* ------------------------------------------------------------------ *)
(** *** Uploading to Pinecone (PineconeService and UnstructuredUtil) *)

Module Upload.

(** A length or index as a JavaScript number. *)
Definition number_of_nat (n : nat) : float := PrimFloat.of_uint63 (Uint63.of_Z (Z.of_nat n)).

(** [s.substring(0, 500) + (s.length > 500 ? "..." : "")], in code
    units. *)
Definition text_preview (pageContent : string) : string :=
  Utf16.substring 0 500 pageContent
    ++ (if (500 <? Utf16.length pageContent)%nat then "..." else EmptyString).

(** The callback of [documents.map((doc, idx) => ...)]. *)
Definition toVector (doc : Document) (idx : nat) : thrown + Vector :=
  if negb (ToBoolean (meta doc "embedding")) then
    inl (ErrorWith ("Document at index " ++ Str.of_nat idx
                      ++ " is missing embeddings in metadata"))
  else
    let embedding := meta doc "embedding" in
    let minifiedMetadata :=
      [ ("filename", meta doc "filename");
        ("filetype", meta doc "filetype");
        ("page_number", meta doc "page_number");
        ("element_id", js_or (meta doc "element_id") (VStr ("unknown-" ++ Str.of_nat idx)));
        ("element_type", meta doc "type");
        ("text_preview", VStr (text_preview (pageContent doc)));
        ("text_length", VNum (number_of_nat (Utf16.length (pageContent doc)))) ] in
    inr (mkVector
           (js_or (meta doc "element_id") (VStr ("fallback-id-" ++ Str.of_nat idx)))
           embedding
           minifiedMetadata).

(** [documents.map(...)], which stops at the first document for which
    the callback throws. *)
Fixpoint toVectors_from (idx : nat) (documents : list Document) : thrown + list Vector :=
  match documents with
  | [] => inr []
  | doc :: rest =>
      match toVector doc idx with
      | inl e => inl e
      | inr v =>
          match toVectors_from (S idx) rest with
          | inl e => inl e
          | inr vs => inr (v :: vs)
          end
      end
  end.

Definition toVectors (documents : list Document) : thrown + list Vector :=
  toVectors_from 0 documents.

Section Loop.

Context {W : Type}.

(** [index.upsert(batch)] on the index of that name. *)
Variable upsert : string -> list Vector -> W -> (thrown + unit) * W.

(** The [for] loop over the batches, from index [i]; [fuel] bounds the
    number of iterations, and the result is [None] when it runs out. *)
Fixpoint uploadLoop (fuel : nat) (indexName : string) (batchSize : nat)
         (vectors : list Vector) (i totalUploaded : nat) : IO thrown W (option nat) :=
  if (i <? length vectors)%nat then
    match fuel with
    | O => IO.ret None
    | S fuel' =>
        let batch := firstn batchSize (skipn i vectors) in
        IO.call (Upsert indexName batch) (upsert indexName batch) ;;>
        let totalUploaded' := (totalUploaded + length batch)%nat in
        IO.emit (UploadedBatch i batchSize totalUploaded' (length vectors)) ;;>
        uploadLoop fuel' indexName batchSize vectors (i + batchSize)%nat totalUploaded'
    end
  else IO.ret (Some totalUploaded).

(** The body shared by [uploadUnstructuredDocuments] and
    [uploadDocumentsToPinecone]. *)
Definition uploadDocuments (fuel : nat) (documents : list Document) (indexName : string)
           (batchSize : nat) : IO thrown W (option (list Document)) :=
  IO.try_catch
    (vectors <<- match toVectors documents with
                 | inl e => IO.throw e
                 | inr vs => IO.ret vs
                 end ;;
     done <<- uploadLoop fuel indexName batchSize vectors 0 0 ;;
     match done with
     | None => IO.ret None
     | Some totalUploaded =>
         IO.emit (UploadedAll totalUploaded indexName) ;;>
         IO.ret (Some documents)
     end)
    (fun err =>
       IO.emit (ErrorLine "Error uploading documents to Pinecone:" err) ;;>
       IO.throw err).

(** [PineconeService.uploadUnstructuredDocuments]: the index of the
    service, batches of 10. *)
Definition uploadUnstructuredDocuments (indexName : string) (documents : list Document)
  : IO thrown W (option (list Document)) :=
  uploadDocuments (length documents) documents indexName 10.

(** [UnstructuredUtil.uploadDocumentsToPinecone]. *)
Definition uploadDocumentsToPinecone (fuel : nat) (documents : list Document)
           (indexName : string) (batchSize : nat) : IO thrown W (option (list Document)) :=
  uploadDocuments fuel documents indexName batchSize.

End Loop.

(** The batches sent, in order. *)
Definition upserted (evs : list effect) : list (list Vector) :=
  flat_map (fun ev => match ev with Upsert _ batch => [batch] | _ => [] end) evs.

End Upload.

(* ------------------------------------------------------------------ *)
(** *** PineconeService.createStore *)

Module Pinecone.

(** [a || b] on an optional string: [undefined] and the empty string
    are falsy. *)
Definition or_else (a b : option string) : option string :=
  match a with
  | Some (String _ _) => a
  | _ => b
  end.

Section Store.

Context {W : Type}.

(** [PineconeStore.fromExistingIndex] on the index of that name. *)
Variable fromExistingIndex : string -> W -> (thrown + unit) * W.

Definition createStore (PINECONE_INDEX : option string) (indexName : option string)
  : IO thrown W unit :=
  let index := or_else indexName PINECONE_INDEX in
  match index with
  | Some (String c rest) =>
      IO.call (OpenIndex (String c rest)) (fromExistingIndex (String c rest))
  | _ =>
      IO.throw (ErrorWith "No Pinecone index specified. Provide an index name or set PINECONE_INDEX environment variable.")
  end.

End Store.

End Pinecone.

(* ------------------------------------------------------------------ *)
(** *** UnstructuredUtil *)

Module Unstructured.

Definition baseUrl : string := "https://platform.unstructuredapp.io/api/v1".

(** The fields of the class. *)
Record Util : Type := mkUtil {
  apiKey : string;
  sourceId : string;
  destinationId : string;
  workflowId : string;
  gcsBucket : string
}.



Section Methods.

Context {W : Type}.
Variable fileExists : string -> string -> W -> (thrown + bool) * W.
Variable axiosGet : string -> list (string * string) -> string -> W -> (thrown + jsval) * W.
Variable axiosPost : string -> string -> W -> (thrown + jsval) * W.
Variable upsert : string -> list Vector -> W -> (thrown + unit) * W.
Variable this : Util.

(** The [while] loop of [pollForResult] with [remaining] iterations
    left. *)
Fixpoint pollLoop (remaining : nat) (path : string) (maxRetries pollingInterval : nat)
  : IO thrown W string :=
  match remaining with
  | O => IO.throw (ErrorWith ("Workflow timeout after " ++ Str.of_nat maxRetries ++ " retries"))
  | S remaining' =>
      found <<- IO.call (FileExists (gcsBucket this) path) (fileExists (gcsBucket this) path) ;;
      if found then IO.ret ("gs://" ++ gcsBucket this ++ "/" ++ path)
      else
        IO.emit (Sleep pollingInterval) ;;>
        pollLoop remaining' path maxRetries pollingInterval
  end.

Definition pollForResult (path : string) (maxRetries pollingInterval : nat)
  : IO thrown W string :=
  pollLoop maxRetries path maxRetries pollingInterval.



(** [runWorkflow] with an empty payload; it returns the response's
    data. *)
Definition runWorkflow (workflowId : string) : IO thrown W jsval :=
  IO.try_catch
    (let url := baseUrl ++ "/workflows/" ++ workflowId ++ "/run" in
     IO.call (HttpPost url (apiKey this)) (axiosPost url (apiKey this)))
    (fun error =>
       IO.emit (ErrorLine "Error running Unstructured workflow:" error) ;;>
       IO.throw error).

Definition downloadAndProcessResults (gcsPath : string) : IO thrown W (list Document) :=
  IO.throw (ErrorWith "Method not implemented: downloadAndProcessResults").

Definition processAndIndexDocument (fuel : nat) (workflowId indexName resultPath : string)
  : IO thrown W (option (list Document)) :=
  IO.try_catch
    (data <<- runWorkflow workflowId ;;
     IO.emit (InfoLine "Workflow started:" data) ;;>
     gcsResultPath <<- pollForResult resultPath 10 5000 ;;
     IO.emit (InfoLine "Results available at:" (VStr gcsResultPath)) ;;>
     documents <<- downloadAndProcessResults gcsResultPath ;;
     Upload.uploadDocumentsToPinecone upsert fuel documents indexName 10)
    (fun error =>
       IO.emit (ErrorLine "Error in document processing pipeline:" error) ;;>
       IO.throw error).

End Methods.

End Unstructured.

(* ------------------------------------------------------------------ *)
(** *** The controllers and models/db.ts *)

Module Controllers.

(** The constant of both controller files. *)
Definition docName : string := "hood-10Q.pdf.json".

(** [docConfigSchema.parse]: an object whose four fields are strings;
    other keys are dropped. *)
Definition docConfigSchema_parse (raw : jsval) : failure + DocConfig :=
  match raw with
  | VObj fields =>
      match get_field fields "docName", get_field fields "companyName",
            get_field fields "docType", get_field fields "reportType" with
      | VStr n, VStr c, VStr t, VStr r => inr (mkDocConfig n c t r)
      | _, _, _, _ => inl (ZodError raw)
      end
  | _ => inl (ZodError raw)
  end.

(** [v.key] on a value returned by [JSON.parse]. *)
Definition member (v : jsval) (key : string) : failure + jsval :=
  match v with
  | VNull =>
      inl (TypeError ("Cannot read properties of null (reading '" ++ key ++ "')"))
  | VUndefined =>
      inl (TypeError ("Cannot read properties of undefined (reading '" ++ key ++ "')"))
  | VObj fields => inr (get_field fields key)
  | _ => inr VUndefined
  end.

Section Handlers.

Context {W : Type}.
Variable X : Externals W.
Variable getDocs : string -> W -> (thrown + list Document) * W.
Variable render : string -> list (string * jsval) -> W -> (thrown + unit) * W.

Definition tag {E A} (f : E -> failure) (r : (E + A) * W) : (failure + A) * W :=
  match r with
  | (inl e, w) => (inl (f e), w)
  | (inr a, w) => (inr a, w)
  end.

(** [await reportChain(docs, docConfig)]. *)
Definition awaitReportChain (docs : list Document) (docConfig : DocConfig)
  : IO failure W jsval :=
  fun s =>
    let r := run X docs docConfig (fst s) in
    (match fst r with
     | inl e => inl (ChainError e)
     | inr v => inr v
     end,
     (world (snd r), snd s ++ [ChainRun docs docConfig (trace (snd r))])%list).

Definition processInputController (body : jsval) : IO failure W unit :=
  let docConfigRaw := body in
  IO.try_catch
    (docConfig <<- match docConfigSchema_parse docConfigRaw with
                   | inl e => IO.throw e
                   | inr c => IO.ret c
                   end ;;
     docs <<- IO.call (GetDocs docName) (fun w => tag DocsError (getDocs docName w)) ;;
     resultsRaw <<- awaitReportChain docs docConfig ;;
     results <<- match member resultsRaw "reformatted_content" with
                 | inl e => IO.throw e
                 | inr v => IO.ret v
                 end ;;
     IO.call (Render "results" [("tableContent", results)])
             (fun w => tag RenderError (render "results" [("tableContent", results)] w)))
    (fun err => IO.emit (Next err)).

(** [pushDocs]: [docArray.push(...docs)] on the array of models/db.ts. *)
Definition pushDocs (docArray docs : list Document) : list Document :=
  (docArray ++ docs)%list.

(** [initializeController]; [docArray] is the array of models/db.ts
    before the request, the value returned is that array after it. *)
Definition initializeController (docArray : list Document) : IO failure W (list Document) :=
  IO.try_catch
    (let locals := [("title", VStr ("Financial Compiler for " ++ docName))] in
     IO.call (Render "index" locals) (fun w => tag RenderError (render "index" locals w)) ;;>
     docs <<- IO.call (GetDocs docName) (fun w => tag DocsError (getDocs docName w)) ;;
     IO.ret (pushDocs docArray docs))
    (fun err => IO.emit (Next err) ;;> IO.ret docArray).

End Handlers.

End Controllers.

(* ------------------------------------------------------------------ *)
(** *** Vocabulary of the properties of this part *)

(** The world after [k] calls of [check], whatever they answered. *)
Fixpoint afterChecks {W A} (check : W -> A * W) (k : nat) (w : W) : W :=
  match k with
  | O => w
  | S k' => afterChecks check k' (snd (check w))
  end.

(** [k] checks that found nothing, each followed by a wait. *)
Definition failedPolls (bucket path : string) (ms k : nat) : list effect :=
  concat (repeat [FileExists bucket path; Sleep ms] k).


(** The answers of a controller: what it rendered and what it handed
    to [next]. *)
Definition responses (evs : list effect) : list effect :=
  filter (fun ev => match ev with Render _ _ | Next _ => true | _ => false end) evs.

(** The error [pollForResult] throws when it gives up. *)
Definition timeout (maxRetries : nat) : thrown :=
  ErrorWith ("Workflow timeout after " ++ Str.of_nat maxRetries ++ " retries").

(** The properties that [getDocuments] writes after the spread
    metadata with a value of its own. *)
Definition overridden : list string := ["element_id"; "type"; "source"; "embedding"].

(* ------------------------------------------------------------------ *)
(** *** Sample collaborators and data *)

Module Sample.

(** As for [Stub], the world counts the calls made so far. *)
Definition World : Type := nat.

Definition env : GCS.Env := GCS.mkEnv (Some "unstructured-output") (Some "credentials.json").

(** Two elements of an Unstructured output file; the metadata of the
    first one carries ids of its own. *)
Definition table1 : GCS.UnstructuredOutput :=
  GCS.mkItem "Table" "e1" "Total Assets 500"
    [ ("filename", VStr "hood-10Q.pdf");
      ("element_id", VStr "stale");
      ("text_as_html", VStr Stub.tableA) ]
    [0.5%float; 0.25%float].

Definition title2 : GCS.UnstructuredOutput :=
  GCS.mkItem "Title" "e2" "Balance Sheet"
    [ ("filename", VStr "hood-10Q.pdf"); ("page_number", VNum 3%float) ]
    [1%float].

Definition items : list GCS.UnstructuredOutput := [table1; title2].

Definition fileText : string := "[ the two elements ]".

(** A bucket in which every file exists or none does, and whose files
    all have the text [fileText]. *)
Definition storage (present : bool) : GCS.Storage World :=
  GCS.mkStorage World
    (fun _ _ w => (inr present, S w))
    (fun _ _ w => (inr tt, S w))
    (fun _ _ w => (inr fileText, S w))
    (fun data =>
       if String.eqb data fileText then inr items
       else inl (ErrorWith "Unexpected token")).

(** A document with an embedding and no element id, and one whose text
    is 600 characters long. *)
Definition anonymous : Document :=
  mkDocument "Net revenues" [("embedding", VArr [VNum 1%float])].

Definition longText : string := String.concat EmptyString (repeat "0123456789" 60).

Definition long : Document :=
  mkDocument longText [("element_id", VStr "e9"); ("embedding", VArr [VNum 1%float])].

Definition three : list Document := [GCS.documentOf table1; anonymous; long].

Definition upsert (index : string) (batch : list Vector) (w : World) : (thrown + unit) * World :=
  (inr tt, S w).

(** A bucket in which no file ever appears. *)
Definition neverExists (bucket file : string) (w : World) : (thrown + bool) * World :=
  (inr false, S w).

(** A bucket in which every file is there from the moment the world
    has seen [n] calls. *)
Definition existsFrom (n : nat) (bucket file : string) (w : World)
  : (thrown + bool) * World :=
  (inr (n <=? w)%nat, S w).

(** A bucket that cannot be reached. *)
Definition unreachable (bucket file : string) (w : World) : (thrown + bool) * World :=
  (inl (ErrorWith "ECONNRESET"), S w).

Definition axiosPost (url apiKey : string) (w : World) : (thrown + jsval) * World :=
  (inr (VObj [("id", VStr "run-1")]), S w).

(** A text of 300 letters e with an acute accent: 300 code units in
    600 bytes. *)
Definition accented : string :=
  String.concat EmptyString
    (repeat (String (ascii_of_nat 195) (String (ascii_of_nat 169) EmptyString)) 300).

Definition accentedDoc : Document :=
  mkDocument accented [("element_id", VStr "e8"); ("embedding", VArr [VNum 1%float])].


Definition util : Unstructured.Util :=
  Unstructured.mkUtil "key" "source-1" "destination-1" "workflow-1" "results".

Definition getDocs (name : string) (w : World) : (thrown + list Document) * World :=
  (inr [Stub.e1], S w).

Definition failingGetDocs (name : string) (w : World) : (thrown + list Document) * World :=
  (inl (ErrorWith "GCS_OUTPUT_BUCKET environment variable is required"), S w).

Definition render (view : string) (locals : list (string * jsval)) (w : World)
  : (thrown + unit) * World :=
  (inr tt, S w).

(** A request body as [express.json] decodes it. *)
Definition body (name : string) : jsval :=
  VObj [ ("docName", VStr name);
         ("companyName", VStr "Robinhood");
         ("docType", VStr "10-Q");
         ("reportType", VStr "Balance Sheet") ].

(** The chat model replies [null] to the reformatting prompt. *)
Definition nullReply : Externals Stub.World :=
  Stub.externals [Stub.e1] Stub.selectE1 "null".

End Sample.

(* ================================================================== *)
(** * Properties *)

(** ** Strings *)

Lemma starts_with_app (n b : string) : Str.starts_with n (n ++ b) = true.
Proof.
  induction n as [|a n IH]; [reflexivity|].
  cbn. rewrite Ascii.eqb_refl. exact IH.
Qed.

Lemma starts_with_inv (n h : string) :
  Str.starts_with n h = true -> exists b, h = n ++ b.
Proof.
  revert h; induction n as [|a n IH]; intros h H.
  - exists h. reflexivity.
  - destruct h as [|c h]; [discriminate|]. cbn in H.
    apply andb_true_iff in H. destruct H as [Hc Hn].
    apply Ascii.eqb_eq in Hc. subst c.
    destruct (IH h Hn) as [b ->]. exists b. reflexivity.
Qed.

Lemma includes_here (n h : string) : Str.starts_with n h = true -> Str.includes n h = true.
Proof. intros H. destruct h; cbn; rewrite H; reflexivity. Qed.

Lemma includes_later (n : string) (c : ascii) (h : string) :
  Str.includes n h = true -> Str.includes n (String c h) = true.
Proof. intros H. cbn [Str.includes]. rewrite H. apply orb_true_r. Qed.

(** [includes] is the occurrence of the needle between a prefix and a
    suffix. *)
Lemma includes_app (n a b : string) : Str.includes n (a ++ n ++ b) = true.
Proof.
  induction a as [|c a IH]; cbn [append].
  - apply includes_here, starts_with_app.
  - apply includes_later. exact IH.
Qed.

Lemma includes_inv (n h : string) :
  Str.includes n h = true -> exists a b, h = a ++ n ++ b.
Proof.
  induction h as [|c h IH]; intros H.
  - cbn in H. rewrite orb_false_r in H.
    destruct (starts_with_inv _ _ H) as [b Hb]. exists EmptyString, b. exact Hb.
  - cbn [Str.includes] in H. apply orb_true_iff in H. destruct H as [H|H].
    + destruct (starts_with_inv _ _ H) as [b Hb]. exists EmptyString, b. exact Hb.
    + destruct (IH H) as (a & b & ->). exists (String c a), b. reflexivity.
Qed.

(** ** The templates are accepted and render *)

Lemma search_parsed :
  PromptTemplate.fromTemplate searchTemplateText = inr (parsed searchTemplateText).
Proof. vm_compute. reflexivity. Qed.

Lemma id_parsed :
  PromptTemplate.fromTemplate __idImprovedTemplate = inr (parsed __idImprovedTemplate).
Proof. vm_compute. reflexivity. Qed.

Lemma html_parsed :
  PromptTemplate.fromTemplate __htmlFormattingTemplate
  = inr (parsed __htmlFormattingTemplate).
Proof. vm_compute. reflexivity. Qed.

Section Rendering.

Context {W : Type} (X : Externals W).

Lemma format_search (c : DocConfig) :
  PromptTemplate.format (renderInput X) (parsed searchTemplateText)
    [ ("companyName", VStr (companyName c));
      ("reportType", VStr (reportType c));
      ("docType", VStr (docType c)) ] = inr (formatQuery c).
Proof. reflexivity. Qed.

Lemma format_id (c : DocConfig) (docs : list Document) :
  PromptTemplate.format (renderInput X) (parsed __idImprovedTemplate)
    [ ("formattedDocs", VStr (block X docs));
      ("reportType", VStr (reportType c));
      ("companyName", VStr (companyName c));
      ("docType", VStr (docType c)) ] = inr (idPrompt X c docs).
Proof. reflexivity. Qed.

Lemma format_html (v : jsval) :
  PromptTemplate.format (renderInput X) (parsed __htmlFormattingTemplate)
    [ ("tableContent", v) ] = inr (htmlPrompt X v).
Proof. reflexivity. Qed.

Lemma html_nodes :
  exists a b,
    PromptTemplate.nodes (parsed __htmlFormattingTemplate)
    = [ PromptTemplate.literal a; PromptTemplate.variable "tableContent";
        PromptTemplate.literal b ].
Proof. vm_compute. eexists. eexists. reflexivity. Qed.

(** The reformatting prompt carries the table content, as it is when
    it is a string, between fixed texts. *)
Lemma htmlPrompt_embeds (v : jsval) :
  Str.includes (renderValue X v) (htmlPrompt X v) = true.
Proof.
  destruct html_nodes as (a & b & Hn).
  unfold htmlPrompt, PromptTemplate.format. rewrite Hn.
  cbn [PromptTemplate.interpolate has_field get_field].
  rewrite String.eqb_refl. cbn [orb]. unfold renderValue.
  apply includes_app.
Qed.

End Rendering.

(** ** Conversions

    The only error of a conversion is the [TypeError] of [ToPrimitive]. *)

Lemma jsval_elements_ind (P : jsval -> Prop) :
  P VUndefined -> P VNull -> (forall b, P (VBool b)) -> (forall n, P (VNum n)) ->
  (forall t, P (VStr t)) ->
  (forall items, Forall P items -> P (VArr items)) ->
  (forall fields, P (VObj fields)) ->
  forall v, P v.
Proof.
  intros Hu Hn Hb Hnum Hs Harr Hobj. fix IH 1. intros v.
  destruct v as [| | b | n | t | items | fields].
  - exact Hu.
  - exact Hn.
  - apply Hb.
  - apply Hnum.
  - apply Hs.
  - apply Harr. revert items. fix IHl 1. intros [|x items].
    + constructor.
    + constructor; [apply IH | apply IHl].
  - apply Hobj.
Qed.

Lemma sequence_throws {A B} (f : A -> error + B) (l : list A) (e : error) :
  Forall (fun x => forall e', f x = inl e' -> e' = notPrimitive) l ->
  sequence (map f l) = inl e -> e = notPrimitive.
Proof.
  intros H. revert e. induction H as [|x l Hx _ IH]; intros e; cbn; [discriminate|].
  destruct (f x) as [e0|b].
  - intros H0. injection H0 as <-. apply Hx. reflexivity.
  - destruct (sequence (map f l)) as [e1|bs]; [|discriminate].
    intros H0. injection H0 as <-. apply IH. reflexivity.
Qed.

Lemma ToString_throws (nts : float -> string) :
  forall (v : jsval) (e : error), ToString nts v = inl e -> e = notPrimitive.
Proof.
  intros v. induction v as [| | [|] | n | t | items IH | fields] using jsval_elements_ind;
    intros e; cbn [ToString]; try discriminate.
  - destruct (sequence
                (map (fun x => match x with
                               | VUndefined | VNull => inr EmptyString
                               | _ => ToString nts x
                               end) items)) as [e'|texts] eqn:E; [|discriminate].
    intros H. injection H as <-.
    refine (sequence_throws _ items e' _ E).
    eapply Forall_impl; [| exact IH].
    intros x Hx e0. destruct x; try discriminate; apply Hx.
  - destruct (has_field fields "toString"); [|discriminate].
    intros H. injection H as <-. reflexivity.
Qed.

Lemma loose_eq_throws nts stn (x y : jsval) (e : error) :
  loose_eq nts stn x y = inl e -> e = notPrimitive.
Proof.
  assert (Hn : forall v e', ToNumber nts stn v = inl e' -> e' = notPrimitive).
  { intros v e'. destruct v as [| | [|] | n | t | items | fields]; cbn [ToNumber];
      try discriminate;
      match goal with
      | |- context [ToString nts ?v] =>
          destruct (ToString nts v) as [e0|t0] eqn:E; [|discriminate];
          intros H; injection H as <-; exact (ToString_throws nts _ _ E)
      end. }
  assert (Hs : forall a b e', same_number nts stn a b = inl e' -> e' = notPrimitive).
  { intros a b e'. unfold same_number.
    destruct (ToNumber nts stn a) as [ea|na] eqn:Ea.
    - intros H. injection H as <-. exact (Hn _ _ Ea).
    - destruct (ToNumber nts stn b) as [eb|nb] eqn:Eb; [|discriminate].
      intros H. injection H as <-. exact (Hn _ _ Eb). }
  assert (Ht : forall a t e', same_text nts a t = inl e' -> e' = notPrimitive).
  { intros a t e'. unfold same_text.
    destruct (ToString nts a) as [ea|ta] eqn:Ea; [|discriminate].
    intros H. injection H as <-. exact (ToString_throws nts _ _ Ea). }
  destruct x as [| | [|] | n | t | items | fields];
    destruct y as [| | [|] | n' | t' | items' | fields']; cbn [loose_eq];
    try discriminate; first [ apply Hs | apply Ht ].
Qed.

Lemma array_find_throws_only {A} (p : A -> error + bool) (l : list A) (e : error) :
  (forall x e', p x = inl e' -> e' = notPrimitive) ->
  array_find p l = inl e -> e = notPrimitive.
Proof.
  intros Hp. induction l as [|x l IH]; cbn; [discriminate|].
  destruct (p x) as [e'|[|]] eqn:E.
  - intros H. injection H as <-. exact (Hp _ _ E).
  - discriminate.
  - exact IH.
Qed.

Lemma tableContent_throws {W} (X : Externals W) docArray result (e : error) :
  tableContent X docArray result = inl e -> e = notPrimitive.
Proof.
  unfold tableContent, matchedDoc.
  destruct (array_find (id_matches X (opt_get result "element_id")) docArray)
    as [e'|[doc|]] eqn:E; [| discriminate | discriminate].
  intros H. injection H as <-.
  apply (array_find_throws_only _ _ _ (fun x e' => loose_eq_throws _ _ _ _ e') E).
Qed.

(** ** Outbound calls of a record *)

Lemma calls_app (a b : list event) : calls (a ++ b) = (calls a ++ calls b)%list.
Proof. apply filter_app. Qed.

(** ** Rules of the judgment [runs_to] *)

Section Runs.

Context {W : Type}.

Lemma runs_ret {A} (a : A) (w : W) : runs_to (Async.ret a) w (inr a) w [].
Proof. intros t; exists []; rewrite app_nil_r; split; reflexivity. Qed.

Lemma runs_throw {A} (e : error) (w : W) : runs_to (@Async.throw W A e) w (inl e) w [].
Proof. intros t; exists []; rewrite app_nil_r; split; reflexivity. Qed.

Lemma runs_log (args : list logarg) (w : W) : runs_to (console_log args) w (inr tt) w [].
Proof. intros t; exists [ConsoleLog args]; split; reflexivity. Qed.

Lemma runs_error (args : list logarg) (w : W) :
  runs_to (console_error args) w (inr tt) w [].
Proof. intros t; exists [ConsoleError args]; split; reflexivity. Qed.

Lemma runs_call {A} ev tag (f : W -> (string + A) * W) w r w' :
  is_call ev = true -> f w = (r, w') ->
  runs_to (Async.call ev tag f) w
    (match r with inl msg => inl (tag msg) | inr a => inr a end) w' [ev].
Proof.
  intros Hc Hf t; exists [ev]; unfold Async.call; cbn [world trace]; rewrite Hf.
  split; [destruct r; reflexivity | unfold calls; cbn [filter]; rewrite Hc; reflexivity].
Qed.

Lemma runs_bind_ok {A B} (m : M W A) (k : A -> M W B) w a w1 c1 r w2 c2 :
  runs_to m w (inr a) w1 c1 -> runs_to (k a) w1 r w2 c2 ->
  runs_to (Async.bind m k) w r w2 (c1 ++ c2).
Proof.
  intros Hm Hk t. destruct (Hm t) as (e1 & E1 & C1).
  destruct (Hk (t ++ e1)%list) as (e2 & E2 & C2).
  exists (e1 ++ e2)%list. unfold Async.bind.
  rewrite E1, E2, app_assoc, calls_app, C1, C2.
  split; reflexivity.
Qed.

Lemma runs_bind_err {A B} (m : M W A) (k : A -> M W B) w e w1 c1 :
  runs_to m w (inl e) w1 c1 -> runs_to (Async.bind m k) w (inl e) w1 c1.
Proof.
  intros Hm t. destruct (Hm t) as (e1 & E1 & C1).
  exists e1. unfold Async.bind. rewrite E1. split; [reflexivity | exact C1].
Qed.

Lemma runs_try_ok {A} (m : M W A) h w a w1 c1 :
  runs_to m w (inr a) w1 c1 -> runs_to (Async.try_catch m h) w (inr a) w1 c1.
Proof.
  intros Hm t. destruct (Hm t) as (e1 & E1 & C1).
  exists e1. unfold Async.try_catch. rewrite E1. split; [reflexivity | exact C1].
Qed.

Lemma runs_try_err {A} (m : M W A) h w e w1 c1 r w2 c2 :
  runs_to m w (inl e) w1 c1 -> runs_to (h e) w1 r w2 c2 ->
  runs_to (Async.try_catch m h) w r w2 (c1 ++ c2).
Proof.
  intros Hm Hk t. destruct (Hm t) as (e1 & E1 & C1).
  destruct (Hk (t ++ e1)%list) as (e2 & E2 & C2).
  exists (e1 ++ e2)%list. unfold Async.try_catch.
  rewrite E1, E2, app_assoc, calls_app, C1, C2.
  split; reflexivity.
Qed.

Lemma runs_cast {A} (m : M W A) w r w' cs r' cs' :
  runs_to m w r w' cs -> r = r' -> cs = cs' -> runs_to m w r' w' cs'.
Proof. intros H -> ->; exact H. Qed.

(** The judgment gives the result of a step on any state. *)
Lemma runs_fst {A} (m : M W A) w r w' cs (s : state W) :
  runs_to m w r w' cs -> world s = w -> fst (m s) = r.
Proof.
  intros H <-. destruct s as [w0 t]. cbn [world] in H.
  destruct (H t) as (evs & E & _). rewrite E. reflexivity.
Qed.

End Runs.

(** The outcome of a stage that a lemma below describes. *)
Ltac stage := fail.

(** Outcomes that hypotheses give. *)
Ltac known :=
  cbv beta iota;
  repeat match goal with
         | H : ?l = _ |- context [?l] => rewrite H; cbv beta iota
         end.

(** Symbolic execution of the chain under [runs_to]. *)
Ltac runs :=
  lazymatch goal with
  | |- runs_to (Async.bind _ _) _ _ _ _ =>
      first [ eapply runs_bind_ok; [ solve [runs] | cbv beta; runs ]
            | eapply runs_bind_err; solve [runs] ]
  | |- runs_to (Async.try_catch _ _) _ _ _ _ =>
      first [ eapply runs_try_ok; solve [runs]
            | eapply runs_try_err; [ solve [runs] | cbv beta; runs ] ]
  | |- runs_to (Async.ret _) _ _ _ _ => apply runs_ret
  | |- runs_to (Async.throw _) _ _ _ _ => apply runs_throw
  | |- runs_to (console_log _) _ _ _ _ => apply runs_log
  | |- runs_to (console_error _) _ _ _ _ => apply runs_error
  | |- runs_to (Async.call _ _ _) _ _ _ _ =>
      eapply runs_cast;
      [ eapply runs_call; [ reflexivity | eassumption ] | reflexivity | reflexivity ]
  | |- runs_to (Async.lift _) _ _ _ _ =>
      rewrite ?search_parsed, ?id_parsed, ?html_parsed,
              ?format_search, ?format_id, ?format_html;
      try match goal with
          | H : ?l = _ |- runs_to (Async.lift ?l) _ _ _ _ => rewrite H
          end;
      cbn [Async.lift]; runs
  | |- runs_to (parseJSON _ _) _ _ _ _ =>
      unfold parseJSON;
      match goal with H : JSON_parse _ _ = _ |- _ => rewrite H end; runs
  | |- runs_to (if ?b then _ else _) _ _ _ _ => destruct b; runs
  | |- runs_to (match ?o with Some _ => _ | None => _ end) _ _ _ _ => destruct o; runs
  | |- runs_to (debugChain _ _ _ _ _ _ _ _ _) _ _ _ _ => unfold debugChain; runs
  | |- runs_to (step1 _ _ _) _ _ _ _ =>
      unfold step1; cbn [companyName docType reportType]; runs
  | |- runs_to (step4 _ _ _) _ _ _ _ => unfold step4; runs
  | |- runs_to (step5 _ _) _ _ _ _ => unfold step5; runs
  | |- runs_to (step6 _ _) _ _ _ _ => unfold step6; cbv zeta; runs
  | |- runs_to (step8 _ _ _) _ _ _ _ => unfold step8; runs
  | |- runs_to (step9 _ _) _ _ _ _ => unfold step9; runs
  | |- runs_to (step10 _) _ _ _ _ => unfold step10; runs
  | |- runs_to (preview _) _ _ _ _ => unfold preview; runs
  | |- _ => stage
  end.

(** ** The stages *)

Section Stages.

Context {W : Type} (X : Externals W).

(** Step 1 returns the query, whatever the state. *)
Lemma step1_runs (c : DocConfig) (w : W) :
  runs_to (step1 X (parsed searchTemplateText) c) w (inr (formatQuery c)) w [].
Proof. eapply runs_cast; [ runs | reflexivity | reflexivity ]. Qed.

(** Step 6 returns what [JSON.parse] returns, and throws what it throws. *)
Lemma step6_runs (reply : AIMessage) (w : W) :
  runs_to (step6 X reply) w (decode X (content reply)) w [].
Proof.
  unfold decode. destruct (JSON_parse X (content reply)) eqn:E;
    (eapply runs_cast; [ runs | reflexivity | reflexivity ]).
Qed.

(** The preview of one retrieved document writes its lines up to the
    first text that cannot be built, and makes no outbound call. *)
Lemma previewDoc_runs (doc : Document) (index : nat) (w : W) :
  runs_to (previewDoc X doc index) w (previewed X doc) w [].
Proof.
  unfold previewDoc, previewed.
  destruct (or_unknown X (meta doc "element_id")) as [e|id] eqn:E1.
  { eapply runs_cast; [ runs | reflexivity | reflexivity ]. }
  destruct (or_unknown X (meta doc "source")) as [e|source] eqn:E2.
  { eapply runs_cast; [ runs | reflexivity | reflexivity ]. }
  destruct (show X (meta doc "text_preview")) as [e|text] eqn:E3;
    (eapply runs_cast; [ runs | reflexivity | reflexivity ]).
Qed.

Lemma forEach_runs (docs : list Document) (i : nat) (w : W) :
  runs_to (forEach_from i (previewDoc X) docs) w (previews X docs) w [].
Proof.
  revert i; induction docs as [|doc docs IH]; intros i; cbn [forEach_from previews].
  - apply runs_ret.
  - pose proof (previewDoc_runs doc i w) as H.
    destruct (previewed X doc) as [e|[]].
    + apply runs_bind_err. exact H.
    + eapply runs_cast; [ eapply runs_bind_ok; [ exact H | apply IH ] | | ]; reflexivity.
Qed.

(** Step 2 calls the retriever once; it returns the documents unless
    the retriever throws or a preview cannot be written. *)
Lemma step2_runs (q : string) (w w' : W) (r : string + list Document) :
  retrieverInvoke X 5 q w = (r, w') ->
  runs_to (step2 X q) w
    (match r with
     | inl msg => inl (RetrieverError msg)
     | inr docs =>
         match previews X (firstn 3 docs) with
         | inl e => inl e
         | inr _ => inr docs
         end
     end) w' [RetrieverInvoke 5 q].
Proof.
  intros Hr. unfold step2. destruct r as [msg|docs].
  { eapply runs_cast; [ runs | reflexivity | reflexivity ]. }
  assert (Hshow : runs_to
            (if (0 <? length docs)%nat then
               console_log [LStr (Str.nl ++ "Document Previews:")] ;;;
               forEach (previewDoc X) (firstn 3 docs)
             else Async.ret tt) w' (previews X (firstn 3 docs)) w' []).
  { destruct (0 <? length docs)%nat eqn:El.
    - eapply runs_cast;
        [ eapply runs_bind_ok; [ apply runs_log | apply forEach_runs ]
        | reflexivity | reflexivity ].
    - assert (docs = []) as -> by (destruct docs; [reflexivity | discriminate El]).
      apply runs_ret. }
  destruct (previews X (firstn 3 docs)) as [e|[]].
  - eapply runs_cast;
      [ eapply runs_bind_ok; [ apply runs_log |];
        eapply runs_bind_ok; [ runs |]; cbv beta;
        eapply runs_bind_ok; [ apply runs_log |];
        apply runs_bind_err; exact Hshow
      | reflexivity | reflexivity ].
  - eapply runs_cast;
      [ eapply runs_bind_ok; [ apply runs_log |];
        eapply runs_bind_ok; [ runs |]; cbv beta;
        eapply runs_bind_ok; [ apply runs_log |];
        eapply runs_bind_ok; [ exact Hshow | apply runs_ret ]
      | reflexivity | reflexivity ].
Qed.

(** Step 3 returns the inputs of the disambiguation template, unless
    the block of formatted documents cannot be built. *)
Lemma step3_runs (company type report : string) (docs : list Document) (w : W) :
  runs_to (step3 X company type report docs) w
    (match formatDocs X docs with
     | inl e => inl e
     | inr text =>
         inr [ ("formattedDocs", VStr text);
               ("reportType", VStr report);
               ("companyName", VStr company);
               ("docType", VStr type) ]
     end) w [].
Proof.
  unfold step3. destruct (formatDocs X docs) as [e|text] eqn:E;
    (eapply runs_cast; [ runs | reflexivity | reflexivity ]).
Qed.

(** Step 7 returns the content of the matched element, [undefined]
    when there is none; when a comparison throws, it writes one line to
    the console and throws the same error. *)
Lemma step7_runs (docArray : list Document) (result : jsval) (w : W) :
  runs_to (step7 X docArray result) w
    (match tableContent X docArray result with
     | inl e => inl e
     | inr table => inr [("tableContent", table)]
     end) w [].
Proof.
  unfold tableContent, matchedDoc, step7; cbv zeta.
  destruct (array_find (id_matches X (opt_get result "element_id")) docArray)
    as [e|[doc|]] eqn:E;
    (eapply runs_cast; [ runs | reflexivity | reflexivity ]).
Qed.

End Stages.

Ltac stage ::=
  lazymatch goal with
  | |- runs_to (step2 _ _) _ _ _ _ =>
      eapply runs_cast;
      [ eapply step2_runs; eassumption | known; reflexivity | reflexivity ]
  | |- runs_to (step3 _ _ _ _ _) _ _ _ _ =>
      eapply runs_cast; [ apply step3_runs | known; reflexivity | reflexivity ]
  | |- runs_to (step7 _ _ _) _ _ _ _ =>
      eapply runs_cast; [ apply step7_runs | known; reflexivity | reflexivity ]
  end.

Section Chain.

Context {W : Type} (X : Externals W).

(** The [try] / [catch] of the chain, against [summary]. *)
Lemma tryCatch_runs (docArray : list Document) (c : DocConfig) (w : W) :
  runs_to
    (Async.try_catch
       (tryBlock X docArray (docName c) (companyName c) (docType c) (reportType c))
       (catchBlock (World := W)))
    w
    (fst (fst (summary X docArray c w))) (snd (fst (summary X docArray c w)))
    (snd (summary X docArray c w)).
Proof.
  unfold summary, tryBlock, catchBlock; cbv zeta.
  destruct (createStore X w) as [[msg|[]] w1] eqn:E1.
  { eapply runs_cast; [ runs | reflexivity | reflexivity ]. }
  destruct (createLlm X w1) as [[msg|[]] w2] eqn:E2.
  { eapply runs_cast; [ runs | reflexivity | reflexivity ]. }
  destruct (retrieverInvoke X 5 (formatQuery c) w2) as [[msg|docs] w3] eqn:E3.
  { eapply runs_cast; [ runs | reflexivity | reflexivity ]. }
  destruct (previews X (firstn 3 docs)) as [e|[]] eqn:Ep.
  { eapply runs_cast; [ runs | reflexivity | reflexivity ]. }
  destruct (formatDocs X docs) as [e|text] eqn:Ef.
  { eapply runs_cast; [ runs | reflexivity | reflexivity ]. }
  assert (Hb : text = block X docs) by (unfold block; rewrite Ef; reflexivity).
  subst text.
  destruct (llmInvoke X (idPrompt X c docs) w3) as [[msg|reply1] w4] eqn:E4.
  { eapply runs_cast; [ runs | reflexivity | reflexivity ]. }
  destruct (JSON_parse X (content reply1)) as [result|] eqn:E5.
  2:{ eapply runs_cast; [ runs | reflexivity | reflexivity ]. }
  destruct (tableContent X docArray result) as [e|table] eqn:Et.
  { eapply runs_cast; [ runs | reflexivity | reflexivity ]. }
  destruct (llmInvoke X (htmlPrompt X table) w4) as [[msg|reply2] w5] eqn:E6.
  { eapply runs_cast; [ runs | reflexivity | reflexivity ]. }
  unfold decode.
  destruct (JSON_parse X (content reply2)) as [final|] eqn:E7;
    (eapply runs_cast; [ runs | reflexivity | reflexivity ]).
Qed.

(** [reportChain] is its banner followed by the [try] / [catch]. *)
Lemma reportChain_unfold (docArray : list Document) (c : DocConfig) (w : W)
      (t : list event) :
  reportChain X docArray c (mkState w t)
  = Async.try_catch
      (tryBlock X docArray (docName c) (companyName c) (docType c) (reportType c))
      (catchBlock (World := W))
      (mkState w (t ++ banner c)%list).
Proof.
  unfold reportChain; cbv zeta.
  cbv [Async.bind console_log Async.emit world trace banner].
  rewrite <- !app_assoc. reflexivity.
Qed.

(** The whole chain, against [summary]. *)
Lemma reportChain_runs (docArray : list Document) (c : DocConfig) (w : W) :
  runs_to (reportChain X docArray c) w
    (fst (fst (summary X docArray c w))) (snd (fst (summary X docArray c w)))
    (snd (summary X docArray c w)).
Proof.
  intros t. rewrite reportChain_unfold.
  destruct (tryCatch_runs docArray c w (t ++ banner c)%list) as (evs & E & C).
  exists (banner c ++ evs)%list. rewrite E, calls_app, C, app_assoc.
  split; reflexivity.
Qed.

(** The console of a run starts with the banner, which shows the four
    fields of the configuration. *)
Lemma run_starts_with_banner (docArray : list Document) (c : DocConfig) (w : W) :
  exists rest, trace (snd (run X docArray c w)) = (banner c ++ rest)%list.
Proof.
  unfold run. rewrite reportChain_unfold.
  destruct (tryCatch_runs docArray c w ([] ++ banner c)%list) as (evs & E & _).
  rewrite E. exists evs. reflexivity.
Qed.

(** The result of [run], the world it leaves and its outbound calls. *)
Lemma run_summary (docArray : list Document) (c : DocConfig) (w : W) :
  (fst (run X docArray c w), world (snd (run X docArray c w)),
   calls (trace (snd (run X docArray c w)))) = summary X docArray c w.
Proof.
  destruct (reportChain_runs docArray c w []) as (evs & E & C).
  unfold run. rewrite E. cbn [fst snd world trace app]. rewrite C.
  destruct (summary X docArray c w) as [[r w'] cs]. reflexivity.
Qed.

Lemma run_result (docArray : list Document) (c : DocConfig) (w : W) :
  fst (run X docArray c w) = fst (fst (summary X docArray c w)).
Proof. rewrite <- run_summary. reflexivity. Qed.

Lemma run_calls (docArray : list Document) (c : DocConfig) (w : W) :
  calls (trace (snd (run X docArray c w))) = snd (summary X docArray c w).
Proof. rewrite <- run_summary. reflexivity. Qed.

Lemma run_world (docArray : list Document) (c : DocConfig) (w : W) :
  world (snd (run X docArray c w)) = snd (fst (summary X docArray c w)).
Proof. rewrite <- run_summary. reflexivity. Qed.

(** [summary] once the disambiguation reply is in. *)
Lemma summary_after_selection docArray c w docs reply1 w4 :
  reaches_selection X c w docs reply1 w4 ->
  summary X docArray c w =
  let q := formatQuery c in
  let p1 := idPrompt X c docs in
  match JSON_parse X (content reply1) with
  | None =>
      (inl (SyntaxError (content reply1)), w4,
       [CreateStore; CreateLlm; RetrieverInvoke 5 q; LlmInvoke p1])
  | Some result =>
      match tableContent X docArray result with
      | inl e =>
          (inl e, w4, [CreateStore; CreateLlm; RetrieverInvoke 5 q; LlmInvoke p1])
      | inr table =>
          let p2 := htmlPrompt X table in
          match llmInvoke X p2 w4 with
          | (inl msg, w5) =>
              (inl (LlmError msg), w5,
               [CreateStore; CreateLlm; RetrieverInvoke 5 q; LlmInvoke p1; LlmInvoke p2])
          | (inr reply2, w5) =>
              (decode X (content reply2), w5,
               [CreateStore; CreateLlm; RetrieverInvoke 5 q; LlmInvoke p1; LlmInvoke p2])
          end
      end
  end.
Proof.
  intros (w1 & w2 & w3 & H1 & H2 & H3 & (Hp & Hf) & H4).
  unfold summary; cbv zeta. rewrite H1, H2, H3, Hp, Hf, H4. reflexivity.
Qed.

(** [summary] once the reformatting reply is in. *)
Lemma summary_after_reformat docArray c w result table reply2 w5 :
  reaches_reformat X docArray c w result table reply2 w5 ->
  exists docs,
    summary X docArray c w
    = (decode X (content reply2), w5,
       [ CreateStore; CreateLlm; RetrieverInvoke 5 (formatQuery c);
         LlmInvoke (idPrompt X c docs); LlmInvoke (htmlPrompt X table) ]).
Proof.
  intros (docs & reply1 & w4 & Hsel & Hparse & Ht & Hllm). exists docs.
  rewrite (summary_after_selection docArray c w _ _ _ Hsel); cbv zeta.
  rewrite Hparse, Ht, Hllm. reflexivity.
Qed.

End Chain.

(* ================================================================== *)
(** * The claims *)

(** ** C5: the search query *)

Lemma includes_prefix (n b : string) : Str.includes n (n ++ b) = true.
Proof. apply includes_here, starts_with_app. Qed.

Lemma includes_app_r (n a b : string) :
  Str.includes n b = true -> Str.includes n (a ++ b) = true.
Proof.
  intros H. induction a as [|c a IH]; cbn [append]; [exact H|].
  apply includes_later. exact IH.
Qed.

(** C5, as stated, fails: for the well-formed configuration of the
    Robinhood 10-Q, the query formatter returns a question in which the
    document name does not occur. *)
Lemma C5_query_omits_document_name :
  well_formed Stub.hood /\
  fst (step1 Stub.scenarioA (parsed searchTemplateText) Stub.hood (mkState 0%nat []))
  = inr "What is Robinhoods Balance Sheet for their 10-Q statement?" /\
  Str.includes (docName Stub.hood)
    "What is Robinhoods Balance Sheet for their 10-Q statement?" = false.
Proof.
  split; [| split; vm_compute; reflexivity].
  unfold well_formed; cbn; repeat split; discriminate.
Qed.

(** C5, as amended: for every well-formed configuration the query
    formatter (step 1) returns a non-empty string that contains the
    company name, the report type and the document type verbatim. *)
Theorem C5_query_embeds_company_report_and_type
        {W} (X : Externals W) (c : DocConfig) (s : state W) :
  well_formed c ->
  fst (step1 X (parsed searchTemplateText) c s) = inr (formatQuery c) /\
  formatQuery c <> EmptyString /\
  Str.includes (companyName c) (formatQuery c) = true /\
  Str.includes (reportType c) (formatQuery c) = true /\
  Str.includes (docType c) (formatQuery c) = true.
Proof.
  intros _. split; [| split; [| split; [| split]]].
  - eapply runs_fst; [apply step1_runs | reflexivity].
  - unfold formatQuery. cbn. discriminate.
  - unfold formatQuery. apply includes_app_r, includes_prefix.
  - unfold formatQuery. do 3 apply includes_app_r. apply includes_prefix.
  - unfold formatQuery. do 5 apply includes_app_r. apply includes_prefix.
Qed.

Lemma C5_query_witness :
  well_formed Stub.hood /\
  fst (step1 Stub.scenarioA (parsed searchTemplateText) Stub.hood (mkState 0%nat []))
  = inr (formatQuery Stub.hood) /\
  formatQuery Stub.hood <> EmptyString /\
  Str.includes (companyName Stub.hood) (formatQuery Stub.hood) = true /\
  Str.includes (reportType Stub.hood) (formatQuery Stub.hood) = true /\
  Str.includes (docType Stub.hood) (formatQuery Stub.hood) = true.
Proof.
  assert (H : well_formed Stub.hood)
    by (unfold well_formed; cbn; repeat split; discriminate).
  split; [exact H|].
  exact (C5_query_embeds_company_report_and_type
           Stub.scenarioA Stub.hood (mkState 0%nat []) H).
Defined.

(** ** C10: the document name *)

(** C10: two configurations that differ only in [docName] give, on the
    same document array, collaborators and world, the same result, the
    same final world and the same outbound calls (search query and both
    prompts included); the document name is only written to the
    console, in the banner of the run. *)
Theorem C10_docName_does_not_influence_the_run
        {W} (X : Externals W) (docArray : list Document)
        (name1 name2 company type report : string) (w : W) :
  let c1 := mkDocConfig name1 company type report in
  let c2 := mkDocConfig name2 company type report in
  fst (run X docArray c1 w) = fst (run X docArray c2 w) /\
  world (snd (run X docArray c1 w)) = world (snd (run X docArray c2 w)) /\
  calls (trace (snd (run X docArray c1 w))) = calls (trace (snd (run X docArray c2 w))) /\
  In (ConsoleLog [LStr ("- Document: " ++ name1)]) (trace (snd (run X docArray c1 w))).
Proof.
  intros c1 c2. rewrite !run_result, !run_world, !run_calls.
  repeat split; try reflexivity.
  destruct (run_starts_with_banner X docArray c1 w) as (rest & ->).
  apply in_or_app. left. cbn. auto.
Qed.

(** ** C9: two successive runs *)

(** With deterministic collaborators the result and the outbound calls
    of a run do not depend on the world it starts in. *)
Lemma summary_stateless {W} (X : Externals W) docArray c (w w' : W) :
  deterministic X ->
  fst (fst (summary X docArray c w)) = fst (fst (summary X docArray c w')) /\
  snd (summary X docArray c w) = snd (summary X docArray c w').
Proof.
  intros (Hs & Hl & Hr & Hm). unfold summary; cbv zeta.
  specialize (Hs w w').
  destruct (createStore X w) as [r1 w1], (createStore X w') as [r1' w1'].
  cbn [fst] in Hs. subst r1'. destruct r1 as [msg|[]]; [split; reflexivity|].
  specialize (Hl w1 w1').
  destruct (createLlm X w1) as [r2 w2], (createLlm X w1') as [r2' w2'].
  cbn [fst] in Hl. subst r2'. destruct r2 as [msg|[]]; [split; reflexivity|].
  specialize (Hr 5 (formatQuery c) w2 w2').
  destruct (retrieverInvoke X 5 (formatQuery c) w2) as [r3 w3],
           (retrieverInvoke X 5 (formatQuery c) w2') as [r3' w3'].
  cbn [fst] in Hr. subst r3'. destruct r3 as [msg|docs]; [split; reflexivity|].
  destruct (previews X (firstn 3 docs)) as [e|[]]; [split; reflexivity|].
  destruct (formatDocs X docs) as [e|text]; [split; reflexivity|].
  pose proof (Hm (idPrompt X c docs) w3 w3') as H4.
  destruct (llmInvoke X (idPrompt X c docs) w3) as [r4 w4],
           (llmInvoke X (idPrompt X c docs) w3') as [r4' w4'].
  cbn [fst] in H4. subst r4'. destruct r4 as [msg|reply1]; [split; reflexivity|].
  destruct (JSON_parse X (content reply1)) as [result|]; [|split; reflexivity].
  destruct (tableContent X docArray result) as [e|table]; [split; reflexivity|].
  pose proof (Hm (htmlPrompt X table) w4 w4') as H5.
  destruct (llmInvoke X (htmlPrompt X table) w4) as [r5 w5],
           (llmInvoke X (htmlPrompt X table) w4') as [r5' w5'].
  cbn [fst] in H5. subst r5'. destruct r5 as [msg|reply2]; split; reflexivity.
Qed.

(** C9: with deterministic (stubbed) collaborators, a second invocation
    on the same document array and configuration, started in the world
    the first one left, returns the same result (value or error) and
    makes the same outbound calls. *)
Theorem C9_successive_runs_agree
        {W} (X : Externals W) (docArray : list Document) (c : DocConfig) (w : W) :
  deterministic X ->
  let first := run X docArray c w in
  let second := run X docArray c (world (snd first)) in
  fst second = fst first /\
  calls (trace (snd second)) = calls (trace (snd first)).
Proof.
  intros H first second. subst first second.
  rewrite !run_result, !run_calls.
  apply summary_stateless. exact H.
Qed.

Lemma stub_deterministic candidates selection reformatted :
  deterministic (Stub.externals candidates selection reformatted).
Proof. repeat split. Qed.

Lemma C9_successive_runs_witness :
  deterministic Stub.scenarioA /\
  fst (run Stub.scenarioA [Stub.e1] Stub.hood
         (world (snd (run Stub.scenarioA [Stub.e1] Stub.hood 0%nat))))
  = fst (run Stub.scenarioA [Stub.e1] Stub.hood 0%nat) /\
  calls (trace (snd (run Stub.scenarioA [Stub.e1] Stub.hood
                       (world (snd (run Stub.scenarioA [Stub.e1] Stub.hood 0%nat))))))
  = calls (trace (snd (run Stub.scenarioA [Stub.e1] Stub.hood 0%nat))).
Proof.
  split; [apply stub_deterministic|].
  exact (C9_successive_runs_agree Stub.scenarioA [Stub.e1] Stub.hood 0%nat
           (stub_deterministic _ _ _)).
Defined.

(** The second run of the example does start in another world. *)
Example second_run_starts_elsewhere :
  world (snd (run Stub.scenarioA [Stub.e1] Stub.hood 0%nat)) = 5%nat.
Proof. vm_compute. reflexivity. Qed.

(** ** C6: a disambiguation reply that is not JSON *)

(** C6: when the disambiguation model's reply is not valid JSON, step 6
    throws the error of [JSON.parse] and so does the run; the only
    model call made is the disambiguation call: no element is selected
    and the reformatting stage is not entered. *)
Theorem C6_unparsable_selection_fails
        {W} (X : Externals W) (docArray : list Document) (c : DocConfig) (w : W)
        (docs : list Document) (reply1 : AIMessage) (w4 : W) :
  reaches_selection X c w docs reply1 w4 ->
  JSON_parse X (content reply1) = None ->
  (forall s, fst (step6 X reply1 s) = inl (SyntaxError (content reply1))) /\
  fst (run X docArray c w) = inl (SyntaxError (content reply1)) /\
  calls (trace (snd (run X docArray c w)))
  = [ CreateStore; CreateLlm; RetrieverInvoke 5 (formatQuery c);
      LlmInvoke (idPrompt X c docs) ].
Proof.
  intros Hsel Hparse. split; [| split].
  - intros s. erewrite runs_fst; [| apply step6_runs | reflexivity].
    unfold decode. rewrite Hparse. reflexivity.
  - rewrite run_result, (summary_after_selection X docArray c w _ _ _ Hsel); cbv zeta.
    rewrite Hparse. reflexivity.
  - rewrite run_calls, (summary_after_selection X docArray c w _ _ _ Hsel); cbv zeta.
    rewrite Hparse. reflexivity.
Qed.

Lemma talkative_reaches_selection :
  reaches_selection Examples.talkative Stub.hood 0%nat
    [Stub.e1] (mkAIMessage Examples.prose) 4%nat.
Proof. exists 1%nat, 2%nat, 3%nat. repeat split; vm_compute; reflexivity. Defined.

Lemma C6_unparsable_selection_witness :
  reaches_selection Examples.talkative Stub.hood 0%nat
    [Stub.e1] (mkAIMessage Examples.prose) 4%nat /\
  JSON_parse Examples.talkative Examples.prose = None /\
  fst (run Examples.talkative [Stub.e1] Stub.hood 0%nat)
  = inl (SyntaxError Examples.prose).
Proof.
  split; [exact talkative_reaches_selection|].
  split; [vm_compute; reflexivity|].
  exact (proj1 (proj2 (C6_unparsable_selection_fails
                         Examples.talkative [Stub.e1] Stub.hood 0%nat
                         [Stub.e1] (mkAIMessage Examples.prose) 4%nat
                         talkative_reaches_selection eq_refl))).
Defined.

(** ** C8: the reformatting reply *)

(** C8: the code at the failing input. The reformatting model replies
    with valid JSON that lacks [reformatted_content]; the reformat stage
    does not fail: the run returns the decoded object, which is not of
    the result type [chainResults] that [reportChain] declares. *)
Lemma C8_reply_without_field_is_returned :
  JSON_parse Examples.emptyObject "{}" = Some (VObj []) /\
  opt_get (VObj []) "reformatted_content" = VUndefined /\
  fst (run Examples.emptyObject [Stub.e1] Stub.hood 0%nat) = inr (VObj []).
Proof. repeat split; vm_compute; reflexivity. Qed.

(** What the code does in general: once the reformatting model has
    replied, the run fails if and only if the reply is not valid JSON,
    with the error of [JSON.parse] and without a result; a reply that is
    valid JSON is returned as decoded, whatever its fields. *)
Lemma run_fails_iff_the_reformat_reply_is_not_json
      {W} (X : Externals W) (docArray : list Document) (c : DocConfig) (w : W)
      (result table : jsval) (reply2 : AIMessage) (w5 : W) :
  reaches_reformat X docArray c w result table reply2 w5 ->
  fst (run X docArray c w) = decode X (content reply2) /\
  ((exists e, fst (run X docArray c w) = inl e)
   <-> JSON_parse X (content reply2) = None) /\
  (JSON_parse X (content reply2) = None ->
   fst (run X docArray c w) = inl (SyntaxError (content reply2))) /\
  (forall v, JSON_parse X (content reply2) = Some v ->
             fst (run X docArray c w) = inr v).
Proof.
  intros Hre.
  assert (E : fst (run X docArray c w) = decode X (content reply2)).
  { destruct (summary_after_reformat X docArray c w _ _ _ _ Hre) as (docs & Hs).
    rewrite run_result, Hs. reflexivity. }
  rewrite E. unfold decode.
  destruct (JSON_parse X (content reply2)) as [v|].
  - repeat split; try discriminate.
    + intros (e & He). discriminate.
    + intros v' Hv. injection Hv as ->. reflexivity.
  - repeat split; try discriminate; eauto.
Qed.

Lemma unparsable_reaches_reformat :
  reaches_reformat Examples.unparsable [Stub.e1] Stub.hood 0%nat
    (VObj [("element_id", VStr "e1"); ("filename", VStr "f.pdf")])
    (VStr Stub.tableA)
    (mkAIMessage "<table></table>") 5%nat.
Proof.
  exists [Stub.e1], (mkAIMessage Stub.selectE1), 4%nat.
  split; [exists 1%nat, 2%nat, 3%nat|]; repeat split; vm_compute; reflexivity.
Qed.

(** A reformatting reply that is markup, not JSON, fails the run. *)
Example unparsable_reformat_reply_fails :
  fst (run Examples.unparsable [Stub.e1] Stub.hood 0%nat)
  = inl (SyntaxError "<table></table>").
Proof.
  rewrite (proj1 (run_fails_iff_the_reformat_reply_is_not_json
                    Examples.unparsable [Stub.e1] Stub.hood 0%nat _ _ _ _
                    unparsable_reaches_reformat)).
  vm_compute. reflexivity.
Qed.

(** ** C3: the result of a successful run *)

(** C3: the code at the failing input. In end-to-end scenario A the run
    succeeds and the matched element has raw content, yet the value
    returned has no [original_content]: it is the decoded reply of the
    reformatting model and nothing else, although [reportChain] declares
    the result type [chainResults], whose [original_content] is a
    string. *)
Lemma C3_result_has_no_original_content :
  matchedDoc Stub.scenarioA [Stub.e1]
    (VObj [("element_id", VStr "e1"); ("filename", VStr "f.pdf")])
  = inr (Some Stub.e1) /\
  meta Stub.e1 "text_as_html" = VStr Stub.tableA /\
  fst (run Stub.scenarioA [Stub.e1] Stub.hood 0%nat)
  = inr (VObj [("reformatted_content", VStr Stub.tableA)]) /\
  opt_get (VObj [("reformatted_content", VStr Stub.tableA)]) "original_content"
  = VUndefined.
Proof. repeat split; vm_compute; reflexivity. Qed.

(** What the code does in general: the value returned by a successful
    run is the JSON value decoded from the reformatting model's reply,
    and that reply answers the prompt rendered from the content
    ([text_as_html]) that step 7 resolved, which the prompt contains
    verbatim when it is a string. *)
Lemma successful_run_returns_the_decoded_reformat_reply
      {W} (X : Externals W) (docArray : list Document) (c : DocConfig) (w : W)
      (v : jsval) :
  fst (run X docArray c w) = inr v ->
  exists result table reply2 w5,
    reaches_reformat X docArray c w result table reply2 w5 /\
    JSON_parse X (content reply2) = Some v /\
    Str.includes (renderValue X table) (htmlPrompt X table) = true.
Proof.
  rewrite run_result. unfold summary; cbv zeta.
  destruct (createStore X w) as [[msg|[]] w1] eqn:E1; [discriminate|].
  destruct (createLlm X w1) as [[msg|[]] w2] eqn:E2; [discriminate|].
  destruct (retrieverInvoke X 5 (formatQuery c) w2) as [[msg|docs] w3] eqn:E3;
    [discriminate|].
  destruct (previews X (firstn 3 docs)) as [e|[]] eqn:Ep; [discriminate|].
  destruct (formatDocs X docs) as [e|text] eqn:Ef; [discriminate|].
  destruct (llmInvoke X (idPrompt X c docs) w3) as [[msg|reply1] w4] eqn:E4;
    [discriminate|].
  destruct (JSON_parse X (content reply1)) as [result|] eqn:E5; [|discriminate].
  destruct (tableContent X docArray result) as [e|table] eqn:Et; [discriminate|].
  destruct (llmInvoke X (htmlPrompt X table) w4) as [[msg|reply2] w5] eqn:E6;
    [discriminate|].
  cbn [fst]. unfold decode.
  destruct (JSON_parse X (content reply2)) as [v'|] eqn:E7; [|discriminate].
  intros H. injection H as ->.
  exists result, table, reply2, w5. split; [| split].
  - exists docs, reply1, w4. split; [| auto].
    exists w1, w2, w3. repeat split; try assumption.
    unfold block. rewrite Ef. reflexivity.
  - exact E7.
  - apply htmlPrompt_embeds.
Qed.

(** ** Resolution against the document array *)

Lemma array_find_none {A} (p : A -> error + bool) (l : list A) :
  (forall x, In x l -> p x = inr false) -> array_find p l = inr None.
Proof.
  induction l as [|x l IH]; intros H; [reflexivity|].
  cbn. rewrite (H x (or_introl eq_refl)). apply IH.
  intros y Hy. apply H. right. exact Hy.
Qed.

Lemma array_find_first {A} (p : A -> error + bool) (pre : list A) (x : A) (post : list A) :
  (forall y, In y pre -> p y = inr false) -> p x = inr true ->
  array_find p (pre ++ x :: post) = inr (Some x).
Proof.
  induction pre as [|y pre IH]; intros Hpre Hx; cbn.
  - rewrite Hx. reflexivity.
  - rewrite (Hpre y (or_introl eq_refl)). apply IH; [|exact Hx].
    intros z Hz. apply Hpre. right. exact Hz.
Qed.

Lemma array_find_throws {A} (p : A -> error + bool) (pre : list A) (x : A) (post : list A)
      (e : error) :
  (forall y, In y pre -> p y = inr false) -> p x = inl e ->
  array_find p (pre ++ x :: post) = inl e.
Proof.
  induction pre as [|y pre IH]; intros Hpre Hx; cbn.
  - rewrite Hx. reflexivity.
  - rewrite (Hpre y (or_introl eq_refl)). apply IH; [|exact Hx].
    intros z Hz. apply Hpre. right. exact Hz.
Qed.

(** On two strings, [==] does not throw and is equality of the strings. *)
Lemma loose_eq_strings nts stn (a b : string) :
  loose_eq nts stn (VStr a) (VStr b) = inr (String.eqb a b).
Proof. reflexivity. Qed.

(** A comparison that throws ends step 7, and the run, with what it
    threw, after the disambiguation call and before any reformatting
    call. *)
Lemma failed_comparison_ends_the_run
      {W} (X : Externals W) (c : DocConfig) (w : W)
      (docs : list Document) (reply1 : AIMessage) (w4 : W) (result : jsval)
      (pre : list Document) (d : Document) (post : list Document) (e : error) :
  reaches_selection X c w docs reply1 w4 ->
  JSON_parse X (content reply1) = Some result ->
  (forall d', In d' pre -> id_matches X (opt_get result "element_id") d' = inr false) ->
  id_matches X (opt_get result "element_id") d = inl e ->
  (forall s, fst (step7 X (pre ++ d :: post) result s) = inl e) /\
  fst (run X (pre ++ d :: post) c w) = inl e /\
  calls (trace (snd (run X (pre ++ d :: post) c w)))
  = [ CreateStore; CreateLlm; RetrieverInvoke 5 (formatQuery c);
      LlmInvoke (idPrompt X c docs) ].
Proof.
  intros Hsel Hparse Hpre Hd.
  assert (Ht : tableContent X (pre ++ d :: post) result = inl e).
  { unfold tableContent, matchedDoc.
    rewrite (array_find_throws _ pre d post e Hpre Hd). reflexivity. }
  split; [| split].
  - intros s. erewrite runs_fst; [| apply step7_runs | reflexivity].
    rewrite Ht. reflexivity.
  - rewrite run_result, (summary_after_selection X _ c w _ _ _ Hsel); cbv zeta.
    rewrite Hparse, Ht. reflexivity.
  - rewrite run_calls, (summary_after_selection X _ c w _ _ _ Hsel); cbv zeta.
    rewrite Hparse, Ht. reflexivity.
Qed.

(** The decision names an object with a [toString] of its own: the
    comparison with the id of [e1] throws, and so does the run, after
    one model call. *)
Example unprintable_decision_throws :
  JSON_parse Examples.unprintable Examples.selectUnprintable
  = Some Examples.unprintableDecision /\
  id_matches Examples.unprintable (VObj [("toString", VNull)]) Stub.e1
  = inl notPrimitive /\
  fst (run Examples.unprintable [Stub.e1] Stub.hood 0%nat) = inl notPrimitive /\
  calls (trace (snd (run Examples.unprintable [Stub.e1] Stub.hood 0%nat)))
  = [ CreateStore; CreateLlm; RetrieverInvoke 5 (formatQuery Stub.hood);
      LlmInvoke (idPrompt Examples.unprintable Stub.hood [Stub.e1]) ].
Proof. repeat split; vm_compute; reflexivity. Qed.

(** ** C1: a decision that resolves to no element *)

(** C1, as stated, fails: the decision names ["nope"], which no element
    of the document array carries, and the run does not fail: the
    reformatting model is called, on the prompt rendered from
    [undefined], and its decoded reply is returned. *)
Lemma C1_unresolved_selection_returns_a_result :
  JSON_parse Examples.unresolved Examples.selectNope
  = Some (VObj [("element_id", VStr "nope"); ("filename", VStr "f.pdf")]) /\
  id_matches Examples.unresolved (VStr "nope") Stub.e1 = inr false /\
  fst (run Examples.unresolved [Stub.e1] Stub.hood 0%nat)
  = inr (VObj [("reformatted_content", VStr Stub.tableA)]) /\
  calls (trace (snd (run Examples.unresolved [Stub.e1] Stub.hood 0%nat)))
  = [ CreateStore; CreateLlm; RetrieverInvoke 5 (formatQuery Stub.hood);
      LlmInvoke (idPrompt Examples.unresolved Stub.hood [Stub.e1]);
      LlmInvoke (htmlPrompt Examples.unresolved VUndefined) ].
Proof. repeat split; vm_compute; reflexivity. Qed.

(** C1, as amended: when the element_id of the parsed decision is
    compared with the id of every element of the document array and
    equals none of them, step 7 does not fail: it yields [undefined] as
    the table content, and the run continues into the reformatting
    stage, calling the model on the prompt rendered from [undefined];
    the outcome of the run is the outcome of that call and of decoding
    its reply. *)
Theorem C1_unresolved_selection_continues
        {W} (X : Externals W) (docArray : list Document) (c : DocConfig) (w : W)
        (docs : list Document) (reply1 : AIMessage) (w4 : W)
        (result : jsval) (r2 : string + AIMessage) (w5 : W) :
  reaches_selection X c w docs reply1 w4 ->
  JSON_parse X (content reply1) = Some result ->
  (forall d, In d docArray -> id_matches X (opt_get result "element_id") d = inr false) ->
  llmInvoke X (htmlPrompt X VUndefined) w4 = (r2, w5) ->
  (forall s, fst (step7 X docArray result s) = inr [("tableContent", VUndefined)]) /\
  fst (run X docArray c w)
  = match r2 with
    | inl msg => inl (LlmError msg)
    | inr reply2 => decode X (content reply2)
    end /\
  calls (trace (snd (run X docArray c w)))
  = [ CreateStore; CreateLlm; RetrieverInvoke 5 (formatQuery c);
      LlmInvoke (idPrompt X c docs); LlmInvoke (htmlPrompt X VUndefined) ].
Proof.
  intros Hsel Hparse Hnone Hllm.
  assert (Ht : tableContent X docArray result = inr VUndefined).
  { unfold tableContent, matchedDoc. rewrite (array_find_none _ _ Hnone). reflexivity. }
  split; [| split].
  - intros s. erewrite runs_fst; [| apply step7_runs | reflexivity].
    rewrite Ht. reflexivity.
  - rewrite run_result, (summary_after_selection X docArray c w _ _ _ Hsel); cbv zeta.
    rewrite Hparse, Ht, Hllm. destruct r2; reflexivity.
  - rewrite run_calls, (summary_after_selection X docArray c w _ _ _ Hsel); cbv zeta.
    rewrite Hparse, Ht, Hllm. destruct r2; reflexivity.
Qed.

Lemma unresolved_reaches_selection :
  reaches_selection Examples.unresolved Stub.hood 0%nat
    [Stub.e1] (mkAIMessage Examples.selectNope) 4%nat.
Proof. exists 1%nat, 2%nat, 3%nat. repeat split; vm_compute; reflexivity. Defined.

Lemma nope_matches_nothing :
  forall d, In d [Stub.e1] ->
            id_matches Examples.unresolved
              (opt_get (VObj [("element_id", VStr "nope"); ("filename", VStr "f.pdf")])
                       "element_id") d = inr false.
Proof. intros d [<-|[]]. vm_compute. reflexivity. Defined.

Lemma C1_unresolved_selection_witness :
  reaches_selection Examples.unresolved Stub.hood 0%nat
    [Stub.e1] (mkAIMessage Examples.selectNope) 4%nat /\
  fst (run Examples.unresolved [Stub.e1] Stub.hood 0%nat)
  = decode Examples.unresolved Stub.reformattedA.
Proof.
  split; [exact unresolved_reaches_selection|].
  exact (proj1 (proj2 (C1_unresolved_selection_continues
                         Examples.unresolved [Stub.e1] Stub.hood 0%nat
                         [Stub.e1] (mkAIMessage Examples.selectNope) 4%nat
                         (VObj [("element_id", VStr "nope"); ("filename", VStr "f.pdf")])
                         (inr (mkAIMessage Stub.reformattedA)) 5%nat
                         unresolved_reaches_selection eq_refl
                         nope_matches_nothing eq_refl))).
Defined.

(** ** C2: a matched element without content *)

(** C2, as stated, fails: the decision resolves to an element that has
    no [text_as_html], and the run does not fail: the reformatting model
    is called and its decoded reply is returned. *)
Lemma C2_absent_content_returns_a_result :
  matchedDoc Examples.contentless [Examples.bare]
    (VObj [("element_id", VStr "e2"); ("filename", VStr "f.pdf")])
  = inr (Some Examples.bare) /\
  meta Examples.bare "text_as_html" = VUndefined /\
  fst (run Examples.contentless [Examples.bare] Stub.hood 0%nat)
  = inr (VObj [("reformatted_content", VStr Stub.tableA)]) /\
  calls (trace (snd (run Examples.contentless [Examples.bare] Stub.hood 0%nat)))
  = [ CreateStore; CreateLlm; RetrieverInvoke 5 (formatQuery Stub.hood);
      LlmInvoke (idPrompt Examples.contentless Stub.hood [Examples.bare]);
      LlmInvoke (htmlPrompt Examples.contentless VUndefined) ].
Proof. repeat split; vm_compute; reflexivity. Qed.

(** C2, as amended: when step 7 resolves the decision to an element
    (no comparison before it having thrown) whose [text_as_html] is
    absent or the empty string, it does not fail: it passes that content
    on, and the run calls the reformatting model on the prompt rendered
    from it; the outcome of the run is the outcome of that call and of
    decoding its reply. *)
Theorem C2_missing_content_continues
        {W} (X : Externals W) (docArray : list Document) (c : DocConfig) (w : W)
        (docs : list Document) (reply1 : AIMessage) (w4 : W)
        (result : jsval) (doc : Document) (r2 : string + AIMessage) (w5 : W) :
  reaches_selection X c w docs reply1 w4 ->
  JSON_parse X (content reply1) = Some result ->
  matchedDoc X docArray result = inr (Some doc) ->
  meta doc "text_as_html" = VUndefined \/ meta doc "text_as_html" = VStr EmptyString ->
  llmInvoke X (htmlPrompt X (meta doc "text_as_html")) w4 = (r2, w5) ->
  (forall s, fst (step7 X docArray result s)
             = inr [("tableContent", meta doc "text_as_html")]) /\
  fst (run X docArray c w)
  = match r2 with
    | inl msg => inl (LlmError msg)
    | inr reply2 => decode X (content reply2)
    end /\
  calls (trace (snd (run X docArray c w)))
  = [ CreateStore; CreateLlm; RetrieverInvoke 5 (formatQuery c);
      LlmInvoke (idPrompt X c docs);
      LlmInvoke (htmlPrompt X (meta doc "text_as_html")) ].
Proof.
  intros Hsel Hparse Hdoc _ Hllm.
  assert (Ht : tableContent X docArray result = inr (meta doc "text_as_html")).
  { unfold tableContent. rewrite Hdoc. reflexivity. }
  split; [| split].
  - intros s. erewrite runs_fst; [| apply step7_runs | reflexivity].
    rewrite Ht. reflexivity.
  - rewrite run_result, (summary_after_selection X docArray c w _ _ _ Hsel); cbv zeta.
    rewrite Hparse, Ht, Hllm. destruct r2; reflexivity.
  - rewrite run_calls, (summary_after_selection X docArray c w _ _ _ Hsel); cbv zeta.
    rewrite Hparse, Ht, Hllm. destruct r2; reflexivity.
Qed.

Lemma blank_reaches_selection :
  reaches_selection Examples.blankContent Stub.hood 0%nat
    [Examples.blank] (mkAIMessage Examples.selectE2) 4%nat.
Proof. exists 1%nat, 2%nat, 3%nat. repeat split; vm_compute; reflexivity. Defined.

Lemma C2_missing_content_witness :
  reaches_selection Examples.blankContent Stub.hood 0%nat
    [Examples.blank] (mkAIMessage Examples.selectE2) 4%nat /\
  matchedDoc Examples.blankContent [Examples.blank]
    (VObj [("element_id", VStr "e2"); ("filename", VStr "f.pdf")])
  = inr (Some Examples.blank) /\
  meta Examples.blank "text_as_html" = VStr EmptyString /\
  fst (run Examples.blankContent [Examples.blank] Stub.hood 0%nat)
  = decode Examples.blankContent Stub.reformattedA.
Proof.
  split; [exact blank_reaches_selection|].
  split; [reflexivity|].
  split; [reflexivity|].
  exact (proj1 (proj2 (C2_missing_content_continues
                         Examples.blankContent [Examples.blank] Stub.hood 0%nat
                         [Examples.blank] (mkAIMessage Examples.selectE2) 4%nat
                         (VObj [("element_id", VStr "e2"); ("filename", VStr "f.pdf")])
                         Examples.blank
                         (inr (mkAIMessage Stub.reformattedA)) 5%nat
                         blank_reaches_selection eq_refl eq_refl
                         (or_intror eq_refl) eq_refl))).
Defined.

(** ** C4: a retrieval that finds nothing *)

(** C4, as stated, fails: the retriever returns zero candidates, and the
    run does not fail; both model calls are made and a result is
    returned. *)
Lemma C4_empty_retrieval_returns_a_result :
  retrieverInvoke Examples.noCandidates 5 (formatQuery Stub.hood) 2%nat
  = (inr [], 3%nat) /\
  fst (run Examples.noCandidates [Stub.e1] Stub.hood 0%nat)
  = inr (VObj [("reformatted_content", VStr Stub.tableA)]) /\
  calls (trace (snd (run Examples.noCandidates [Stub.e1] Stub.hood 0%nat)))
  = [ CreateStore; CreateLlm; RetrieverInvoke 5 (formatQuery Stub.hood);
      LlmInvoke (idPrompt Examples.noCandidates Stub.hood []);
      LlmInvoke (htmlPrompt Examples.noCandidates (VStr Stub.tableA)) ].
Proof. repeat split; vm_compute; reflexivity. Qed.

(** C4, as amended: when the retriever returns zero candidates the run
    does not fail at retrieval: the block of formatted documents is the
    empty string, the disambiguation model is called on the prompt
    rendered over it, and the run never ends with a retriever error. *)
Theorem C4_empty_retrieval_continues
        {W} (X : Externals W) (docArray : list Document) (c : DocConfig)
        (w w1 w2 w3 : W) (r1 : string + AIMessage) (w4 : W) :
  createStore X w = (inr tt, w1) ->
  createLlm X w1 = (inr tt, w2) ->
  retrieverInvoke X 5 (formatQuery c) w2 = (inr [], w3) ->
  llmInvoke X (idPrompt X c []) w3 = (r1, w4) ->
  formatDocs X [] = inr EmptyString /\
  (exists rest,
      calls (trace (snd (run X docArray c w)))
      = ([ CreateStore; CreateLlm; RetrieverInvoke 5 (formatQuery c);
           LlmInvoke (idPrompt X c []) ] ++ rest)%list) /\
  (forall msg, fst (run X docArray c w) <> inl (RetrieverError msg)).
Proof.
  intros H1 H2 H3 H4. split; [reflexivity|].
  rewrite run_result, run_calls. unfold summary; cbv zeta.
  rewrite H1, H2, H3. cbn [firstn previews].
  change (formatDocs X []) with (@inr error string EmptyString). cbv beta iota.
  rewrite H4.
  destruct r1 as [msg1|reply1].
  { split; [exists []; reflexivity | intros msg; discriminate]. }
  destruct (JSON_parse X (content reply1)) as [result|].
  2:{ split; [exists []; reflexivity | intros msg; discriminate]. }
  destruct (tableContent X docArray result) as [e|table] eqn:Et.
  { split; [exists []; reflexivity|].
    intros msg H. cbn [fst] in H. injection H as ->.
    apply tableContent_throws in Et. discriminate Et. }
  destruct (llmInvoke X (htmlPrompt X table) w4)
    as [[msg2|reply2] w5].
  { split; [eexists [_]; reflexivity | intros msg; discriminate]. }
  split; [eexists [_]; reflexivity|].
  intros msg. cbn [fst]. unfold decode.
  destruct (JSON_parse X (content reply2)); discriminate.
Qed.

Lemma C4_empty_retrieval_witness :
  retrieverInvoke Examples.noCandidates 5 (formatQuery Stub.hood) 2%nat
  = (inr [], 3%nat) /\
  formatDocs Examples.noCandidates [] = inr EmptyString /\
  (exists rest,
      calls (trace (snd (run Examples.noCandidates [Stub.e1] Stub.hood 0%nat)))
      = ([ CreateStore; CreateLlm; RetrieverInvoke 5 (formatQuery Stub.hood);
           LlmInvoke (idPrompt Examples.noCandidates Stub.hood []) ] ++ rest)%list) /\
  (forall msg,
      fst (run Examples.noCandidates [Stub.e1] Stub.hood 0%nat)
      <> inl (RetrieverError msg)).
Proof.
  split; [reflexivity|].
  exact (C4_empty_retrieval_continues
           Examples.noCandidates [Stub.e1] Stub.hood 0%nat 1%nat 2%nat 3%nat
           (inr (mkAIMessage Stub.selectE1)) 4%nat
           eq_refl eq_refl eq_refl eq_refl).
Defined.

(** ** C7: how the decision is resolved *)

(** C7, as stated, fails: the model returns an [element_id] that is an
    array holding ["e1"]; it is not equal to the id ["e1"] of the
    element, yet [==] holds and the element is selected. *)
Lemma C7_selected_without_exact_equality :
  JSON_parse Examples.looselySelected Examples.selectArray = Some Examples.arrayDecision /\
  opt_get Examples.arrayDecision "element_id" = VArr [VStr "e1"] /\
  meta Stub.e1 "element_id" = VStr "e1" /\
  VStr "e1" <> VArr [VStr "e1"] /\
  fst (step7 Examples.looselySelected [Stub.e1] Examples.arrayDecision (mkState 0%nat []))
  = inr [("tableContent", VStr Stub.tableA)] /\
  fst (run Examples.looselySelected [Stub.e1] Stub.hood 0%nat)
  = inr (VObj [("reformatted_content", VStr Stub.tableA)]).
Proof.
  repeat split; try (vm_compute; reflexivity). discriminate.
Qed.

(** C7, as amended: the element_id returned by the model is resolved
    against the document array passed to [reportChain] (the retrieved
    candidates are not consulted) by JavaScript loose equality [==] on
    [metadata.element_id], which is exact equality whenever both ids
    are strings; the first element in array order for which the
    comparison holds, those before it having compared unequal without
    throwing, is the one whose content step 7 passes on. *)
Theorem C7_first_loose_match_in_document_array
        {W} (X : Externals W) (docArray : list Document) (result : jsval)
        (pre : list Document) (d : Document) (post : list Document) (s : state W) :
  docArray = (pre ++ d :: post)%list ->
  (forall d', In d' pre -> id_matches X (opt_get result "element_id") d' = inr false) ->
  id_matches X (opt_get result "element_id") d = inr true ->
  matchedDoc X docArray result = inr (Some d) /\
  fst (step7 X docArray result s) = inr [("tableContent", meta d "text_as_html")] /\
  (forall d' a b,
      meta d' "element_id" = VStr a -> opt_get result "element_id" = VStr b ->
      id_matches X (opt_get result "element_id") d' = inr (String.eqb a b)) /\
  (forall a b, meta d "element_id" = VStr a -> opt_get result "element_id" = VStr b ->
               a = b).
Proof.
  intros -> Hpre Hd.
  assert (Hm : matchedDoc X (pre ++ d :: post) result = inr (Some d)).
  { unfold matchedDoc. apply array_find_first; assumption. }
  assert (Hs : forall d' a b,
             meta d' "element_id" = VStr a -> opt_get result "element_id" = VStr b ->
             id_matches X (opt_get result "element_id") d' = inr (String.eqb a b)).
  { intros d' a b Ha Hb. unfold id_matches. rewrite Ha, Hb. apply loose_eq_strings. }
  split; [exact Hm | split; [| split; [exact Hs|]]].
  - erewrite runs_fst; [| apply step7_runs | reflexivity].
    unfold tableContent. rewrite Hm. reflexivity.
  - intros a b Ha Hb. rewrite (Hs d a b Ha Hb) in Hd.
    injection Hd as Hd. apply String.eqb_eq. exact Hd.
Qed.

(** The witness: [e9] is in the document array but is not among the
    retrieved candidates, and sits behind [e1]. *)
Lemma C7_first_match_witness :
  id_matches Stub.scenarioA (VStr "e9") Stub.e1 = inr false /\
  id_matches Stub.scenarioA (VStr "e9") Examples.e9 = inr true /\
  matchedDoc Stub.scenarioA [Stub.e1; Examples.e9]
    (VObj [("element_id", VStr "e9")]) = inr (Some Examples.e9) /\
  fst (step7 Stub.scenarioA [Stub.e1; Examples.e9] (VObj [("element_id", VStr "e9")])
         (mkState 0%nat []))
  = inr [("tableContent", meta Examples.e9 "text_as_html")] /\
  (forall d' a b,
      meta d' "element_id" = VStr a ->
      opt_get (VObj [("element_id", VStr "e9")]) "element_id" = VStr b ->
      id_matches Stub.scenarioA (opt_get (VObj [("element_id", VStr "e9")]) "element_id") d'
      = inr (String.eqb a b)) /\
  (forall a b, meta Examples.e9 "element_id" = VStr a ->
               opt_get (VObj [("element_id", VStr "e9")]) "element_id" = VStr b ->
               a = b).
Proof.
  split; [reflexivity|]. split; [reflexivity|].
  refine (C7_first_loose_match_in_document_array
            Stub.scenarioA [Stub.e1; Examples.e9] (VObj [("element_id", VStr "e9")])
            [Stub.e1] Examples.e9 [] (mkState 0%nat []) eq_refl _ eq_refl).
  intros d' [<-|[]]. reflexivity.
Defined.

(** The decision names [e9], which the retriever did not return; it
    is found in the document array and its content is what the
    reformatting prompt is rendered from. *)
Example resolves_outside_the_candidates :
  retrieverInvoke Examples.outsideCandidates 5 (formatQuery Stub.hood) 2%nat
  = (inr [Stub.e1], 3%nat) /\
  calls (trace (snd (run Examples.outsideCandidates [Stub.e1; Examples.e9]
                       Stub.hood 0%nat)))
  = [ CreateStore; CreateLlm; RetrieverInvoke 5 (formatQuery Stub.hood);
      LlmInvoke (idPrompt Examples.outsideCandidates Stub.hood [Stub.e1]);
      LlmInvoke (htmlPrompt Examples.outsideCandidates
                   (meta Examples.e9 "text_as_html")) ].
Proof. split; vm_compute; reflexivity. Qed.

(** ** End-to-end scenarios of the specification *)

(** Scenario A. *)
Example scenario_A :
  fst (run Stub.scenarioA [Stub.e1] Stub.hood 0%nat)
  = inr (VObj [("reformatted_content", VStr Stub.tableA)]).
Proof. vm_compute. reflexivity. Qed.

(** Scenario C: prose instead of JSON. *)
Example scenario_C :
  fst (run Examples.talkative [Stub.e1] Stub.hood 0%nat)
  = inl (SyntaxError Examples.prose).
Proof. vm_compute. reflexivity. Qed.

(** A retriever that throws does end the run before any model call. *)
Lemma retriever_error_propagates
      {W} (X : Externals W) (docArray : list Document) (c : DocConfig)
      (w w1 w2 w3 : W) (msg : string) :
  createStore X w = (inr tt, w1) ->
  createLlm X w1 = (inr tt, w2) ->
  retrieverInvoke X 5 (formatQuery c) w2 = (inl msg, w3) ->
  fst (run X docArray c w) = inl (RetrieverError msg) /\
  calls (trace (snd (run X docArray c w)))
  = [ CreateStore; CreateLlm; RetrieverInvoke 5 (formatQuery c) ].
Proof.
  intros H1 H2 H3. rewrite run_result, run_calls. unfold summary; cbv zeta.
  rewrite H1, H2, H3. split; reflexivity.
Qed.

(* ================================================================== *)
(** * Storage, indexing and the controllers *)

(** ** Object literals *)

Lemma get_set_same (o : list (string * jsval)) (k : string) (v : jsval) :
  get_field (set_prop o k v) k = v.
Proof.
  unfold set_prop. induction o as [|[k' v'] o IH]; cbn.
  - rewrite String.eqb_refl. reflexivity.
  - destruct (String.eqb k' k) eqn:E; cbn; rewrite E; [reflexivity | exact IH].
Qed.

Lemma get_set_other (o : list (string * jsval)) (k k' : string) (v : jsval) :
  k <> k' -> get_field (set_prop o k v) k' = get_field o k'.
Proof.
  intros Hk. unfold set_prop. induction o as [|[k0 v0] o IH]; cbn.
  - apply String.eqb_neq in Hk. rewrite Hk. reflexivity.
  - destruct (String.eqb k0 k) eqn:E; cbn.
    + apply String.eqb_eq in E. subst k0.
      apply String.eqb_neq in Hk. rewrite Hk. reflexivity.
    + destruct (String.eqb k0 k'); [reflexivity | exact IH].
Qed.

Ltac object_lookup :=
  repeat first [ rewrite get_set_same
               | rewrite get_set_other by (try discriminate; congruence) ].

(** ** GCSService.getDocuments: the documents it builds *)

(** X1. In a document built by [getDocuments] the page content is the
    element's text, and the metadata keys [element_id], [type] and
    [embedding] hold the element's own [element_id], [type] and
    [embeddings], whatever the element's metadata carries under these
    keys; [source] and [filename] both hold the metadata's [filename]. *)
Theorem documentOf_takes_ids_from_the_element (item : GCS.UnstructuredOutput) :
  pageContent (GCS.documentOf item) = GCS.item_text item /\
  meta (GCS.documentOf item) "element_id" = VStr (GCS.item_element_id item) /\
  meta (GCS.documentOf item) "type" = VStr (GCS.item_type item) /\
  meta (GCS.documentOf item) "source" = get_field (GCS.item_metadata item) "filename" /\
  meta (GCS.documentOf item) "filename" = get_field (GCS.item_metadata item) "filename" /\
  meta (GCS.documentOf item) "embedding" = VArr (map VNum (GCS.item_embeddings item)).
Proof.
  unfold meta, GCS.documentOf; cbn [metadata pageContent].
  repeat split; object_lookup; reflexivity.
Qed.

(** X2. Every metadata key of the element other than [element_id],
    [type], [source] and [embedding] reads in the document exactly as it
    reads in the element's metadata ([undefined] when it is absent). *)
Theorem documentOf_keeps_the_other_metadata (item : GCS.UnstructuredOutput) (key : string) :
  ~ In key overridden ->
  meta (GCS.documentOf item) key = get_field (GCS.item_metadata item) key.
Proof.
  intros H. unfold overridden in H. cbn [In] in H.
  assert (H1 : "element_id" <> key) by tauto.
  assert (H2 : "type" <> key) by tauto.
  assert (H3 : "source" <> key) by tauto.
  assert (H4 : "embedding" <> key) by tauto.
  unfold meta, GCS.documentOf; cbn [metadata].
  rewrite (get_set_other _ _ _ _ H4), (get_set_other _ _ _ _ H3),
          (get_set_other _ _ _ _ H2), (get_set_other _ _ _ _ H1).
  destruct (string_dec "page_number" key) as [<-|N1];
    [rewrite get_set_same; reflexivity | rewrite (get_set_other _ _ _ _ N1)].
  destruct (string_dec "filetype" key) as [<-|N2];
    [rewrite get_set_same; reflexivity | rewrite (get_set_other _ _ _ _ N2)].
  destruct (string_dec "filename" key) as [<-|N3];
    [rewrite get_set_same; reflexivity | rewrite (get_set_other _ _ _ _ N3)].
  reflexivity.
Qed.

Lemma documentOf_keeps_the_other_metadata_witness :
  ~ In "text_as_html" overridden /\
  meta (GCS.documentOf Sample.table1) "text_as_html" = VStr Stub.tableA.
Proof.
  assert (H : ~ In "text_as_html" overridden).
  { unfold overridden. cbn [In]. intros [H|[H|[H|[H|[]]]]]; discriminate H. }
  split; [exact H|].
  rewrite (documentOf_keeps_the_other_metadata Sample.table1 "text_as_html" H).
  reflexivity.
Defined.

Lemma documentOf_element_id (item : GCS.UnstructuredOutput) :
  meta (GCS.documentOf item) "element_id" = VStr (GCS.item_element_id item).
Proof. unfold meta, GCS.documentOf; cbn [metadata]. object_lookup. reflexivity. Qed.

Lemma documentOf_text_as_html (item : GCS.UnstructuredOutput) :
  meta (GCS.documentOf item) "text_as_html"
  = get_field (GCS.item_metadata item) "text_as_html".
Proof. unfold meta, GCS.documentOf; cbn [metadata]. object_lookup. reflexivity. Qed.

Lemma id_matches_documentOf {W} (X : Externals W) (item : GCS.UnstructuredOutput) (i : string) :
  id_matches X (VStr i) (GCS.documentOf item)
  = inr (String.eqb (GCS.item_element_id item) i).
Proof. unfold id_matches. rewrite documentOf_element_id. reflexivity. Qed.

(** X3. Documents loaded by [getDocuments], then resolved by step 7 of
    [reportChain]: when the parsed selection has the string [i] as its
    [element_id], the table content step 7 returns is the [text_as_html]
    of the first element of the file whose own [element_id] is [i], and
    [undefined] when the file has no such element. *)
Theorem loaded_documents_resolve_by_element_id
        {W} (X : Externals W) (items : list GCS.UnstructuredOutput)
        (result : jsval) (i : string) (s : state W) :
  opt_get result "element_id" = VStr i ->
  fst (step7 X (map GCS.documentOf items) result s)
  = inr [ ("tableContent",
           match find (fun it => String.eqb (GCS.item_element_id it) i) items with
           | Some it => get_field (GCS.item_metadata it) "text_as_html"
           | None => VUndefined
           end) ].
Proof.
  intros Hid. erewrite runs_fst; [| apply step7_runs | reflexivity].
  assert (Ht : tableContent X (map GCS.documentOf items) result
               = inr match find (fun it => String.eqb (GCS.item_element_id it) i) items with
                     | Some it => get_field (GCS.item_metadata it) "text_as_html"
                     | None => VUndefined
                     end).
  { unfold tableContent, matchedDoc. rewrite Hid.
    induction items as [|it items IH]; [reflexivity|].
    cbn [map array_find find]. rewrite id_matches_documentOf.
    destruct (String.eqb (GCS.item_element_id it) i); [|exact IH].
    rewrite documentOf_text_as_html. reflexivity. }
  rewrite Ht. reflexivity.
Qed.

Lemma loaded_documents_resolve_by_element_id_witness :
  opt_get (VObj [("element_id", VStr "e1")]) "element_id" = VStr "e1" /\
  fst (step7 Stub.scenarioA (map GCS.documentOf Sample.items)
             (VObj [("element_id", VStr "e1")]) (mkState 0%nat []))
  = inr [("tableContent", VStr Stub.tableA)].
Proof.
  split; [reflexivity|].
  exact (loaded_documents_resolve_by_element_id Stub.scenarioA Sample.items
           (VObj [("element_id", VStr "e1")]) "e1" (mkState 0%nat []) eq_refl).
Defined.

(** ** GCSService.getDocuments: what it does to the bucket *)

Section GetDocuments.

Context {W : Type} (S : GCS.Storage W).

(** X4. When [GCS_OUTPUT_BUCKET] or [GCS_CREDENTIALS_FILE] is unset or
    empty, [getDocuments] throws before touching the bucket and without
    writing to the console; the message names the bucket variable when
    that one is missing, the credentials variable otherwise. *)
Theorem getDocuments_needs_both_variables (env : GCS.Env) (fileName : string)
        (w : W) (t : list effect) :
  env_or_empty (GCS.GCS_OUTPUT_BUCKET env) = EmptyString \/
  env_or_empty (GCS.GCS_CREDENTIALS_FILE env) = EmptyString ->
  GCS.getDocuments S env fileName (w, t)
  = (inl (ErrorWith
            (if is_empty (env_or_empty (GCS.GCS_OUTPUT_BUCKET env))
             then "GCS_OUTPUT_BUCKET environment variable is required"
             else "GCS_CREDENTIALS_FILE environment variable is required")),
     (w, t)).
Proof.
  intros H. unfold GCS.getDocuments; cbv zeta.
  destruct (is_empty (env_or_empty (GCS.GCS_OUTPUT_BUCKET env))) eqn:Eb; [reflexivity|].
  destruct H as [H|H].
  - rewrite H in Eb. discriminate.
  - rewrite H. reflexivity.
Qed.

(** X5. When the existence check of the file does not answer [true],
    [getDocuments] opens no stream: it throws
    [Error accessing <file>: <reason>], where the reason is the message of
    what the check threw, or that the file was not found in the bucket,
    and it writes that same error to the console once. *)
Theorem getDocuments_wraps_a_missing_file (env : GCS.Env) (bucket fileName : string)
        (w w' : W) (t : list effect) (r : thrown + bool) :
  GCS.GCS_OUTPUT_BUCKET env = Some bucket -> bucket <> EmptyString ->
  env_or_empty (GCS.GCS_CREDENTIALS_FILE env) <> EmptyString ->
  GCS.exists_ S bucket fileName w = (r, w') ->
  r <> inr true ->
  let err :=
    ErrorWith ("Error accessing " ++ fileName ++ ": " ++
               match r with
               | inl e => message_of e
               | inr _ => "File " ++ fileName ++ " not found in bucket " ++ bucket
               end) in
  GCS.getDocuments S env fileName (w, t)
  = (inl err,
     (w', t ++ [ FileExists bucket fileName;
                 ErrorLine "Error processing Unstructured output:" err ])%list).
Proof.
  intros Hb Hne Hc Hex Hr err. subst err.
  unfold GCS.getDocuments; cbv zeta. rewrite Hb. cbn [env_or_empty].
  apply String.eqb_neq in Hne, Hc. unfold is_empty. rewrite Hne, Hc.
  unfold GCS.getFileStreamSafe, IO.try_catch, IO.bind, IO.call, IO.emit, IO.throw.
  cbn [fst snd]. rewrite Hex.
  destruct r as [e|[|]]; [| congruence |]; cbn [negb fst snd];
    rewrite <- app_assoc; reflexivity.
Qed.

(** X6. When the file exists, can be read, and parses to elements of
    the declared type, [getDocuments] checks, opens and reads the file
    once each, in that order, and returns one document per element, in
    the order of the file, each with the text, the [element_id] and the
    [text_as_html] of its element. *)
Theorem getDocuments_returns_one_document_per_element
        (env : GCS.Env) (bucket fileName data : string)
        (items : list GCS.UnstructuredOutput) (w w1 w2 w3 : W) (t : list effect) :
  GCS.GCS_OUTPUT_BUCKET env = Some bucket -> bucket <> EmptyString ->
  env_or_empty (GCS.GCS_CREDENTIALS_FILE env) <> EmptyString ->
  GCS.exists_ S bucket fileName w = (inr true, w1) ->
  GCS.createReadStream S bucket fileName w1 = (inr tt, w2) ->
  GCS.readToEnd S bucket fileName w2 = (inr data, w3) ->
  GCS.parseOutput S data = inr items ->
  exists docs,
    GCS.getDocuments S env fileName (w, t)
    = (inr docs,
       (w3, t ++ [ FileExists bucket fileName; OpenStream bucket fileName;
                   ReadStream bucket fileName ])%list) /\
    length docs = length items /\
    forall n item, nth_error items n = Some item ->
      exists doc, nth_error docs n = Some doc /\
                  pageContent doc = GCS.item_text item /\
                  meta doc "element_id" = VStr (GCS.item_element_id item) /\
                  meta doc "text_as_html" = get_field (GCS.item_metadata item) "text_as_html".
Proof.
  intros Hb Hne Hc H1 H2 H3 H4.
  exists (map GCS.documentOf items). split; [| split].
  - unfold GCS.getDocuments; cbv zeta. rewrite Hb. cbn [env_or_empty].
    apply String.eqb_neq in Hne, Hc. unfold is_empty. rewrite Hne, Hc.
    unfold GCS.getFileStreamSafe, IO.try_catch, IO.bind, IO.call, IO.emit, IO.throw, IO.ret.
    cbn [fst snd]. rewrite H1. cbn [negb fst snd]. rewrite H2. cbn [fst snd].
    rewrite H3, H4. rewrite <- !app_assoc. reflexivity.
  - apply length_map.
  - intros n item Hn. exists (GCS.documentOf item). split; [| split; [| split]].
    + rewrite nth_error_map, Hn. reflexivity.
    + reflexivity.
    + apply documentOf_element_id.
    + apply documentOf_text_as_html.
Qed.

End GetDocuments.

Lemma getDocuments_needs_both_variables_witness :
  (env_or_empty (GCS.GCS_OUTPUT_BUCKET (GCS.mkEnv (Some "bucket") None)) = EmptyString \/
   env_or_empty (GCS.GCS_CREDENTIALS_FILE (GCS.mkEnv (Some "bucket") None)) = EmptyString) /\
  GCS.getDocuments (Sample.storage true) (GCS.mkEnv (Some "bucket") None)
                   "hood-10Q.pdf.json" (0%nat, [])
  = (inl (ErrorWith "GCS_CREDENTIALS_FILE environment variable is required"), (0%nat, [])).
Proof.
  split; [right; reflexivity|].
  exact (getDocuments_needs_both_variables (Sample.storage true)
           (GCS.mkEnv (Some "bucket") None) "hood-10Q.pdf.json" 0%nat []
           (or_intror eq_refl)).
Defined.

Lemma getDocuments_wraps_a_missing_file_witness :
  GCS.getDocuments (Sample.storage false) Sample.env "hood-10Q.pdf.json" (0%nat, [])
  = (inl (ErrorWith "Error accessing hood-10Q.pdf.json: File hood-10Q.pdf.json not found in bucket unstructured-output"),
     (1%nat,
      [ FileExists "unstructured-output" "hood-10Q.pdf.json";
        ErrorLine "Error processing Unstructured output:"
          (ErrorWith "Error accessing hood-10Q.pdf.json: File hood-10Q.pdf.json not found in bucket unstructured-output") ])).
Proof.
  apply (getDocuments_wraps_a_missing_file (Sample.storage false) Sample.env
           "unstructured-output" "hood-10Q.pdf.json" 0%nat 1%nat [] (inr false)).
  - reflexivity.
  - discriminate.
  - discriminate.
  - reflexivity.
  - discriminate.
Defined.

Lemma getDocuments_returns_one_document_per_element_witness :
  exists docs,
    GCS.getDocuments (Sample.storage true) Sample.env "hood-10Q.pdf.json" (0%nat, [])
    = (inr docs,
       (3%nat, [ FileExists "unstructured-output" "hood-10Q.pdf.json";
                 OpenStream "unstructured-output" "hood-10Q.pdf.json";
                 ReadStream "unstructured-output" "hood-10Q.pdf.json" ])) /\
    length docs = 2%nat.
Proof.
  destruct (getDocuments_returns_one_document_per_element (Sample.storage true) Sample.env
              "unstructured-output" "hood-10Q.pdf.json" Sample.fileText Sample.items
              0%nat 1%nat 2%nat 3%nat [])
    as (docs & E & L & _);
    [ reflexivity | discriminate | discriminate
    | reflexivity | reflexivity | reflexivity | reflexivity | ].
  exists docs. split; [exact E | exact L].
Defined.

(** ** Uploading to Pinecone: the vectors *)

Lemma toVectors_from_length (idx : nat) (documents : list Document) (vs : list Vector) :
  Upload.toVectors_from idx documents = inr vs -> length vs = length documents.
Proof.
  revert idx vs; induction documents as [|d ds IH]; intros idx vs H; cbn in H.
  - injection H as <-. reflexivity.
  - destruct (Upload.toVector d idx); [discriminate|].
    destruct (Upload.toVectors_from (S idx) ds) as [|vs'] eqn:E; [discriminate|].
    injection H as <-. cbn. f_equal. eapply IH. exact E.
Qed.

Lemma toVector_ok (d : Document) (idx : nat) :
  ToBoolean (meta d "embedding") = true -> exists v, Upload.toVector d idx = inr v.
Proof. intros H. unfold Upload.toVector. rewrite H. cbn. eexists. reflexivity. Qed.

Lemma toVectors_from_first_missing (idx : nat) (pre : list Document) (d : Document)
      (post : list Document) :
  Forall (fun x => ToBoolean (meta x "embedding") = true) pre ->
  ToBoolean (meta d "embedding") = false ->
  Upload.toVectors_from idx (pre ++ d :: post)
  = inl (ErrorWith ("Document at index " ++ Str.of_nat (idx + length pre)
                      ++ " is missing embeddings in metadata")).
Proof.
  intros Hpre Hd. revert idx. induction Hpre as [|x pre Hx _ IH]; intros idx.
  - cbn [app length Upload.toVectors_from]. unfold Upload.toVector. rewrite Hd.
    cbn [negb]. rewrite Nat.add_0_r. reflexivity.
  - cbn [app length Upload.toVectors_from].
    destruct (toVector_ok x idx Hx) as [v ->].
    rewrite IH. rewrite Nat.add_succ_r. reflexivity.
Qed.

Section UploadFacts.

Context {W : Type}.
Variable upsert : string -> list Vector -> W -> (thrown + unit) * W.

(** X7. If some document has no (truthy) [embedding] in its metadata,
    both upload functions throw
    [Document at index <n> is missing embeddings in metadata] for the
    first such document, write that error to the console, and send
    nothing to the index, whatever the documents before it were. *)
Theorem upload_stops_at_the_first_missing_embedding
        (fuel : nat) (pre : list Document) (d : Document) (post : list Document)
        (indexName : string) (batchSize : nat) (w : W) (t : list effect) :
  Forall (fun x => ToBoolean (meta x "embedding") = true) pre ->
  ToBoolean (meta d "embedding") = false ->
  let err :=
    ErrorWith ("Document at index " ++ Str.of_nat (length pre)
                 ++ " is missing embeddings in metadata") in
  let stopped : (thrown + option (list Document)) * (W * list effect) :=
    (inl err, (w, t ++ [ErrorLine "Error uploading documents to Pinecone:" err])%list) in
  Upload.uploadDocumentsToPinecone upsert fuel (pre ++ d :: post) indexName batchSize (w, t)
  = stopped /\
  Upload.uploadUnstructuredDocuments upsert indexName (pre ++ d :: post) (w, t) = stopped.
Proof.
  intros Hpre Hd err stopped. subst err stopped.
  unfold Upload.uploadUnstructuredDocuments, Upload.uploadDocumentsToPinecone,
    Upload.uploadDocuments, Upload.toVectors.
  rewrite (toVectors_from_first_missing 0 pre d post Hpre Hd).
  split; reflexivity.
Qed.

End UploadFacts.

Lemma upload_stops_at_the_first_missing_embedding_witness :
  Upload.uploadUnstructuredDocuments Sample.upsert "reports"
    ([GCS.documentOf Sample.table1] ++ Stub.e1 :: [Sample.anonymous]) (0%nat, [])
  = (inl (ErrorWith "Document at index 1 is missing embeddings in metadata"),
     (0%nat, [ ErrorLine "Error uploading documents to Pinecone:"
                 (ErrorWith "Document at index 1 is missing embeddings in metadata") ])).
Proof.
  apply (upload_stops_at_the_first_missing_embedding Sample.upsert 3
           [GCS.documentOf Sample.table1] Stub.e1 [Sample.anonymous] "reports" 10 0%nat []).
  - repeat constructor.
  - reflexivity.
Defined.

(** X8. The vector of a document with a truthy [element_id] has that
    value as its id and as the [element_id] of its metadata. Without
    one, the id is [fallback-id-<idx>] while the metadata says
    [unknown-<idx>]: the two differ. *)
Theorem vector_id_and_metadata_id
        (d : Document) (idx : nat) (v : Vector) :
  Upload.toVector d idx = inr v ->
  (ToBoolean (meta d "element_id") = true ->
   id v = meta d "element_id" /\ get_field (vmetadata v) "element_id" = meta d "element_id") /\
  (ToBoolean (meta d "element_id") = false ->
   id v = VStr ("fallback-id-" ++ Str.of_nat idx) /\
   get_field (vmetadata v) "element_id" = VStr ("unknown-" ++ Str.of_nat idx) /\
   id v <> get_field (vmetadata v) "element_id").
Proof.
  unfold Upload.toVector.
  destruct (negb (ToBoolean (meta d "embedding"))); [discriminate|].
  intros H. injection H as <-. cbn [id vmetadata get_field String.eqb Ascii.eqb Bool.eqb].
  unfold js_or. split; intros Hb; rewrite Hb.
  - split; reflexivity.
  - repeat split. discriminate.
Qed.

Lemma vector_id_and_metadata_id_witness :
  exists v,
    Upload.toVector Sample.anonymous 3 = inr v /\
    id v = VStr "fallback-id-3" /\
    get_field (vmetadata v) "element_id" = VStr "unknown-3".
Proof.
  destruct (Upload.toVector Sample.anonymous 3) as [e|v] eqn:E; [discriminate E|].
  exists v. split; [reflexivity|].
  destruct (vector_id_and_metadata_id Sample.anonymous 3 v E) as [_ H].
  destruct (H eq_refl) as (H1 & H2 & _). split; [exact H1 | exact H2].
Defined.

(** ** Uploading to Pinecone: the text preview *)

Lemma N_of_byte (n : N) : (n < 256)%N -> N_of_ascii (ascii_of_N n) = n.
Proof. apply N_ascii_embedding. Qed.

Lemma low_six (a b : N) : ((a * 64 + b) mod 64 = b mod 64)%N.
Proof. rewrite N.add_comm, N.Div0.mod_add. reflexivity. Qed.

Lemma units_utf8 (u : N) (t : string) :
  (u < 65536)%N -> Utf16.units (Utf16.utf8 u ++ t) = u :: Utf16.units t.
Proof.
  intros Hu. unfold Utf16.utf8.
  pose proof (N.div_mod u 64 ltac:(lia)) as D64.
  pose proof (N.mod_lt u 64 ltac:(lia)) as M64.
  destruct (N.ltb_spec u 128) as [H1|H1].
  - cbn [Utf16.byte append Utf16.units]. rewrite N_of_byte by lia.
    destruct (N.ltb_spec u 192); [reflexivity | lia].
  - destruct (N.ltb_spec u 2048) as [H2|H2].
    + assert (Hq : (u / 64 < 32)%N) by (apply N.Div0.div_lt_upper_bound; lia).
      cbn [Utf16.byte append Utf16.units]. rewrite !N_of_byte by lia.
      destruct (N.ltb_spec (192 + u / 64) 192); [lia|].
      destruct (N.ltb_spec (192 + u / 64) 224); [|lia].
      f_equal.
      replace (128 + u mod 64)%N with (2 * 64 + u mod 64)%N by lia.
      rewrite low_six, N.Div0.mod_mod. lia.
    + assert (Hq : (u / 4096 < 16)%N) by (apply N.Div0.div_lt_upper_bound; lia).
      pose proof (N.div_mod (u / 64) 64 ltac:(lia)) as D2.
      pose proof (N.mod_lt (u / 64) 64 ltac:(lia)) as M2.
      assert (Hd : (u / 64 / 64 = u / 4096)%N)
        by (rewrite N.Div0.div_div; reflexivity).
      cbn [Utf16.byte append Utf16.units]. rewrite !N_of_byte by lia.
      destruct (N.ltb_spec (224 + u / 4096) 192); [lia|].
      destruct (N.ltb_spec (224 + u / 4096) 224); [lia|].
      destruct (N.ltb_spec (224 + u / 4096) 240); [|lia].
      f_equal.
      replace (128 + (u / 64) mod 64)%N with (2 * 64 + (u / 64) mod 64)%N by lia.
      replace (128 + u mod 64)%N with (2 * 64 + u mod 64)%N by lia.
      rewrite !low_six, !N.Div0.mod_mod. lia.
Qed.

Lemma units_encode (us : list N) (t : string) :
  Forall (fun u => (u < 65536)%N) us ->
  Utf16.units (Utf16.encode us ++ t) = (us ++ Utf16.units t)%list.
Proof.
  intros H. induction H as [|u us Hu _ IH]; [reflexivity|].
  cbn [Utf16.encode app].
  assert (A : forall a b c : string, (a ++ b) ++ c = a ++ (b ++ c)).
  { intros a b c. induction a as [|x a IHa]; cbn; [reflexivity | rewrite IHa; reflexivity]. }
  rewrite A, units_utf8 by exact Hu. rewrite IH. reflexivity.
Qed.

Lemma units_bounded_upto (n : nat) :
  forall s, (String.length s <= n)%nat -> Forall (fun u => (u < 65536)%N) (Utf16.units s).
Proof.
  induction n as [|n IH]; intros s Hs.
  - destruct s; [constructor | cbn in Hs; lia].
  - destruct s as [|a rest]; [constructor|]. cbn [String.length] in Hs.
    pose proof (N_ascii_bounded a) as Ha.
    assert (Hm : forall x, (x mod 64 < 64)%N) by (intros x; apply N.mod_lt; lia).
    assert (Hk : forall x, (x mod 1024 < 1024)%N) by (intros x; apply N.mod_lt; lia).
    cbn [Utf16.units]. cbv zeta.
    destruct (N.ltb_spec (N_of_ascii a) 192).
    { constructor; [lia | apply IH; lia]. }
    destruct (N.ltb_spec (N_of_ascii a) 224).
    { destruct rest as [|a1 rest1].
      - constructor; [lia | constructor].
      - pose proof (Hm (N_of_ascii a1)).
        constructor; [lia | apply IH; cbn [String.length] in Hs; lia]. }
    destruct (N.ltb_spec (N_of_ascii a) 240).
    { destruct rest as [|a1 [|a2 rest2]].
      - constructor; [lia | constructor].
      - pose proof (Hm (N_of_ascii a1)). constructor; [lia | constructor].
      - pose proof (Hm (N_of_ascii a1)). pose proof (Hm (N_of_ascii a2)).
        constructor; [lia | apply IH; cbn [String.length] in Hs; lia]. }
    destruct rest as [|a1 [|a2 [|a3 rest3]]];
      try (constructor; [lia | constructor]).
    match goal with |- Forall _ ((55296 + ?x mod 1024)%N :: (56320 + ?y mod 1024)%N :: _) =>
      pose proof (Hk x); pose proof (Hk y) end.
    constructor; [lia|]. constructor; [lia|].
    apply IH. cbn [String.length] in Hs. lia.
Qed.

Lemma units_bounded (s : string) : Forall (fun u => (u < 65536)%N) (Utf16.units s).
Proof. apply (units_bounded_upto (String.length s)). lia. Qed.

Lemma append_empty (s : string) : s ++ EmptyString = s.
Proof. induction s as [|c s IH]; cbn; [reflexivity | rewrite IH; reflexivity]. Qed.

Lemma Forall_prefix {A} (P : A -> Prop) (n : nat) (l : list A) :
  Forall P l -> Forall P (firstn n l).
Proof.
  intros H. revert n. induction H as [|x l Hx _ IH]; intros [|n]; cbn; constructor;
    [exact Hx | apply IH].
Qed.

(** [substring] returns the code units it was asked for. *)
Lemma units_substring (n : nat) (s t : string) :
  Utf16.units (Utf16.substring 0 n s ++ t) = (firstn n (Utf16.units s) ++ Utf16.units t)%list.
Proof.
  unfold Utf16.substring. rewrite Nat.sub_0_r. cbn [skipn].
  apply units_encode. apply Forall_prefix. apply units_bounded.
Qed.


(** X9. The [text_preview] of a vector is a string of at most 503 code
    units: the page content itself when it has at most 500 code units,
    its first 500 code units followed by [...] otherwise; [text_length]
    is the number of code units of the whole page content. *)
Theorem vector_text_preview_is_bounded (d : Document) (idx : nat) (v : Vector) :
  Upload.toVector d idx = inr v ->
  exists p,
    get_field (vmetadata v) "text_preview" = VStr p /\
    (Utf16.length p <= 503)%nat /\
    ((Utf16.length (pageContent d) <= 500)%nat ->
     Utf16.units p = Utf16.units (pageContent d) /\
     (Utf16.well_formed (pageContent d) -> p = pageContent d)) /\
    ((500 < Utf16.length (pageContent d))%nat ->
     Utf16.units p = (firstn 500 (Utf16.units (pageContent d)) ++ Utf16.units "...")%list /\
     Utf16.length p = 503%nat) /\
    get_field (vmetadata v) "text_length"
    = VNum (Upload.number_of_nat (Utf16.length (pageContent d))).
Proof.
  unfold Upload.toVector.
  destruct (negb (ToBoolean (meta d "embedding"))); [discriminate|].
  intros H. injection H as <-.
  exists (Upload.text_preview (pageContent d)).
  split; [reflexivity|]. unfold Upload.text_preview, Utf16.length.
  pose proof (units_substring 500 (pageContent d)) as Hu.
  destruct (Nat.ltb_spec 500 (List.length (Utf16.units (pageContent d)))) as [Hlong|Hshort].
  - rewrite Hu, length_app, length_firstn. change (List.length (Utf16.units "...")) with 3%nat.
    repeat split; lia.
  - rewrite Hu, length_app, length_firstn. cbn [Utf16.units List.length].
    rewrite app_nil_r, firstn_all2 by exact Hshort.
    repeat split; try lia.
    intros Hwf. rewrite append_empty. unfold Utf16.substring.
    rewrite Nat.sub_0_r. cbn [skipn]. rewrite firstn_all2 by exact Hshort. exact Hwf.
Qed.

Lemma vector_text_preview_is_bounded_witness :
  exists v p,
    Upload.toVector Sample.long 0 = inr v /\
    get_field (vmetadata v) "text_preview" = VStr p /\
    Utf16.length (pageContent Sample.long) = 600%nat /\
    Utf16.length p = 503%nat.
Proof.
  destruct (Upload.toVector Sample.long 0) as [e|v] eqn:E; [discriminate E|].
  destruct (vector_text_preview_is_bounded Sample.long 0 v E) as (p & Hp & _ & _ & Hlong & _).
  exists v, p. split; [reflexivity|]. split; [exact Hp|].
  assert (L : Utf16.length (pageContent Sample.long) = 600%nat) by (vm_compute; reflexivity).
  split; [exact L|]. apply Hlong. rewrite L. lia.
Defined.

(** A text of 300 accented letters takes 600 bytes and 300 code units:
    its preview is the text itself, and its length is stored as 300. *)
Example accented_text_is_kept_whole :
  String.length Sample.accented = 600%nat /\
  Utf16.length Sample.accented = 300%nat /\
  Utf16.well_formed Sample.accented /\
  exists v,
    Upload.toVector Sample.accentedDoc 0 = inr v /\
    get_field (vmetadata v) "text_preview" = VStr Sample.accented /\
    get_field (vmetadata v) "text_length" = VNum 300%float.
Proof.
  split; [vm_compute; reflexivity|]. split; [vm_compute; reflexivity|].
  split; [vm_compute; reflexivity|].
  eexists. split; [reflexivity|]. split; vm_compute; reflexivity.
Qed.

(** ** Uploading to Pinecone: the batches *)

Lemma upserted_app (a b : list effect) :
  Upload.upserted (a ++ b) = (Upload.upserted a ++ Upload.upserted b)%list.
Proof. apply flat_map_app. Qed.

Section Batches.

Context {W : Type}.
Variable upsert : string -> list Vector -> W -> (thrown + unit) * W.
Variable indexName : string.
Variable batchSize : nat.
Variable vectors : list Vector.
Hypothesis positive : (0 < batchSize)%nat.

Lemma batch_size (i : nat) :
  (i < length vectors)%nat ->
  (1 <= length (firstn batchSize (skipn i vectors)) <= batchSize)%nat.
Proof. intros Hi. rewrite length_firstn, length_skipn. lia. Qed.

Lemma loop_done (i total : nat) (w : W) (t : list effect) :
  (length vectors <= i)%nat ->
  let out : (thrown + option nat) * (W * list effect) := IO.ret (Some total) (w, t) in
  exists evs,
    snd (snd out) = (t ++ evs)%list /\
    (exists rest, skipn i vectors = (concat (Upload.upserted evs) ++ rest)%list) /\
    Forall (fun b => (1 <= length b <= batchSize)%nat) (Upload.upserted evs) /\
    fst out <> inr None /\
    (forall n, fst out = inr (Some n) ->
               concat (Upload.upserted evs) = skipn i vectors /\
               n = (total + (length vectors - i))%nat).
Proof.
  intros Hi out. subst out. exists []. cbn [IO.ret fst snd Upload.upserted flat_map concat app].
  rewrite app_nil_r, (skipn_all2 vectors Hi).
  split; [reflexivity|]. split; [exists []; reflexivity|]. split; [constructor|].
  split; [intros H; discriminate H|].
  intros n H. injection H as <-. split; [reflexivity | lia].
Qed.

Lemma uploadLoop_invariant (fuel : nat) :
  forall (i total : nat) (w : W) (t : list effect),
    (length vectors - i <= fuel)%nat ->
    let out := Upload.uploadLoop upsert fuel indexName batchSize vectors i total (w, t) in
    exists evs,
      snd (snd out) = (t ++ evs)%list /\
      (exists rest, skipn i vectors = (concat (Upload.upserted evs) ++ rest)%list) /\
      Forall (fun b => (1 <= length b <= batchSize)%nat) (Upload.upserted evs) /\
      fst out <> inr None /\
      (forall n, fst out = inr (Some n) ->
                 concat (Upload.upserted evs) = skipn i vectors /\
                 n = (total + (length vectors - i))%nat).
Proof.
  induction fuel as [|fuel IH]; intros i total w t Hfuel out; subst out.
  - cbn [Upload.uploadLoop]. destruct (Nat.ltb_spec i (length vectors)) as [Hi|Hi]; [lia|].
    apply loop_done; exact Hi.
  - cbn [Upload.uploadLoop]. destruct (Nat.ltb_spec i (length vectors)) as [Hi|Hi].
    + set (batch := firstn batchSize (skipn i vectors)).
      unfold IO.bind, IO.call, IO.emit. cbn [fst snd].
      destruct (upsert indexName batch w) as [[e|[]] w1]; cbn [fst snd].
      * exists [Upsert indexName batch]. cbn [fst snd Upload.upserted flat_map concat app].
        rewrite app_nil_r.
        split; [reflexivity|]. split; [| split; [| split; [intros H; discriminate H|]]].
        -- exists (skipn batchSize (skipn i vectors)). subst batch.
           symmetry. apply firstn_skipn.
        -- constructor; [apply batch_size; exact Hi | constructor].
        -- intros n H. discriminate.
      * set (t1 := ((t ++ [Upsert indexName batch]) ++
                    [UploadedBatch i batchSize (total + length batch) (length vectors)])%list).
        destruct (IH (i + batchSize)%nat (total + length batch)%nat w1 t1 ltac:(lia))
          as (evs & E & (rest & Hrest) & Hall & Hnone & Hsome).
        exists ([Upsert indexName batch;
                 UploadedBatch i batchSize (total + length batch) (length vectors)] ++ evs)%list.
        assert (Hsk : skipn (i + batchSize) vectors = skipn batchSize (skipn i vectors))
          by (rewrite skipn_skipn; f_equal; lia).
        assert (Hlen : length batch = Nat.min batchSize (length vectors - i))
          by (subst batch; rewrite length_firstn, length_skipn; reflexivity).
        split; [| split; [| split; [| split]]].
        -- rewrite E. subst t1. rewrite <- !app_assoc. reflexivity.
        -- exists rest. cbn [Upload.upserted flat_map concat app].
           fold (Upload.upserted evs). rewrite <- app_assoc, <- Hrest, Hsk.
           subst batch. symmetry. apply firstn_skipn.
        -- cbn [Upload.upserted flat_map app]. fold (Upload.upserted evs).
           constructor; [apply batch_size; exact Hi | exact Hall].
        -- exact Hnone.
        -- intros n Hn. destruct (Hsome n Hn) as [Hc ->].
           cbn [Upload.upserted flat_map concat app]. fold (Upload.upserted evs).
           rewrite Hc, Hsk. split; [subst batch; apply firstn_skipn | lia].
    + apply loop_done; exact Hi.
Qed.

End Batches.

Section UploadTheorems.

Context {W : Type}.
Variable upsert : string -> list Vector -> W -> (thrown + unit) * W.

(** X10. With a positive batch size, the upload loop ends (within
    as many iterations as there are documents); the batches it has sent,
    put end to end, are a prefix of the vectors in their order, each batch
    has between 1 and [batchSize] vectors, and when the call returns, it
    returns the documents it was given and has sent every vector exactly
    once. *)
Theorem upload_sends_the_vectors_in_order_without_repeats
        (fuel : nat) (documents : list Document) (indexName : string) (batchSize : nat)
        (vectors : list Vector) (w : W) (t : list effect) :
  (0 < batchSize)%nat ->
  (length documents <= fuel)%nat ->
  Upload.toVectors documents = inr vectors ->
  let out := Upload.uploadDocumentsToPinecone upsert fuel documents indexName batchSize (w, t) in
  exists evs,
    snd (snd out) = (t ++ evs)%list /\
    (exists rest, vectors = (concat (Upload.upserted evs) ++ rest)%list) /\
    Forall (fun b => (1 <= length b <= batchSize)%nat) (Upload.upserted evs) /\
    fst out <> inr None /\
    (forall ds, fst out = inr (Some ds) ->
                ds = documents /\ concat (Upload.upserted evs) = vectors).
Proof.
  intros Hpos Hfuel Hvs out. subst out.
  unfold Upload.uploadDocumentsToPinecone, Upload.uploadDocuments.
  rewrite Hvs. unfold IO.try_catch, IO.bind, IO.ret, IO.emit, IO.throw. cbn [fst snd].
  assert (Hlen : (length vectors - 0 <= fuel)%nat).
  { rewrite (toVectors_from_length 0 documents vectors Hvs). lia. }
  destruct (uploadLoop_invariant upsert indexName batchSize vectors Hpos fuel 0 0 w t Hlen)
    as (evs & E & (rest & Hrest) & Hall & Hnone & Hsome).
  cbn [skipn] in Hrest, Hsome.
  destruct (Upload.uploadLoop upsert fuel indexName batchSize vectors 0 0 (w, t))
    as [[e|[n|]] [w' t']]; cbn [fst snd] in *.
  - exists (evs ++ [ErrorLine "Error uploading documents to Pinecone:" e])%list.
    rewrite E, upserted_app, app_nil_r, <- app_assoc.
    split; [reflexivity|]. split; [exists rest; exact Hrest|]. split; [exact Hall|].
    split; [intros H; discriminate H | intros ds H; discriminate H].
  - exists (evs ++ [UploadedAll n indexName])%list.
    rewrite E, upserted_app, app_nil_r, <- app_assoc.
    split; [reflexivity|]. split; [exists rest; exact Hrest|]. split; [exact Hall|].
    split; [intros H; discriminate H|].
    intros ds H. injection H as <-. split; [reflexivity|].
    apply (Hsome n). reflexivity.
  - exfalso. apply Hnone. reflexivity.
Qed.

Lemma toVectors_from_total (idx : nat) (documents : list Document) :
  Forall (fun x => ToBoolean (meta x "embedding") = true) documents ->
  exists vs, Upload.toVectors_from idx documents = inr vs.
Proof.
  intros H. revert idx. induction H as [|d ds Hd _ IH]; intros idx.
  - exists []. reflexivity.
  - cbn. destruct (toVector_ok d idx Hd) as [v ->].
    destruct (IH (S idx)) as [vs ->]. eexists. reflexivity.
Qed.

Lemma batches_needed (m batchSize : nat) :
  (0 < batchSize)%nat -> (0 < m)%nat ->
  ((m + batchSize - 1) / batchSize = S ((m - batchSize + batchSize - 1) / batchSize))%nat.
Proof.
  intros Hb Hm. destruct (Nat.le_gt_cases batchSize m) as [Hge|Hlt].
  - replace (m + batchSize - 1)%nat with ((m - batchSize + batchSize - 1) + 1 * batchSize)%nat
      by lia.
    rewrite Nat.div_add by lia. lia.
  - replace (m - batchSize + batchSize - 1)%nat with (batchSize - 1)%nat by lia.
    rewrite (Nat.div_small (batchSize - 1)) by lia.
    replace (m + batchSize - 1)%nat with ((m - 1) + 1 * batchSize)%nat by lia.
    rewrite Nat.div_add by lia. rewrite Nat.div_small by lia. reflexivity.
Qed.

Lemma uploadLoop_success (indexName : string) (batchSize : nat) (vectors : list Vector) :
  (0 < batchSize)%nat ->
  (forall b w, fst (upsert indexName b w) = inr tt) ->
  forall (fuel i total : nat) (w : W) (t : list effect),
    (length vectors - i <= fuel)%nat ->
    exists w' evs,
      Upload.uploadLoop upsert fuel indexName batchSize vectors i total (w, t)
      = (inr (Some (total + (length vectors - i))%nat), (w', (t ++ evs)%list)) /\
      length (Upload.upserted evs)
      = ((length vectors - i + batchSize - 1) / batchSize)%nat.
Proof.
  intros Hpos Hok. induction fuel as [|fuel IH]; intros i total w t Hfuel.
  - cbn [Upload.uploadLoop]. destruct (Nat.ltb_spec i (length vectors)) as [Hi|Hi]; [lia|].
    exists w, []. rewrite app_nil_r. split.
    + unfold IO.ret. do 3 f_equal. lia.
    + replace (length vectors - i)%nat with 0%nat by lia.
      cbn [Upload.upserted flat_map length]. symmetry. apply Nat.div_small. lia.
  - cbn [Upload.uploadLoop]. destruct (Nat.ltb_spec i (length vectors)) as [Hi|Hi].
    + set (batch := firstn batchSize (skipn i vectors)).
      unfold IO.bind, IO.call, IO.emit. cbn [fst snd].
      pose proof (Hok batch w) as Hb.
      destruct (upsert indexName batch w) as [r w1]; cbn [fst] in Hb; subst r; cbn [fst snd].
      set (t1 := ((t ++ [Upsert indexName batch]) ++
                  [UploadedBatch i batchSize (total + length batch) (length vectors)])%list).
      destruct (IH (i + batchSize)%nat (total + length batch)%nat w1 t1 ltac:(lia))
        as (w' & evs & E & Hcount).
      exists w', ([Upsert indexName batch;
                   UploadedBatch i batchSize (total + length batch) (length vectors)]
                  ++ evs)%list.
      assert (Hlen : length batch = Nat.min batchSize (length vectors - i))
        by (subst batch; rewrite length_firstn, length_skipn; reflexivity).
      split.
      * rewrite E. subst t1. rewrite <- !app_assoc. do 3 f_equal. lia.
      * cbn [Upload.upserted flat_map app length]. fold (Upload.upserted evs).
        rewrite Hcount, (batches_needed (length vectors - i) batchSize Hpos) by lia.
        do 2 f_equal. lia.
    + exists w, []. rewrite app_nil_r. split.
      * unfold IO.ret. do 3 f_equal. lia.
      * replace (length vectors - i)%nat with 0%nat by lia.
        cbn [Upload.upserted flat_map length]. symmetry. apply Nat.div_small. lia.
Qed.

(** X11. When every document has an embedding and the index accepts
    every batch, [uploadUnstructuredDocuments] returns the documents it
    was given after sending all their vectors, in order, in
    [ceil (n / 10)] batches, and reports [n] uploaded vectors. *)
Theorem uploadUnstructuredDocuments_uploads_everything
        (indexName : string) (documents : list Document) (w : W) (t : list effect) :
  Forall (fun x => ToBoolean (meta x "embedding") = true) documents ->
  (forall b w0, fst (upsert indexName b w0) = inr tt) ->
  exists vectors w' evs,
    Upload.toVectors documents = inr vectors /\
    Upload.uploadUnstructuredDocuments upsert indexName documents (w, t)
    = (inr (Some documents), (w', (t ++ evs)%list)) /\
    concat (Upload.upserted evs) = vectors /\
    length (Upload.upserted evs) = ((length documents + 9) / 10)%nat /\
    In (UploadedAll (length documents) indexName) evs.
Proof.
  intros Hall Hok.
  destruct (toVectors_from_total 0 documents Hall) as [vectors Hvs].
  pose proof (toVectors_from_length 0 documents vectors Hvs) as Hlen.
  assert (Hpos : (0 < 10)%nat) by lia.
  assert (Hfuel : (length vectors - 0 <= length documents)%nat) by lia.
  destruct (uploadLoop_success indexName 10 vectors Hpos Hok
              (length documents) 0 0 w t Hfuel) as (w' & evs & E & Hcount).
  destruct (uploadLoop_invariant upsert indexName 10 vectors Hpos
              (length documents) 0 0 w t Hfuel)
    as (evs' & E' & _ & _ & _ & Hsome).
  rewrite E in E', Hsome. cbn [fst snd skipn] in E', Hsome.
  apply app_inv_head in E'. subst evs'.
  exists vectors, w', (evs ++ [UploadedAll (length documents) indexName])%list.
  split; [exact Hvs|]. split; [| split; [| split]].
  - unfold Upload.uploadUnstructuredDocuments, Upload.uploadDocuments.
    unfold Upload.toVectors in Hvs |- *. rewrite Hvs.
    unfold IO.try_catch, IO.bind, IO.ret, IO.emit. cbn [fst snd].
    rewrite E. cbn [fst snd]. rewrite <- app_assoc.
    replace (0 + (length vectors - 0))%nat with (length documents) by lia.
    reflexivity.
  - rewrite upserted_app, app_nil_r. apply (Hsome _ eq_refl).
  - rewrite upserted_app, app_nil_r, Hcount. f_equal. lia.
  - apply in_or_app. right. left. reflexivity.
Qed.

Lemma uploadLoop_zero_batch (indexName : string) (vectors : list Vector) :
  vectors <> [] ->
  forall (fuel total : nat) (w : W) (t : list effect),
    let out := Upload.uploadLoop upsert fuel indexName 0 vectors 0 total (w, t) in
    exists evs,
      snd (snd out) = (t ++ evs)%list /\
      Forall (fun b => b = []) (Upload.upserted evs) /\
      (forall n, fst out <> inr (Some n)) /\
      ((forall b w0, fst (upsert indexName b w0) = inr tt) ->
       fst out = inr None /\ length (Upload.upserted evs) = fuel).
Proof.
  intros Hne. assert (Hlt : (0 <? length vectors)%nat = true).
  { destruct vectors; [congruence | reflexivity]. }
  induction fuel as [|fuel IH]; intros total w t out; subst out.
  - cbn [Upload.uploadLoop]. rewrite Hlt. exists []. cbn. rewrite app_nil_r.
    split; [reflexivity|]. split; [constructor|].
    split; [intros n H; discriminate H | intros _; split; reflexivity].
  - cbn [Upload.uploadLoop]. rewrite Hlt. cbn [firstn Nat.add].
    unfold IO.bind, IO.call, IO.emit. cbn [fst snd].
    destruct (upsert indexName [] w) as [[e|[]] w1] eqn:Eu; cbn [fst snd].
    + exists [Upsert indexName []]. cbn [Upload.upserted flat_map app length].
      split; [reflexivity|]. split; [repeat constructor|].
      split; [intros n H; discriminate H|].
      intros Hok. pose proof (Hok [] w) as Hb. rewrite Eu in Hb. discriminate Hb.
    + destruct (IH (total + 0)%nat w1
                  ((t ++ [Upsert indexName []]) ++
                   [UploadedBatch 0 0 (total + 0) (length vectors)])%list)
        as (evs & E & Hall & Hnever & Hrun).
      cbn [length] in *.
      exists ([Upsert indexName []; UploadedBatch 0 0 (total + 0) (length vectors)]
              ++ evs)%list.
      split; [rewrite E, <- !app_assoc; reflexivity|].
      cbn [Upload.upserted flat_map app length]. fold (Upload.upserted evs).
      split; [constructor; [reflexivity | exact Hall]|].
      split; [exact Hnever|].
      intros Hok. destruct (Hrun Hok) as [Hr Hl]. split; [exact Hr | rewrite Hl; reflexivity].
Qed.

(** X12. With batch size 0 and at least one document,
    [uploadDocumentsToPinecone] never returns its documents: every batch
    it sends is empty, and as long as the index accepts them the loop is
    still running after any number of iterations. *)
Theorem upload_with_batch_size_zero_never_finishes
        (fuel : nat) (documents : list Document) (indexName : string)
        (vectors : list Vector) (w : W) (t : list effect) :
  documents <> [] ->
  Upload.toVectors documents = inr vectors ->
  let out := Upload.uploadDocumentsToPinecone upsert fuel documents indexName 0 (w, t) in
  exists evs,
    snd (snd out) = (t ++ evs)%list /\
    Forall (fun b => b = []) (Upload.upserted evs) /\
    (forall ds, fst out <> inr (Some ds)) /\
    ((forall b w0, fst (upsert indexName b w0) = inr tt) ->
     fst out = inr None /\ length (Upload.upserted evs) = fuel).
Proof.
  intros Hne Hvs out. subst out.
  assert (Hv : vectors <> []).
  { intros ->. apply Hne. apply length_zero_iff_nil.
    rewrite <- (toVectors_from_length 0 documents [] Hvs). reflexivity. }
  unfold Upload.uploadDocumentsToPinecone, Upload.uploadDocuments.
  rewrite Hvs. unfold IO.try_catch, IO.bind, IO.ret, IO.emit, IO.throw. cbn [fst snd].
  destruct (uploadLoop_zero_batch indexName vectors Hv fuel 0 w t)
    as (evs & E & Hall & Hnever & Hrun).
  destruct (Upload.uploadLoop upsert fuel indexName 0 vectors 0 0 (w, t))
    as [[e|[n|]] [w' t']]; cbn [fst snd] in *.
  - exists (evs ++ [ErrorLine "Error uploading documents to Pinecone:" e])%list.
    rewrite E, upserted_app, app_nil_r, <- app_assoc.
    split; [reflexivity|]. split; [exact Hall|].
    split; [intros ds H; discriminate H|].
    intros Hok. destruct (Hrun Hok) as [H _]. discriminate H.
  - exfalso. apply (Hnever n). reflexivity.
  - exists evs. split; [exact E|]. split; [exact Hall|].
    split; [intros ds H; discriminate H|].
    intros Hok. destruct (Hrun Hok) as [_ Hl]. split; [reflexivity | exact Hl].
Qed.

End UploadTheorems.

Lemma upload_sends_the_vectors_in_order_without_repeats_witness :
  (0 < 2)%nat /\ (length Sample.three <= 3)%nat /\
  exists vectors evs,
    Upload.toVectors Sample.three = inr vectors /\
    snd (snd (Upload.uploadDocumentsToPinecone Sample.upsert 3 Sample.three "reports" 2
                (0%nat, []))) = evs /\
    concat (Upload.upserted evs) = vectors /\
    map (@length Vector) (Upload.upserted evs) = [2; 1]%nat.
Proof.
  assert (H0 : (0 < 2)%nat) by lia.
  assert (H1 : (length Sample.three <= 3)%nat) by (cbn; lia).
  split; [exact H0|]. split; [exact H1|].
  destruct (Upload.toVectors Sample.three) as [e|vectors] eqn:E; [discriminate E|].
  destruct (upload_sends_the_vectors_in_order_without_repeats Sample.upsert 3 Sample.three
              "reports" 2 vectors 0%nat [] H0 H1 E) as (evs & Hevs & _ & _ & _ & Hall).
  cbn [app] in Hevs.
  exists vectors, evs. split; [reflexivity|]. split; [exact Hevs|].
  split.
  - apply (Hall Sample.three). vm_compute. reflexivity.
  - rewrite <- Hevs. vm_compute. reflexivity.
Defined.

Lemma uploadUnstructuredDocuments_uploads_everything_witness :
  exists w' evs,
    Upload.uploadUnstructuredDocuments Sample.upsert "reports" Sample.three (0%nat, [])
    = (inr (Some Sample.three), (w', evs)) /\
    length (Upload.upserted evs) = 1%nat /\
    In (UploadedAll 3 "reports") evs.
Proof.
  destruct (uploadUnstructuredDocuments_uploads_everything Sample.upsert "reports"
              Sample.three 0%nat [])
    as (vectors & w' & evs & _ & E & _ & Hn & Hin).
  - repeat constructor.
  - intros b w0. reflexivity.
  - exists w', evs. split; [exact E|]. split; [exact Hn | exact Hin].
Defined.

Lemma upload_with_batch_size_zero_never_finishes_witness :
  Sample.three <> [] /\
  fst (Upload.uploadDocumentsToPinecone Sample.upsert 7 Sample.three "reports" 0 (0%nat, []))
  = inr None /\
  exists evs,
    snd (snd (Upload.uploadDocumentsToPinecone Sample.upsert 7 Sample.three "reports" 0
                (0%nat, []))) = evs /\
    length (Upload.upserted evs) = 7%nat /\
    Forall (fun b => b = []) (Upload.upserted evs).
Proof.
  assert (Hne : Sample.three <> []) by discriminate.
  split; [exact Hne|].
  destruct (Upload.toVectors Sample.three) as [e|vectors] eqn:E; [discriminate E|].
  destruct (upload_with_batch_size_zero_never_finishes Sample.upsert 7 Sample.three
              "reports" vectors 0%nat [] Hne E) as (evs & Hevs & Hall & _ & Hrun).
  destruct (Hrun (fun b w0 => eq_refl)) as [Hr Hl].
  split; [exact Hr|]. exists evs. cbn [app] in Hevs.
  split; [exact Hevs|]. split; [exact Hl | exact Hall].
Defined.

(** ** UnstructuredUtil.pollForResult *)

Lemma failedPolls_succ (bucket path : string) (ms k : nat) :
  failedPolls bucket path ms (S k)
  = ([FileExists bucket path; Sleep ms] ++ failedPolls bucket path ms k)%list.
Proof. reflexivity. Qed.

Lemma upserted_failedPolls (bucket path : string) (ms k : nat) :
  Upload.upserted (failedPolls bucket path ms k) = [].
Proof. induction k as [|k IH]; [reflexivity|]. rewrite failedPolls_succ. cbn. exact IH. Qed.

Section Polling.

Context {W : Type}.
Variable fileExists : string -> string -> W -> (thrown + bool) * W.
Variable this : Unstructured.Util.

(** The loop of [pollForResult] passes over checks that answer
    [false], waiting after each of them. *)
Lemma pollLoop_skip (path : string) (maxRetries ms : nat) (k : nat) :
  forall (remaining : nat) (w : W) (t : list effect),
    (k <= remaining)%nat ->
    (forall j, (j < k)%nat ->
       fst (fileExists (Unstructured.gcsBucket this) path
              (afterChecks (fileExists (Unstructured.gcsBucket this) path) j w))
       = inr false) ->
    Unstructured.pollLoop fileExists this remaining path maxRetries ms (w, t)
    = Unstructured.pollLoop fileExists this (remaining - k) path maxRetries ms
        (afterChecks (fileExists (Unstructured.gcsBucket this) path) k w,
         (t ++ failedPolls (Unstructured.gcsBucket this) path ms k)%list).
Proof.
  induction k as [|k IH]; intros remaining w t Hk Hfalse.
  - rewrite Nat.sub_0_r. cbn. rewrite app_nil_r. reflexivity.
  - destruct remaining as [|remaining]; [lia|].
    assert (H0 : fst (fileExists (Unstructured.gcsBucket this) path w) = inr false).
    { apply (Hfalse 0%nat). lia. }
    assert (Hrest : forall j, (j < k)%nat ->
              fst (fileExists (Unstructured.gcsBucket this) path
                     (afterChecks (fileExists (Unstructured.gcsBucket this) path) j
                        (snd (fileExists (Unstructured.gcsBucket this) path w))))
              = inr false).
    { intros j Hj. apply (Hfalse (S j)). lia. }
    assert (Hk' : (k <= remaining)%nat) by lia.
    cbn [Unstructured.pollLoop Nat.sub afterChecks].
    unfold IO.bind, IO.call, IO.emit. cbn [fst snd].
    destruct (fileExists (Unstructured.gcsBucket this) path w) as [r w1].
    cbn [fst snd] in H0, Hrest |- *. subst r. cbn [fst snd].
    rewrite (IH remaining w1 _ Hk' Hrest).
    rewrite failedPolls_succ, <- !app_assoc. reflexivity.
Qed.

(** The loop stops at the first check that does not answer [false]. *)
Lemma pollLoop_stops (path : string) (maxRetries ms : nat) (remaining : nat)
      (w : W) (t : list effect) :
  fst (fileExists (Unstructured.gcsBucket this) path w) <> inr false ->
  Unstructured.pollLoop fileExists this (S remaining) path maxRetries ms (w, t)
  = (match fst (fileExists (Unstructured.gcsBucket this) path w) with
     | inl e => inl e
     | inr _ => inr ("gs://" ++ Unstructured.gcsBucket this ++ "/" ++ path)
     end,
     (snd (fileExists (Unstructured.gcsBucket this) path w),
      (t ++ [FileExists (Unstructured.gcsBucket this) path])%list)).
Proof.
  intros Hne. cbn [Unstructured.pollLoop].
  unfold IO.bind, IO.call, IO.emit, IO.ret. cbn [fst snd].
  destruct (fileExists (Unstructured.gcsBucket this) path w) as [[e|[|]] w1];
    cbn [fst snd] in *; [reflexivity | reflexivity | congruence].
Qed.

(** Every run of the loop is one of the two: it passes over
    [remaining] checks and gives up, or stops at an earlier one. *)
Lemma pollLoop_protocol (path : string) (maxRetries ms : nat) (remaining : nat) :
  forall (w : W) (t : list effect),
    exists k,
      (k <= remaining)%nat /\
      (forall j, (j < k)%nat ->
         fst (fileExists (Unstructured.gcsBucket this) path
                (afterChecks (fileExists (Unstructured.gcsBucket this) path) j w))
         = inr false) /\
      ((k = remaining /\
        Unstructured.pollLoop fileExists this remaining path maxRetries ms (w, t)
        = (inl (timeout maxRetries),
           (afterChecks (fileExists (Unstructured.gcsBucket this) path) k w,
            (t ++ failedPolls (Unstructured.gcsBucket this) path ms k)%list))) \/
       ((k < remaining)%nat /\
        fst (fileExists (Unstructured.gcsBucket this) path
               (afterChecks (fileExists (Unstructured.gcsBucket this) path) k w))
        <> inr false /\
        Unstructured.pollLoop fileExists this remaining path maxRetries ms (w, t)
        = (match fst (fileExists (Unstructured.gcsBucket this) path
                        (afterChecks (fileExists (Unstructured.gcsBucket this) path) k w))
           with
           | inl e => inl e
           | inr _ => inr ("gs://" ++ Unstructured.gcsBucket this ++ "/" ++ path)
           end,
           (snd (fileExists (Unstructured.gcsBucket this) path
                   (afterChecks (fileExists (Unstructured.gcsBucket this) path) k w)),
            (t ++ failedPolls (Unstructured.gcsBucket this) path ms k
               ++ [FileExists (Unstructured.gcsBucket this) path])%list)))).
Proof.
  induction remaining as [|remaining IH]; intros w t.
  - exists 0%nat. split; [lia|]. split; [intros j Hj; lia|]. left.
    split; [reflexivity|]. cbn. rewrite app_nil_r. reflexivity.
  - destruct (fst (fileExists (Unstructured.gcsBucket this) path w)) as [e|[|]] eqn:E.
    + exists 0%nat. split; [lia|]. split; [intros j Hj; lia|]. right.
      split; [lia|]. cbn [afterChecks failedPolls repeat concat app].
      split; [rewrite E; discriminate|].
      apply pollLoop_stops. rewrite E. discriminate.
    + exists 0%nat. split; [lia|]. split; [intros j Hj; lia|]. right.
      split; [lia|]. cbn [afterChecks failedPolls repeat concat app].
      split; [rewrite E; discriminate|].
      apply pollLoop_stops. rewrite E. discriminate.
    + assert (H1 : forall j, (j < 1)%nat ->
                fst (fileExists (Unstructured.gcsBucket this) path
                       (afterChecks (fileExists (Unstructured.gcsBucket this) path) j w))
                = inr false).
      { intros j Hj. replace j with 0%nat by lia. exact E. }
      assert (Hle : (1 <= S remaining)%nat) by lia.
      pose proof (pollLoop_skip path maxRetries ms 1 (S remaining) w t Hle H1) as Hskip.
      cbn [Nat.sub afterChecks] in Hskip. rewrite Nat.sub_0_r in Hskip.
      destruct (IH (snd (fileExists (Unstructured.gcsBucket this) path w))
                   (t ++ failedPolls (Unstructured.gcsBucket this) path ms 1)%list)
        as (k & Hk & Hfalse & Hout).
      exists (S k). split; [lia|]. split.
      * intros [|j] Hj; [exact E | apply (Hfalse j); lia].
      * cbn [afterChecks]. rewrite failedPolls_succ, Hskip.
        change (failedPolls (Unstructured.gcsBucket this) path ms 1)
          with [FileExists (Unstructured.gcsBucket this) path; Sleep ms] in Hout |- *.
        destruct Hout as [(-> & Ho)|(Hlt & Hne & Ho)]; [left | right].
        -- split; [reflexivity|]. rewrite Ho, <- !app_assoc. reflexivity.
        -- split; [lia|]. split; [exact Hne|]. rewrite Ho, <- !app_assoc. reflexivity.
Qed.

(** X13. [pollForResult] alternates checks and waits, starting with a
    check. It passes over the checks that answer [false], waiting
    [pollingInterval] after each. Either all [maxRetries] checks answer
    [false] and it throws the timeout error; or it stops at the first
    check that does not answer [false], without waiting after it: it
    returns the [gs://] path of the file when that check answers
    [true], and throws what the check threw when it throws. *)
Theorem pollForResult_checks_then_waits
        (path : string) (maxRetries pollingInterval : nat) (w : W) (t : list effect) :
  let bucket := Unstructured.gcsBucket this in
  let check := fileExists bucket path in
  let out := Unstructured.pollForResult fileExists this path maxRetries pollingInterval (w, t) in
  exists k,
    (k <= maxRetries)%nat /\
    (forall j, (j < k)%nat -> fst (check (afterChecks check j w)) = inr false) /\
    ((k = maxRetries /\
      out = (inl (timeout maxRetries),
             (afterChecks check k w,
              (t ++ failedPolls bucket path pollingInterval k)%list))) \/
     ((k < maxRetries)%nat /\
      fst (check (afterChecks check k w)) <> inr false /\
      out = (match fst (check (afterChecks check k w)) with
             | inl e => inl e
             | inr _ => inr ("gs://" ++ bucket ++ "/" ++ path)
             end,
             (snd (check (afterChecks check k w)),
              (t ++ failedPolls bucket path pollingInterval k
                 ++ [FileExists bucket path])%list)))).
Proof. apply pollLoop_protocol. Qed.

Lemma pollLoop_never_found (path : string) (maxRetries ms : nat) :
  (forall w, fst (fileExists (Unstructured.gcsBucket this) path w) = inr false) ->
  forall (remaining : nat) (w : W) (t : list effect),
    exists w',
      Unstructured.pollLoop fileExists this remaining path maxRetries ms (w, t)
      = (inl (timeout maxRetries),
         (w', (t ++ failedPolls (Unstructured.gcsBucket this) path ms remaining)%list)).
Proof.
  intros Hno. induction remaining as [|remaining IH]; intros w t.
  - exists w. cbn. rewrite app_nil_r. reflexivity.
  - cbn [Unstructured.pollLoop]. unfold IO.bind, IO.call, IO.emit. cbn [fst snd].
    pose proof (Hno w) as H.
    destruct (fileExists (Unstructured.gcsBucket this) path w) as [r w1].
    cbn [fst] in H. subst r. cbn [fst snd].
    destruct (IH w1 ((t ++ [FileExists (Unstructured.gcsBucket this) path]) ++ [Sleep ms])%list)
      as [w' E].
    exists w'. rewrite E, failedPolls_succ, <- !app_assoc. reflexivity.
Qed.

(** X14. When the file never appears, [pollForResult] checks exactly
    [maxRetries] times, waits after every check (also the last one), and
    throws [Workflow timeout after <maxRetries> retries]. *)
Theorem pollForResult_times_out_after_maxRetries_checks
        (path : string) (maxRetries pollingInterval : nat) (w : W) (t : list effect) :
  (forall w0, fst (fileExists (Unstructured.gcsBucket this) path w0) = inr false) ->
  exists w',
    Unstructured.pollForResult fileExists this path maxRetries pollingInterval (w, t)
    = (inl (ErrorWith ("Workflow timeout after " ++ Str.of_nat maxRetries ++ " retries")),
       (w', (t ++ failedPolls (Unstructured.gcsBucket this) path pollingInterval maxRetries)%list))
    /\ length (failedPolls (Unstructured.gcsBucket this) path pollingInterval maxRetries)
       = (2 * maxRetries)%nat.
Proof.
  intros Hno.
  destruct (pollLoop_never_found path maxRetries pollingInterval Hno maxRetries w t) as [w' E].
  exists w'. split; [exact E|].
  clear. induction maxRetries as [|n IH]; [reflexivity|].
  rewrite failedPolls_succ. cbn [app length]. rewrite IH. lia.
Qed.

End Polling.

Lemma pollForResult_times_out_after_maxRetries_checks_witness :
  exists w',
    Unstructured.pollForResult Sample.neverExists Sample.util "out/hood.json" 10 5000
      (0%nat, [])
    = (inl (ErrorWith "Workflow timeout after 10 retries"),
       (w', failedPolls "results" "out/hood.json" 5000 10)) /\
    length (failedPolls "results" "out/hood.json" 5000 10) = 20%nat.
Proof.
  destruct (pollForResult_times_out_after_maxRetries_checks Sample.neverExists Sample.util
              "out/hood.json" 10 5000 0%nat [] (fun w0 => eq_refl)) as (w' & E & L).
  exists w'. split; [exact E | exact L].
Defined.

(** The file is there from the third check on: two checks with a wait
    after each, then the check that finds it. A bucket that cannot be
    reached ends the polling at the first check. *)
Example pollForResult_finds_the_file_at_the_third_check :
  Unstructured.pollForResult (Sample.existsFrom 2) Sample.util "out/hood.json" 10 5000
    (0%nat, [])
  = (inr "gs://results/out/hood.json",
     (3%nat, (failedPolls "results" "out/hood.json" 5000 2
                ++ [FileExists "results" "out/hood.json"])%list)) /\
  Unstructured.pollForResult Sample.unreachable Sample.util "out/hood.json" 10 5000
    (0%nat, [])
  = (inl (ErrorWith "ECONNRESET"), (1%nat, [FileExists "results" "out/hood.json"])).
Proof. split; vm_compute; reflexivity. Qed.

(** ** UnstructuredUtil.processAndIndexDocument *)

Section Indexing.

Context {W : Type}.
Variable fileExists : string -> string -> W -> (thrown + bool) * W.
Variable axiosPost : string -> string -> W -> (thrown + jsval) * W.
Variable upsert : string -> list Vector -> W -> (thrown + unit) * W.
Variable this : Unstructured.Util.

(** X15. [processAndIndexDocument] always throws and never sends a
    vector to the index. When the workflow cannot be started it throws
    what the request threw; when the result file is in none of the ten
    checks it throws the timeout error; and when the workflow starts
    and the file is found, at the first check or after any number of
    waits, it fails with
    [Method not implemented: downloadAndProcessResults]. *)
Theorem processAndIndexDocument_never_uploads
        (fuel : nat) (workflowId indexName resultPath : string) (w : W) (t : list effect) :
  let out :=
    Unstructured.processAndIndexDocument fileExists axiosPost upsert this
      fuel workflowId indexName resultPath (w, t) in
  let url := Unstructured.baseUrl ++ "/workflows/" ++ workflowId ++ "/run" in
  let check := fileExists (Unstructured.gcsBucket this) resultPath in
  (exists e, fst out = inl e) /\
  Upload.upserted (snd (snd out)) = Upload.upserted t /\
  (forall e w1,
      axiosPost url (Unstructured.apiKey this) w = (inl e, w1) -> fst out = inl e) /\
  (forall data w1,
      axiosPost url (Unstructured.apiKey this) w = (inr data, w1) ->
      (forall j, (j < 10)%nat -> fst (check (afterChecks check j w1)) = inr false) ->
      fst out = inl (timeout 10)) /\
  (forall data w1 k,
      axiosPost url (Unstructured.apiKey this) w = (inr data, w1) ->
      (k < 10)%nat ->
      (forall j, (j < k)%nat -> fst (check (afterChecks check j w1)) = inr false) ->
      fst (check (afterChecks check k w1)) = inr true ->
      fst out = inl (ErrorWith "Method not implemented: downloadAndProcessResults")).
Proof.
  intros out url check. subst out url check.
  unfold Unstructured.processAndIndexDocument, Unstructured.runWorkflow,
    Unstructured.downloadAndProcessResults, Unstructured.pollForResult.
  unfold IO.try_catch, IO.bind, IO.call, IO.emit, IO.throw. cbn [fst snd].
  destruct (axiosPost (Unstructured.baseUrl ++ "/workflows/" ++ workflowId ++ "/run")
                      (Unstructured.apiKey this) w) as [[e|data] w1]; cbn [fst snd].
  - split; [eexists; reflexivity|]. split; [| split; [| split]].
    + rewrite !upserted_app. cbn. rewrite !app_nil_r. reflexivity.
    + intros e' w1' H. injection H as <- <-. reflexivity.
    + intros data w1' H. discriminate H.
    + intros data w1' k H. discriminate H.
  - set (t1 := ((t ++ [HttpPost (Unstructured.baseUrl ++ "/workflows/" ++ workflowId ++ "/run")
                                (Unstructured.apiKey this)])
                ++ [InfoLine "Workflow started:" data])%list).
    assert (Ht1 : Upload.upserted t1 = Upload.upserted t).
    { subst t1. rewrite !upserted_app. cbn. rewrite !app_nil_r. reflexivity. }
    destruct (pollLoop_protocol fileExists this resultPath 10 5000 10 w1 t1)
      as (k & Hk & Hfalse & Hout).
    destruct Hout as [(-> & Ho)|(Hlt & Hne & Ho)]; rewrite Ho; cbn [fst snd].
    + split; [eexists; reflexivity|]. split; [| split; [| split]].
      * repeat rewrite upserted_app. rewrite upserted_failedPolls, Ht1.
        cbn. rewrite ?app_nil_r. reflexivity.
      * intros e w1' H. discriminate H.
      * intros data' w1' H _. reflexivity.
      * intros data' w1' k H Hk' Hf Htrue. injection H as <- <-.
        rewrite (Hfalse k Hk') in Htrue. discriminate Htrue.
    + assert (Hkey : forall data' w1' k',
                 (@inr thrown jsval data, w1) = (inr data', w1') ->
                 (forall j, (j < k')%nat ->
                    fst (fileExists (Unstructured.gcsBucket this) resultPath
                           (afterChecks (fileExists (Unstructured.gcsBucket this) resultPath)
                              j w1')) = inr false) ->
                 fst (fileExists (Unstructured.gcsBucket this) resultPath
                        (afterChecks (fileExists (Unstructured.gcsBucket this) resultPath)
                           k' w1')) <> inr false ->
                 k' = k).
      { intros data' w1' k' H Hf Hn. injection H as <- <-.
        destruct (Nat.lt_trichotomy k' k) as [L|[L|L]]; [| exact L |].
        - exfalso. apply Hn. apply Hfalse. exact L.
        - exfalso. apply Hne. apply Hf. exact L. }
      destruct (fst (fileExists (Unstructured.gcsBucket this) resultPath
                       (afterChecks (fileExists (Unstructured.gcsBucket this) resultPath)
                          k w1))) as [e|found] eqn:Ef; cbn [fst snd].
      * split; [eexists; reflexivity|]. split; [| split; [| split]].
        -- repeat rewrite upserted_app. rewrite upserted_failedPolls, Ht1.
           cbn. rewrite ?app_nil_r. reflexivity.
        -- intros e' w1' H. discriminate H.
        -- intros data' w1' H Hf. injection H as <- <-.
           rewrite (Hf k ltac:(lia)) in Ef. discriminate Ef.
        -- intros data' w1' k' H Hk' Hf Htrue.
           assert (k' = k) as -> by (apply (Hkey data' w1' k' H Hf); rewrite Htrue; discriminate).
           injection H as <- <-. rewrite Ef in Htrue. discriminate Htrue.
      * split; [eexists; reflexivity|]. split; [| split; [| split]].
        -- repeat rewrite upserted_app. rewrite upserted_failedPolls, Ht1.
           cbn. rewrite ?app_nil_r. reflexivity.
        -- intros e' w1' H. discriminate H.
        -- intros data' w1' H Hf. injection H as <- <-.
           pose proof (Hf k Hlt) as Hk0. rewrite Ef in Hk0. exfalso. exact (Hne Hk0).
        -- intros; reflexivity.
Qed.

End Indexing.

(** The workflow starts and the result file is found at the third
    check, after two waits. *)
Lemma processAndIndexDocument_never_uploads_witness :
  Sample.axiosPost "https://platform.unstructuredapp.io/api/v1/workflows/workflow-1/run"
    "key" 0%nat
  = (inr (VObj [("id", VStr "run-1")]), 1%nat) /\
  fst (Sample.existsFrom 3 "results" "out/hood.json" 1%nat) = inr false /\
  fst (Sample.existsFrom 3 "results" "out/hood.json" 2%nat) = inr false /\
  fst (Sample.existsFrom 3 "results" "out/hood.json" 3%nat) = inr true /\
  fst (Unstructured.processAndIndexDocument (Sample.existsFrom 3) Sample.axiosPost
         Sample.upsert Sample.util 0 "workflow-1" "reports" "out/hood.json" (0%nat, []))
  = inl (ErrorWith "Method not implemented: downloadAndProcessResults").
Proof.
  split; [reflexivity|]. split; [reflexivity|]. split; [reflexivity|].
  split; [reflexivity|].
  refine (proj2 (proj2 (proj2 (proj2
            (processAndIndexDocument_never_uploads (Sample.existsFrom 3) Sample.axiosPost
               Sample.upsert Sample.util 0 "workflow-1" "reports" "out/hood.json"
               0%nat []))))
            (VObj [("id", VStr "run-1")]) 1%nat 2%nat eq_refl _ _ eq_refl).
  - lia.
  - intros [|[|j]] Hj; [reflexivity | reflexivity | lia].
Defined.

(** ** UnstructuredUtil.getUnstructuredResources *)





Section Resources.

Context {W : Type}.
Variable axiosGet : string -> list (string * string) -> string -> W -> (thrown + jsval) * W.
Variable this : Unstructured.Util.


End Resources.


(** ** PineconeService.createStore *)

(** X17. [createStore] uses the index name it is given unless that is
    missing or empty, in which case it uses [PINECONE_INDEX]; when that
    is missing or empty too it throws without opening anything.
    Otherwise it opens exactly that index, whose name is not empty, and
    its outcome is the outcome of opening it. *)
Theorem createStore_opens_a_named_index_or_nothing
        {W} (fromExistingIndex : string -> W -> (thrown + unit) * W)
        (PINECONE_INDEX indexName : option string) (w : W) (t : list effect) :
  let out := Pinecone.createStore fromExistingIndex PINECONE_INDEX indexName (w, t) in
  let usable (v : option string) := match v with Some (String _ _) => true | _ => false end in
  (usable indexName = false /\ usable PINECONE_INDEX = false /\
   out = (inl (ErrorWith "No Pinecone index specified. Provide an index name or set PINECONE_INDEX environment variable."), (w, t)))
  \/
  (exists index,
      index <> EmptyString /\
      Some index = (if usable indexName then indexName else PINECONE_INDEX) /\
      snd (snd out) = (t ++ [OpenIndex index])%list /\
      fst out = fst (fromExistingIndex index w)).
Proof.
  intros out usable. subst out usable. unfold Pinecone.createStore, Pinecone.or_else.
  destruct indexName as [[|c n]|]; destruct PINECONE_INDEX as [[|c' n']|];
    try (left; repeat split; reflexivity);
    right; eexists; (split; [| split; [reflexivity|]]); try discriminate;
    unfold IO.call; cbn [fst snd];
    match goal with |- context [fromExistingIndex ?i w] =>
      destruct (fromExistingIndex i w) as [r w'] end; split; reflexivity.
Qed.

(** ** The controllers *)

Section ControllerFacts.

Context {W : Type}.
Variable X : Externals W.
Variable getDocs : string -> W -> (thrown + list Document) * W.
Variable render : string -> list (string * jsval) -> W -> (thrown + unit) * W.

Lemma parse_rejects (fields : list (string * jsval)) (key : string) :
  In key ["docName"; "companyName"; "docType"; "reportType"] ->
  (forall s, get_field fields key <> VStr s) ->
  Controllers.docConfigSchema_parse (VObj fields) = inl (ZodError (VObj fields)).
Proof.
  intros Hin Hno. unfold Controllers.docConfigSchema_parse.
  destruct (get_field fields "docName") eqn:E1; try reflexivity.
  destruct (get_field fields "companyName") eqn:E2; try reflexivity.
  destruct (get_field fields "docType") eqn:E3; try reflexivity.
  destruct (get_field fields "reportType") eqn:E4; try reflexivity.
  exfalso. cbn [In] in Hin.
  destruct Hin as [<-|[<-|[<-|[<-|[]]]]]; eapply Hno; eassumption.
Qed.

(** X18. A request body in which one of [docName], [companyName],
    [docType], [reportType] is not a string is handed to [next] as a
    validation error: no document is loaded, the chain does not run and
    nothing is rendered. *)
Theorem processInputController_rejects_an_incomplete_body
        (fields : list (string * jsval)) (key : string) (w : W) (t : list effect) :
  In key ["docName"; "companyName"; "docType"; "reportType"] ->
  (forall s, get_field fields key <> VStr s) ->
  Controllers.processInputController X getDocs render (VObj fields) (w, t)
  = (inr tt, (w, t ++ [Next (ZodError (VObj fields))])%list).
Proof.
  intros Hin Hno. unfold Controllers.processInputController; cbv zeta.
  rewrite (parse_rejects fields key Hin Hno). reflexivity.
Qed.

(** X19. For a valid body, when the documents load and the chain
    returns an object, [processInputController] renders the [results]
    view once with [tableContent] being the [reformatted_content] of that
    object ([undefined] when the object has none), and does not call
    [next]. *)
Theorem processInputController_renders_the_reformatted_content
        (body : jsval) (c : DocConfig) (docs : list Document)
        (fields : list (string * jsval)) (w w1 w3 : W) (t : list effect) :
  Controllers.docConfigSchema_parse body = inr c ->
  getDocs Controllers.docName w = (inr docs, w1) ->
  fst (run X docs c w1) = inr (VObj fields) ->
  render "results" [("tableContent", get_field fields "reformatted_content")]
         (world (snd (run X docs c w1))) = (inr tt, w3) ->
  Controllers.processInputController X getDocs render body (w, t)
  = (inr tt,
     (w3, t ++ [ GetDocs Controllers.docName;
                 ChainRun docs c (trace (snd (run X docs c w1)));
                 Render "results"
                   [("tableContent", get_field fields "reformatted_content")] ])%list).
Proof.
  intros Hp Hd Hr Hv. unfold Controllers.processInputController; cbv zeta.
  rewrite Hp. unfold IO.try_catch, IO.bind, IO.call, IO.ret, IO.emit,
    Controllers.awaitReportChain, Controllers.tag.
  cbn [fst snd]. rewrite Hd. cbn [fst snd]. rewrite Hr.
  cbn [Controllers.member fst snd]. rewrite Hv. cbn [fst snd].
  rewrite <- !app_assoc. reflexivity.
Qed.

(** X20. When the chain throws, or returns [null],
    [processInputController] renders nothing and calls [next] once: with
    the chain's error, or with the error of reading
    [reformatted_content] of [null]. *)
Theorem processInputController_hands_failures_to_next
        (body : jsval) (c : DocConfig) (docs : list Document)
        (r : error + jsval) (w w1 : W) (t : list effect) :
  Controllers.docConfigSchema_parse body = inr c ->
  getDocs Controllers.docName w = (inr docs, w1) ->
  fst (run X docs c w1) = r ->
  (exists e, r = inl e) \/ r = inr VNull ->
  Controllers.processInputController X getDocs render body (w, t)
  = (inr tt,
     (world (snd (run X docs c w1)),
      t ++ [ GetDocs Controllers.docName;
             ChainRun docs c (trace (snd (run X docs c w1)));
             Next (match r with
                   | inl e => ChainError e
                   | inr _ =>
                       TypeError "Cannot read properties of null (reading 'reformatted_content')"
                   end) ])%list).
Proof.
  intros Hp Hd Hr Hcase. unfold Controllers.processInputController; cbv zeta.
  rewrite Hp. unfold IO.try_catch, IO.bind, IO.call, IO.ret, IO.emit, IO.throw,
    Controllers.awaitReportChain, Controllers.tag.
  cbn [fst snd]. rewrite Hd. cbn [fst snd]. rewrite Hr.
  destruct Hcase as [[e ->]| ->]; cbn [Controllers.member fst snd];
    rewrite <- !app_assoc; reflexivity.
Qed.

Lemma responses_app (a b : list effect) :
  responses (a ++ b) = (responses a ++ responses b)%list.
Proof. apply filter_app. Qed.

(** X21. Provided [res.render] does not throw,
    [processInputController] answers every request exactly once: it
    either renders or calls [next], never both and never neither. *)
Theorem processInputController_answers_exactly_once
        (body : jsval) (w : W) (t : list effect) :
  (forall view locals w0, fst (render view locals w0) = inr tt) ->
  let out := Controllers.processInputController X getDocs render body (w, t) in
  exists evs,
    snd (snd out) = (t ++ evs)%list /\ length (responses evs) = 1%nat.
Proof.
  intros Hrender out. subst out. unfold Controllers.processInputController; cbv zeta.
  destruct (Controllers.docConfigSchema_parse body) as [e|c].
  { eexists. split; reflexivity. }
  unfold IO.try_catch, IO.bind, IO.call, IO.ret, IO.emit, IO.throw,
    Controllers.awaitReportChain, Controllers.tag.
  cbn [fst snd].
  destruct (getDocs Controllers.docName w) as [[e|docs] w1]; cbn [fst snd].
  { eexists. split; [rewrite <- app_assoc; reflexivity | reflexivity]. }
  destruct (fst (run X docs c w1)) as [e|v]; cbn [fst snd].
  { eexists. split; [rewrite <- !app_assoc; reflexivity | reflexivity]. }
  destruct (Controllers.member v "reformatted_content") as [e|results]; cbn [fst snd].
  { eexists. split; [rewrite <- !app_assoc; reflexivity | reflexivity]. }
  pose proof (Hrender "results" [("tableContent", results)] (world (snd (run X docs c w1))))
    as Hr.
  destruct (render "results" [("tableContent", results)] (world (snd (run X docs c w1))))
    as [rr w3].
  cbn [fst] in Hr. subst rr. cbn [fst snd].
  eexists. split; [rewrite <- !app_assoc; reflexivity | reflexivity].
Qed.

(** X22. The [docName] of the request does not choose the file: the
    documents are always loaded from [hood-10Q.pdf.json], and two valid
    bodies that differ only in [docName] leave the same world and give
    the same answer. *)
Theorem processInputController_ignores_the_requested_document_name
        (body1 body2 : jsval) (name1 name2 company type report : string)
        (w : W) (t : list effect) :
  Controllers.docConfigSchema_parse body1 = inr (mkDocConfig name1 company type report) ->
  Controllers.docConfigSchema_parse body2 = inr (mkDocConfig name2 company type report) ->
  let out1 := Controllers.processInputController X getDocs render body1 (w, t) in
  let out2 := Controllers.processInputController X getDocs render body2 (w, t) in
  fst (snd out1) = fst (snd out2) /\
  responses (snd (snd out1)) = responses (snd (snd out2)) /\
  exists rest, snd (snd out1) = (t ++ GetDocs "hood-10Q.pdf.json" :: rest)%list.
Proof.
  intros Hp1 Hp2 out1 out2. subst out1 out2.
  unfold Controllers.processInputController; cbv zeta. rewrite Hp1, Hp2.
  unfold IO.try_catch, IO.bind, IO.call, IO.ret, IO.emit, IO.throw,
    Controllers.awaitReportChain, Controllers.tag.
  cbn [fst snd].
  destruct (getDocs Controllers.docName w) as [[e|docs] w1]; cbn [fst snd].
  { split; [reflexivity|]. split; [reflexivity|].
    eexists. rewrite <- app_assoc. reflexivity. }
  rewrite !run_result, !run_world.
  change (summary X docs (mkDocConfig name2 company type report) w1)
    with (summary X docs (mkDocConfig name1 company type report) w1).
  destruct (summary X docs (mkDocConfig name1 company type report) w1)
    as [[[e|v] w2] cs]; cbn [fst snd].
  { split; [reflexivity|]. split.
    - rewrite !responses_app. reflexivity.
    - eexists. rewrite <- !app_assoc. reflexivity. }
  destruct (Controllers.member v "reformatted_content") as [e|results]; cbn [fst snd].
  { split; [reflexivity|]. split.
    - rewrite !responses_app. reflexivity.
    - eexists. rewrite <- !app_assoc. reflexivity. }
  destruct (render "results" [("tableContent", results)] w2) as [[e|[]] w3]; cbn [fst snd].
  - split; [reflexivity|]. split.
    + rewrite !responses_app. reflexivity.
    + eexists. rewrite <- !app_assoc. reflexivity.
  - split; [reflexivity|]. split.
    + rewrite !responses_app. reflexivity.
    + eexists. rewrite <- !app_assoc. reflexivity.
Qed.

(** X23. [initializeController] renders the index page before it
    loads the documents: when loading fails the page has already been
    rendered, [next] is called with the error as well, and the document
    array is left as it was. *)
Theorem initializeController_renders_before_it_loads
        (docArray : list Document) (e : thrown) (w w1 w2 : W) (t : list effect) :
  render "index" [("title", VStr "Financial Compiler for hood-10Q.pdf.json")] w = (inr tt, w1) ->
  getDocs Controllers.docName w1 = (inl e, w2) ->
  Controllers.initializeController getDocs render docArray (w, t)
  = (inr docArray,
     (w2, t ++ [ Render "index" [("title", VStr "Financial Compiler for hood-10Q.pdf.json")];
                 GetDocs "hood-10Q.pdf.json";
                 Next (DocsError e) ])%list).
Proof.
  intros Hr Hd. unfold Controllers.initializeController; cbv zeta.
  unfold IO.try_catch, IO.bind, IO.call, IO.ret, IO.emit, IO.throw, Controllers.tag.
  cbn [fst snd].
  change ("Financial Compiler for " ++ Controllers.docName)
    with "Financial Compiler for hood-10Q.pdf.json".
  rewrite Hr. cbn [fst snd]. rewrite Hd. cbn [fst snd].
  rewrite <- !app_assoc. reflexivity.
Qed.

Lemma initializeController_appends (docs docArray : list Document) :
  (forall view locals w0, fst (render view locals w0) = inr tt) ->
  (forall w0, fst (getDocs Controllers.docName w0) = inr docs) ->
  forall s, fst (Controllers.initializeController getDocs render docArray s)
            = inr (docArray ++ docs)%list.
Proof.
  intros Hrender Hdocs [w t]. unfold Controllers.initializeController; cbv zeta.
  unfold IO.try_catch, IO.bind, IO.call, IO.ret, IO.emit, IO.throw, Controllers.tag.
  cbn [fst snd].
  pose proof (Hrender "index" [("title", VStr ("Financial Compiler for " ++ Controllers.docName))] w)
    as Hr.
  destruct (render "index" [("title", VStr ("Financial Compiler for " ++ Controllers.docName))] w)
    as [rr w1].
  cbn [fst] in Hr. subst rr. cbn [fst snd].
  pose proof (Hdocs w1) as Hd.
  destruct (getDocs Controllers.docName w1) as [rd w2]. cbn [fst] in Hd. subst rd.
  reflexivity.
Qed.

(** X24. Every successful visit of the index page appends the loaded
    documents to the document array: after two visits the array holds
    its former content followed by the documents twice. *)
Theorem initializeController_accumulates_documents
        (docs docArray : list Document) (s : W * list effect) :
  (forall view locals w0, fst (render view locals w0) = inr tt) ->
  (forall w0, fst (getDocs Controllers.docName w0) = inr docs) ->
  let first := Controllers.initializeController getDocs render docArray s in
  exists after,
    fst first = inr after /\
    fst (Controllers.initializeController getDocs render after (snd first))
    = inr (docArray ++ docs ++ docs)%list /\
    length (docArray ++ docs ++ docs) = (length docArray + 2 * length docs)%nat.
Proof.
  intros Hrender Hdocs first. subst first.
  exists (docArray ++ docs)%list. split; [| split].
  - apply initializeController_appends; assumption.
  - rewrite (initializeController_appends docs (docArray ++ docs) Hrender Hdocs).
    rewrite <- app_assoc. reflexivity.
  - rewrite !length_app. lia.
Qed.

End ControllerFacts.

Lemma processInputController_rejects_an_incomplete_body_witness :
  In "docType" ["docName"; "companyName"; "docType"; "reportType"] /\
  Controllers.processInputController Stub.scenarioA Sample.getDocs Sample.render
    (VObj [ ("docName", VStr "hood-10Q.pdf.json"); ("companyName", VStr "Robinhood");
            ("docType", VNum 10%float); ("reportType", VStr "Balance Sheet") ]) (0%nat, [])
  = (inr tt,
     (0%nat,
      [ Next (ZodError
                (VObj [ ("docName", VStr "hood-10Q.pdf.json");
                        ("companyName", VStr "Robinhood");
                        ("docType", VNum 10%float);
                        ("reportType", VStr "Balance Sheet") ])) ])).
Proof.
  assert (H : In "docType" ["docName"; "companyName"; "docType"; "reportType"])
    by (right; right; left; reflexivity).
  split; [exact H|].
  apply (processInputController_rejects_an_incomplete_body Stub.scenarioA Sample.getDocs
           Sample.render _ "docType" 0%nat [] H).
  intros s E. discriminate E.
Defined.

Lemma processInputController_renders_the_reformatted_content_witness :
  exists record,
    Controllers.processInputController Stub.scenarioA Sample.getDocs Sample.render
      (Sample.body "hood-10Q.pdf.json") (0%nat, [])
    = (inr tt,
       (7%nat,
        [ GetDocs "hood-10Q.pdf.json";
          ChainRun [Stub.e1] Stub.hood record;
          Render "results" [("tableContent", VStr Stub.tableA)] ])).
Proof.
  eexists.
  apply (processInputController_renders_the_reformatted_content Stub.scenarioA
           Sample.getDocs Sample.render (Sample.body "hood-10Q.pdf.json") Stub.hood
           [Stub.e1] [("reformatted_content", VStr Stub.tableA)] 0%nat 1%nat 7%nat []).
  - reflexivity.
  - reflexivity.
  - vm_compute. reflexivity.
  - vm_compute. reflexivity.
Defined.

Lemma processInputController_hands_failures_to_next_witness :
  fst (run Sample.nullReply [Stub.e1] Stub.hood 1%nat) = inr VNull /\
  exists record,
    Controllers.processInputController Sample.nullReply Sample.getDocs Sample.render
      (Sample.body "hood-10Q.pdf.json") (0%nat, [])
    = (inr tt,
       (6%nat,
        [ GetDocs "hood-10Q.pdf.json";
          ChainRun [Stub.e1] Stub.hood record;
          Next (TypeError "Cannot read properties of null (reading 'reformatted_content')") ])).
Proof.
  assert (H : fst (run Sample.nullReply [Stub.e1] Stub.hood 1%nat) = inr VNull)
    by (vm_compute; reflexivity).
  split; [exact H|].
  exists (trace (snd (run Sample.nullReply [Stub.e1] Stub.hood 1%nat))).
  etransitivity.
  - exact (processInputController_hands_failures_to_next Sample.nullReply
             Sample.getDocs Sample.render (Sample.body "hood-10Q.pdf.json") Stub.hood
             [Stub.e1] (inr VNull) 0%nat 1%nat [] eq_refl eq_refl H (or_intror eq_refl)).
  - vm_compute. reflexivity.
Defined.

Lemma processInputController_answers_exactly_once_witness :
  exists evs,
    snd (snd (Controllers.processInputController Stub.scenarioA Sample.getDocs Sample.render
                (Sample.body "hood-10Q.pdf.json") (0%nat, []))) = evs /\
    length (responses evs) = 1%nat.
Proof.
  destruct (processInputController_answers_exactly_once Stub.scenarioA Sample.getDocs
              Sample.render (Sample.body "hood-10Q.pdf.json") 0%nat []
              (fun view locals w0 => eq_refl)) as (evs & E & L).
  exists evs. split; [exact E | exact L].
Defined.

Lemma processInputController_ignores_the_requested_document_name_witness :
  responses (snd (snd (Controllers.processInputController Stub.scenarioA Sample.getDocs
                         Sample.render (Sample.body "hood-10Q.pdf.json") (0%nat, []))))
  = responses (snd (snd (Controllers.processInputController Stub.scenarioA Sample.getDocs
                           Sample.render (Sample.body "other.pdf.json") (0%nat, [])))) /\
  exists rest,
    snd (snd (Controllers.processInputController Stub.scenarioA Sample.getDocs
                Sample.render (Sample.body "other.pdf.json") (0%nat, [])))
    = GetDocs "hood-10Q.pdf.json" :: rest.
Proof.
  pose proof (processInputController_ignores_the_requested_document_name Stub.scenarioA
                Sample.getDocs Sample.render
                (Sample.body "other.pdf.json") (Sample.body "hood-10Q.pdf.json")
                "other.pdf.json" "hood-10Q.pdf.json" "Robinhood" "10-Q" "Balance Sheet"
                0%nat [] eq_refl eq_refl) as H.
  cbv zeta in H. destruct H as (_ & Hr & Hrest).
  split; [symmetry; exact Hr | exact Hrest].
Defined.

Lemma initializeController_renders_before_it_loads_witness :
  Controllers.initializeController Sample.failingGetDocs Sample.render [Stub.e1] (0%nat, [])
  = (inr [Stub.e1],
     (2%nat,
      [ Render "index" [("title", VStr "Financial Compiler for hood-10Q.pdf.json")];
        GetDocs "hood-10Q.pdf.json";
        Next (DocsError
                (ErrorWith "GCS_OUTPUT_BUCKET environment variable is required")) ])).
Proof.
  apply (initializeController_renders_before_it_loads Sample.failingGetDocs Sample.render
           [Stub.e1] (ErrorWith "GCS_OUTPUT_BUCKET environment variable is required")
           0%nat 1%nat 2%nat []).
  - reflexivity.
  - reflexivity.
Defined.

Lemma initializeController_accumulates_documents_witness :
  exists after,
    fst (Controllers.initializeController Sample.getDocs Sample.render [] (0%nat, []))
    = inr after /\
    fst (Controllers.initializeController Sample.getDocs Sample.render after
           (snd (Controllers.initializeController Sample.getDocs Sample.render []
                   (0%nat, []))))
    = inr [Stub.e1; Stub.e1].
Proof.
  destruct (initializeController_accumulates_documents Sample.getDocs Sample.render
              [Stub.e1] [] (0%nat, [])
              (fun view locals w0 => eq_refl) (fun w0 => eq_refl)) as (after & E1 & E2 & _).
  exists after. split; [exact E1 | exact E2].
Defined.
